(** * Habit tracker: the derivation layer, the habit handlers, the reminder
    scheduler and the data endpoint, embedded from the JavaScript sources.

    The client module (the React component with [percentForDay],
    [calculateStreak], [monthlyInsight], [slugify], [scheduleReminders],
    [triggerReminder], the save effect and the habit and task handlers) and
    the server module (the account endpoints, [GET /api/data] and
    [POST /api/data]) are translated function by function.

    - Numbers.  Counts, lengths and percentages are integers; the quotients
      [completed / total] and [sum / length] and the product by 100 are
      doubles, taken through a model of binary64 rounding that is checked
      against the hardware doubles.
    - Objects.  An object read by key falls back on [Object.prototype]; an
      object that is enumerated keeps its keys in the order of the language
      (array indices first, ascending, then the other keys as inserted).
    - Dates.  A [Date] is its time value in milliseconds and a date key is
      the number of its UTC day; stepping a date back by calendar days goes
      through the local time of the host's zone, which is a parameter.
    - Host.  Timers are a table of pending actions with fresh ids; the
      document collection is a store from identity to document that casts
      what it stores through the schema of the server module. *)

From Stdlib Require Import ZArith Floats QArith Ascii.
From stdpp Require Import gmap strings list sorting pretty.

(** ** JavaScript numbers: binary64 arithmetic on non-negative values

    Counts, lengths and percentages are integers well below [2^53] and are
    kept as [Z].  A quotient such as [completed / total] is a double: the
    value nearest to the exact quotient with a 53 bit significand, ties to
    even.  Every quotient and product taken by the program lies between
    [2^-53] and [2^53], far inside the exponent range of the format, so the
    model leaves subnormal numbers and overflow out. *)
Module Binary64.
Local Open Scope Z_scope.

(** A finite non-negative double, of value [mant * 2 ^ expo]. *)
Record t : Type := mk { mant : Z; expo : Z }.

(** The exponent [E] with [2^E <= n/d < 2^(E+1)], for positive [n], [d]. *)
Definition ratio_exponent (n d : Z) : Z :=
  let k := Z.log2 n - Z.log2 d in
  if d * 2 ^ Z.max 0 k <=? n * 2 ^ Z.max 0 (- k) then k else k - 1.

(** The integer nearest to [N / D], ties to the even one. *)
Definition nearest_even (N D : Z) : Z :=
  let q := N / D in
  let r := N mod D in
  if 2 * r <? D then q
  else if D <? 2 * r then q + 1
  else if Z.even q then q else q + 1.

(** The double nearest to the exact quotient [n / d]. *)
Definition round (n d : Z) : t :=
  if n =? 0 then mk 0 0
  else
    let e := ratio_exponent n d - 52 in
    mk (nearest_even (n * 2 ^ Z.max 0 (- e)) (d * 2 ^ Z.max 0 e)) e.

(** [a / b] on two integer-valued Numbers. *)
Definition div (a b : Z) : t := round a b.

(** [x * k] for a double [x] and an integer-valued Number [k]. *)
Definition mul (x : t) (k : Z) : t :=
  round (mant x * k * 2 ^ Z.max 0 (expo x)) (2 ^ Z.max 0 (- expo x)).

(** [Math.round(x)]: the integer nearest to [x], ties towards +infinity. *)
Definition Math_round (x : t) : Z :=
  (2 * mant x * 2 ^ Z.max 0 (expo x) + 2 ^ Z.max 0 (- expo x))
    / (2 * 2 ^ Z.max 0 (- expo x)).

(** Same value, whatever the representation. *)
Definition eqb (x y : t) : bool :=
  mant x * 2 ^ Z.max 0 (expo x - expo y)
    =? mant y * 2 ^ Z.max 0 (expo y - expo x).

(** The hardware doubles of the proof assistant, read back as a pair. *)
Definition of_prim (f : float) : option t :=
  match Prim2SF f with
  | S754_zero _ => Some (mk 0 0)
  | S754_finite false m e => Some (mk (Z.pos m) e)
  | _ => None
  end.

Definition prim_of_Z (z : Z) : float := PrimFloat.of_uint63 (Uint63.of_Z z).

(** [(c / t) * 100] on hardware doubles. *)
Definition prim_percent (c t : Z) : float :=
  PrimFloat.mul (PrimFloat.div (prim_of_Z c) (prim_of_Z t)) (prim_of_Z 100).

(** Agreement of the model with the hardware on [c / t], [(c / t) * 100]
    and [s / n]. *)
Definition agrees_on (c t : Z) : bool :=
  match of_prim (PrimFloat.div (prim_of_Z c) (prim_of_Z t)),
        of_prim (prim_percent c t) with
  | Some q, Some p => eqb q (div c t) && eqb p (mul (div c t) 100)
  | _, _ => false
  end.

Definition quotient_agrees (a b : Z) : bool :=
  match of_prim (PrimFloat.div (prim_of_Z a) (prim_of_Z b)) with
  | Some q => eqb q (div a b)
  | None => false
  end.

Definition agrees_upto (bound : nat) : bool :=
  forallb (fun t => forallb (fun c => agrees_on (Z.of_nat c) (Z.of_nat t))
                            (seq 0 (S t)))
          (seq 1 bound).
End Binary64.


(** ** JavaScript objects used as maps *)

(** The names every plain object inherits from [Object.prototype].  Reading
    one of them from an object that has no own property of that name yields
    the inherited member (a function, or the prototype itself for
    [__proto__]), which is truthy. *)
Definition Object_prototype_names : list string :=
  [ "constructor"; "__proto__"; "hasOwnProperty"; "isPrototypeOf";
    "propertyIsEnumerable"; "toLocaleString"; "toString"; "valueOf";
    "__defineGetter__"; "__defineSetter__"; "__lookupGetter__";
    "__lookupSetter__" ]%string.

(** Truthiness of [obj[key]] for a plain object whose own properties are
    booleans: the own property if there is one, else the inherited one. *)
Definition truthy_at (obj : gmap string bool) (key : string) : bool :=
  match obj !! key with
  | Some b => b
  | None => bool_decide (key ∈ Object_prototype_names)
  end.

(** Property keys that are array indices (canonical decimal numerals below
    [2^32 - 1]) are enumerated first, in ascending numeric order; the other
    string keys follow in insertion order. *)
Definition digit_of (a : Ascii.ascii) : option N :=
  let n := Ascii.N_of_ascii a in
  if ((48 <=? n) && (n <=? 57))%N then Some (n - 48)%N else None.

Fixpoint parse_digits (acc : N) (s : string) : option N :=
  match s with
  | EmptyString => Some acc
  | String a rest =>
      match digit_of a with
      | Some d => parse_digits (10 * acc + d)%N rest
      | None => None
      end
  end.

Definition array_index (key : string) : option N :=
  match key with
  | EmptyString => None
  | String a rest =>
      if (Ascii.N_of_ascii a =? 48)%N
      then (match rest with EmptyString => Some 0%N | _ => None end)
      else match parse_digits 0 key with
           | Some n => if (n <? 2 ^ 32 - 1)%N then Some n else None
           | None => None
           end
  end.

(** An ordinary object with string keys: its own properties in insertion
    order, each key once. *)
Module Obj.
Section Ordered.
Context {V : Type}.

Definition t := list (string * V).

Definition get (key : string) (o : t) : option V :=
  snd <$> List.find (fun kv => String.eqb (fst kv) key) o.

(** [o[key] = v]: an existing property keeps its place, a new one goes
    last. *)
Fixpoint set (key : string) (v : V) (o : t) : t :=
  match o with
  | [] => [(key, v)]
  | (k, w) :: rest =>
      if String.eqb k key then (k, v) :: rest else (k, w) :: set key v rest
  end.

Fixpoint insert_index (i : N) (kv : string * V) (l : list (N * (string * V)))
  : list (N * (string * V)) :=
  match l with
  | [] => [(i, kv)]
  | (j, kw) :: rest =>
      if (i <? j)%N then (i, kv) :: l else (j, kw) :: insert_index i kv rest
  end.

Definition index_entries (o : t) : list (N * (string * V)) :=
  foldr (fun kv acc =>
           match array_index (fst kv) with
           | Some i => insert_index i kv acc
           | None => acc
           end) [] o.

Definition string_entries (o : t) : t :=
  List.filter (fun kv => match array_index (fst kv) with
                         | Some _ => false
                         | None => true
                         end) o.

(** [o[key] = v] for a value that is not an object: under the key
    [__proto__] the assignment reaches the setter inherited from
    [Object.prototype], which ignores such a value; under any other key it
    sets an own property. *)
Definition assign (key : string) (v : V) (o : t) : t :=
  if String.eqb key "__proto__" then o else set key v o.

(** [Object.entries(o)]. *)
Definition entries (o : t) : list (string * V) :=
  (snd <$> index_entries o) ++ string_entries o.

(** [{ ...o, [key]: v }]: a fresh object receiving the properties of
    [o] in enumeration order, then [key]. *)
Definition spread_set (o : t) (key : string) (v : V) : t :=
  set key v (foldl (fun acc kv => set (fst kv) (snd kv) acc) [] (entries o)).
End Ordered.
Global Arguments t : clear implicits.
End Obj.

(** ** Data model *)

Record Habit : Type := mkHabit { habit_id : string; habit_label : string }.

#[global] Instance Habit_eq_dec : EqDecision Habit.
Proof. solve_decision. Defined.

(** The habit map of one day: habit id to completion flag. *)
Abbreviation DayMap := (gmap string bool).

(** A history entry, [{ habits }]; the [habits] field may be missing. *)
Record HistoryRecord : Type := mkRecord { record_habits : option DayMap }.

(** A date key [YYYY-MM-DD] names a calendar day; it is represented by the
    number of that day, counted from the epoch. *)
Abbreviation DateKey := Z (only parsing).

Abbreviation History := (gmap DateKey HistoryRecord).

Record Task : Type := mkTask {
  task_id : string;
  task_text : string;
  task_done : bool;
  task_reminderTime : string
}.

#[global] Instance Task_eq_dec : EqDecision Task.
Proof. solve_decision. Defined.

(** ** Date utilities

    A [Date] is its time value in milliseconds.  [toISOString().slice(0, 10)]
    is the UTC day of the instant.  [getDate] and [setDate] work on the local
    time of the host's zone, which the language leaves to the host as the
    operation [LocalTZA(t, isUTC)]: for [isUTC = true] the offset of local
    time from UTC at the instant [t], for [isUTC = false] the offset by which
    the local time [t] is read back as an instant. *)
Section Dates.
Local Open Scope Z_scope.

Definition msPerDay : Z := 86400000.

Definition dateKey (time : Z) : DateKey := time / msPerDay.

Definition todayKey (now : Z) : DateKey := dateKey now.

(** The zone of the host, as its [LocalTZA]. *)
Definition TimeZone : Type := Z -> bool -> Z.

(** [LocalTime(t)] and [UTC(t)] of the language. *)
Definition LocalTime (zone : TimeZone) (t : Z) : Z := t + zone t true.

Definition UTC (zone : TimeZone) (t : Z) : Z := t - zone t false.

(** [d.setDate(base.getDate() - i)] for a date [d] that holds the time value
    of [base]: the local time of the instant keeps its time within the day
    and its day number goes down by [i] (a day of the month below 1 counts
    back into the months before), and the result is read back as an
    instant. *)
Definition minusDays (zone : TimeZone) (time : Z) (i : Z) : Z :=
  UTC zone (LocalTime zone time - i * msPerDay).

(** The loop [for (i = n - 1; i >= 0; i -= 1)] of [lastNDates], with
    [count = i + 1] iterations left. *)
Fixpoint lastNDates_loop (zone : TimeZone) (now : Z) (count : nat)
    (dates : list DateKey) : list DateKey :=
  match count with
  | O => dates
  | S i =>
      lastNDates_loop zone now i
        (dates ++ [dateKey (minusDays zone now (Z.of_nat i))])
  end.

Definition lastNDates (zone : TimeZone) (now : Z) (n : nat) : list DateKey :=
  lastNDates_loop zone now n [].

(** A zone whose offset is the same at every instant. *)
Definition fixed_zone (offset : Z) : TimeZone := fun _ _ => offset.

(** India, at UTC+05:30 all year. *)
Definition india : TimeZone := fixed_zone 19800000.

(** New York as it is in 2026: at UTC-05:00 until the clocks go forward on
    8 March at 07:00 UTC, at UTC-04:00 until they go back on 1 November at
    06:00 UTC, and at UTC-05:00 afterwards.  A local time that the clocks
    skip or show twice is read with the offset before the change, as the
    language asks. *)
Definition new_york_2026 : TimeZone := fun t isUTC =>
  if isUTC
  then if t <? 1772953200000 then -18000000
       else if t <? 1793512800000 then -14400000 else -18000000
  else if t <? 1772938800000 then -18000000
       else if t <? 1793498400000 then -14400000 else -18000000.

(** A zone that skips a calendar day, as Samoa did when it crossed the date
    line: at UTC-10:00 until 30 December 2011 at 10:00 UTC, at UTC+14:00
    afterwards; the local day 30 December does not exist. *)
Definition apia_2011 : TimeZone := fun t isUTC =>
  if isUTC
  then if t <? 1325239200000 then -36000000 else 50400000
  else if t <? 1325289600000 then -36000000 else 50400000.
End Dates.

(** ** Completion calculator *)
Section Completion.
Local Open Scope Z_scope.

(** [Math.round((completed / total) * 100)]. *)
Definition percentage (completed total : Z) : Z :=
  Binary64.Math_round (Binary64.mul (Binary64.div completed total) 100).

(** [percentForDay(habitsMap, habitsList)] for a map and a list that are
    both present. *)
Definition percentForDay (habitsMap : DayMap) (habitsList : list Habit) : Z :=
  let total :=
    if Nat.eqb (length habitsList) 0 then 1 else Z.of_nat (length habitsList) in
  let completed :=
    Z.of_nat (length (List.filter (fun h => truthy_at habitsMap (habit_id h))
                                  habitsList)) in
  percentage completed total.
End Completion.

(** Outcome of a call that may throw. *)
Inductive js_error : Type := TypeError.

Inductive completion (A : Type) : Type :=
| Normal (a : A)
| Throw (e : js_error).
Global Arguments Normal {A} a.
Global Arguments Throw {A} e.

Definition and_then {A B} (c : completion A) (k : A -> completion B) : completion B :=
  match c with
  | Normal a => k a
  | Throw e => Throw e
  end.

(** [habitsMap[key]] read for its truthiness when [habitsMap] may be
    [undefined] or [null]: a property read on those throws. *)
Definition read_truthy (habitsMap : option DayMap) (key : string)
  : completion bool :=
  match habitsMap with
  | Some obj => Normal (truthy_at obj key)
  | None => Throw TypeError
  end.

(** [list.filter(callback)] with a callback that may throw. *)
Fixpoint filter_call {A} (callback : A -> completion bool) (l : list A)
  : completion (list A) :=
  match l with
  | [] => Normal []
  | x :: rest =>
      and_then (callback x) (fun keep =>
      and_then (filter_call callback rest) (fun kept =>
      Normal (if keep then x :: kept else kept)))
  end.

(** [percentForDay] on arguments that may be missing ([None] stands for
    [undefined] or [null]). *)
Definition percentForDay_call (habitsMap : option DayMap)
    (habitsList : option (list Habit)) : completion Z :=
  let total :=
    match habitsList with
    | Some l => if Nat.eqb (length l) 0 then 1%Z else Z.of_nat (length l)
    | None => 1%Z
    end in
  and_then (filter_call (fun h => read_truthy habitsMap (habit_id h))
                    (default [] habitsList))
       (fun kept => Normal (percentage (Z.of_nat (length kept)) total)).

(** ** Streak engine *)
Section Streak.
Local Open Scope Z_scope.

(** The [while (true)] loop of [calculateStreak]; [cursor] is the time
    value of the cursor date.  [None] when the fuel runs out. *)
Fixpoint streak_loop (zone : TimeZone) (fuel : nat) (history : History)
    (habits : list Habit) (cursor : Z) (streak : nat) : option nat :=
  match fuel with
  | O => None
  | S fuel' =>
      let key := dateKey cursor in
      match history !! key with
      | None => Some streak
      | Some record =>
          let percent :=
            percentForDay (default ∅ (record_habits record)) habits in
          if percent =? 100
          then streak_loop zone fuel' history habits (minusDays zone cursor 1)
                           (S streak)
          else Some streak
      end
  end.

Definition calculateStreak (zone : TimeZone) (fuel : nat) (now : Z)
    (history : History) (habits : list Habit) : option nat :=
  streak_loop zone fuel history habits now 0%nat.
End Streak.

(** ** Aggregation engine *)
Section Aggregation.
Local Open Scope Z_scope.

Definition weeklyPercentages (zone : TimeZone) (now : Z) (history : History)
    (habits : list Habit) : list Z :=
  (fun day =>
     percentForDay
       (default ∅ (history !! day ≫= record_habits)) habits)
    <$> lastNDates zone now 7.

Definition weeklyAverage (weeklyPercentages : list Z) : Z :=
  if Nat.eqb (length weeklyPercentages) 0 then 0
  else Binary64.Math_round
         (Binary64.div (foldl (fun sum val => sum + val) 0 weeklyPercentages)
                       (Z.of_nat (length weeklyPercentages))).

Definition weeklyFullDays (weeklyPercentages : list Z) : nat :=
  length (List.filter (fun p => p =? 100) weeklyPercentages).

(** [counts[id] += 1]; every id read here was initialised by the
    reduction that builds [counts]. *)
Definition increment (id : string) (counts : Obj.t Z) : Obj.t Z :=
  match Obj.get id counts with
  | Some c => Obj.set id (c + 1) counts
  | None => counts
  end.

(** [record.habits?.[id]] read for its truthiness. *)
Definition record_truthy (record : HistoryRecord) (id : string) : bool :=
  match record_habits record with
  | Some obj => truthy_at obj id
  | None => false
  end.

Definition count_day (history : History) (habits : list Habit)
    (counts : Obj.t Z) (day : DateKey) : Obj.t Z :=
  match history !! day with
  | None => counts
  | Some record =>
      foldl (fun counts h =>
               if record_truthy record (habit_id h)
               then increment (habit_id h) counts else counts)
            counts habits
  end.

Definition monthly_counts (zone : TimeZone) (now : Z) (history : History)
    (habits : list Habit) : Obj.t Z :=
  let days := lastNDates zone now 30 in
  let counts := foldl (fun acc h => Obj.spread_set acc (habit_id h) 0) [] habits in
  foldl (count_day history habits) counts days.

(** [entries.reduce(f)] without an initial value, on a non-empty array. *)
Definition reduce1 {A} (f : A -> A -> A) (first : A) (rest : list A) : A :=
  foldl f first rest.

Definition find_habit (habits : list Habit) (id : string) : option Habit :=
  List.find (fun h => String.eqb (habit_id h) id) habits.

Record Insight : Type := mkInsight {
  bestHabit : option Habit;
  worstHabit : option Habit
}.

Definition monthlyInsight (zone : TimeZone) (now : Z) (history : History)
    (habits : list Habit) : Insight :=
  let counts := monthly_counts zone now history habits in
  match Obj.entries counts with
  | [] => mkInsight None None
  | first :: rest =>
      let best := reduce1 (fun a b => if snd a <? snd b then b else a) first rest in
      let worst := reduce1 (fun a b => if snd b <? snd a then b else a) first rest in
      mkInsight (find_habit habits (fst best)) (find_habit habits (fst worst))
  end.
End Aggregation.

(** ** Habit handlers of the component *)

Definition is_slug_char (a : Ascii.ascii) : bool :=
  let n := Ascii.N_of_ascii a in
  (((97 <=? n) && (n <=? 122)) || ((48 <=? n) && (n <=? 57)))%N.

(** [.replace(/[^a-z0-9]+/g, '-')]: every maximal run of other characters
    becomes one dash.  [in_run] tells that the dash of the current run is
    already written. *)
Fixpoint replace_runs (in_run : bool) (s : string) : string :=
  match s with
  | EmptyString => EmptyString
  | String a rest =>
      if is_slug_char a then String a (replace_runs false rest)
      else if in_run then replace_runs true rest
      else String "-"%char (replace_runs true rest)
  end.

Definition strip_leading_dash (s : string) : string :=
  match s with
  | String a rest => if Ascii.eqb a "-"%char then rest else s
  | EmptyString => s
  end.

Fixpoint strip_trailing_dash (s : string) : string :=
  match s with
  | EmptyString => EmptyString
  | String a EmptyString => if Ascii.eqb a "-"%char then EmptyString else s
  | String a rest => String a (strip_trailing_dash rest)
  end.

(** [.replace(/(^-|-$)/g, '')]. *)
Definition strip_dashes (s : string) : string :=
  strip_trailing_dash (strip_leading_dash s).

(** [.slice(0, n)]. *)
Fixpoint slice_prefix (n : nat) (s : string) : string :=
  match n, s with
  | S m, String a rest => String a (slice_prefix m rest)
  | _, _ => EmptyString
  end.

(** Every character of the string passes the test. *)
Fixpoint every_char (p : Ascii.ascii -> bool) (s : string) : bool :=
  match s with
  | EmptyString => true
  | String a rest => p a && every_char p rest
  end.

(** The characters a slug is made of. *)
Definition is_slug_or_dash (a : Ascii.ascii) : bool :=
  is_slug_char a || Ascii.eqb a "-"%char.

Record AppState : Type := mkApp {
  app_habits : list Habit;
  app_history : History;
  app_tasksByDate : Obj.t (list Task);
  app_selectedDate : string;
  app_newHabit : string
}.

Section Handlers.
(** The built-in [String.prototype.toLowerCase] and [trim]. *)
Variable toLowerCase : string -> string.
Variable trim : string -> string.

(** [slugify(text)]; [now] is the value of [Date.now()]. *)
Definition slugify (now : Z) (text : string) : string :=
  let slug :=
    slice_prefix 30 (strip_dashes (replace_runs false (toLowerCase text))) in
  if String.eqb slug "" then "habit-" +:+ pretty now else slug.

(** The [setHistory] updater of [handleAddHabit]. *)
Definition backfill (id : string) (prev : History) : History :=
  (fun entry =>
     mkRecord (Some (<[id := false]> (default ∅ (record_habits entry)))))
    <$> prev.

Definition handleAddHabit (now : Z) (st : AppState) : AppState :=
  let trimmed := trim (app_newHabit st) in
  if String.eqb trimmed "" then st
  else
    let id := slugify now trimmed in
    if existsb (fun h => String.eqb (habit_id h) id) (app_habits st) then st
    else
      mkApp (app_habits st ++ [mkHabit id trimmed])
            (backfill id (app_history st))
            (app_tasksByDate st)
            (app_selectedDate st)
            "".

(** The [setHistory] updater of [handleDeleteHabit]. *)
Definition forget (id : string) (prev : History) : History :=
  (fun entry => mkRecord (delete id <$> record_habits entry)) <$> prev.

Definition handleDeleteHabit (id : string) (st : AppState) : AppState :=
  mkApp (List.filter (fun h => negb (String.eqb (habit_id h) id)) (app_habits st))
        (forget id (app_history st))
        (app_tasksByDate st)
        (app_selectedDate st)
        (app_newHabit st).

Definition deleteTask (id : string) (st : AppState) : AppState :=
  let prev := app_tasksByDate st in
  let list := default [] (Obj.get (app_selectedDate st) prev) in
  mkApp (app_habits st)
        (app_history st)
        (Obj.spread_set prev (app_selectedDate st)
           (List.filter (fun t => negb (String.eqb (task_id t) id)) list))
        (app_selectedDate st)
        (app_newHabit st).
End Handlers.

(** ASCII instances of the two built-ins, for running the handlers. *)
Definition ascii_lower (a : Ascii.ascii) : Ascii.ascii :=
  let n := Ascii.N_of_ascii a in
  if ((65 <=? n) && (n <=? 90))%N then Ascii.ascii_of_N (n + 32) else a.

Fixpoint ascii_toLowerCase (s : string) : string :=
  match s with
  | EmptyString => EmptyString
  | String a rest => String (ascii_lower a) (ascii_toLowerCase rest)
  end.

Definition is_space (a : Ascii.ascii) : bool :=
  let n := Ascii.N_of_ascii a in
  ((n =? 32) || ((9 <=? n) && (n <=? 13)))%N.

Fixpoint trim_start (s : string) : string :=
  match s with
  | String a rest => if is_space a then trim_start rest else s
  | EmptyString => s
  end.

Fixpoint trim_end (s : string) : string :=
  match s with
  | EmptyString => EmptyString
  | String a rest =>
      match trim_end rest with
      | EmptyString => if is_space a then EmptyString else String a EmptyString
      | kept => String a kept
      end
  end.

Definition ascii_trim (s : string) : string := trim_end (trim_start s).

(** ** Reminder scheduler *)

(** A pending one-shot action of the host: [setTimeout(() =>
    triggerReminder(task), delay)].  [None] as delay is [NaN]. *)
Record Timer : Type := mkTimer {
  timer_id : nat;
  timer_task : Task;
  timer_delay : option Z
}.

#[global] Instance Timer_eq_dec : EqDecision Timer.
Proof. solve_decision. Defined.

(** The host's timer table, the registry [ref.current] (task id to timer
    id) and the reminders delivered so far. *)
Record World : Type := mkWorld {
  next_timer : nat;
  pending : list Timer;
  registry : Obj.t nat;
  delivered : list Task
}.

Definition initial_world : World := mkWorld 1 [] [] [].

Definition clearTimeout (id : nat) (w : World) : World :=
  mkWorld (next_timer w)
          (List.filter (fun t => negb (Nat.eqb (timer_id t) id)) (pending w))
          (registry w)
          (delivered w).

(** [const id = setTimeout(...); ref.current[task.id] = id]. *)
Definition register (task : Task) (delay : option Z) (w : World) : World :=
  let id := next_timer w in
  mkWorld (S id)
          (pending w ++ [mkTimer id task delay])
          (Obj.assign (task_id task) id (registry w))
          (delivered w).

(** The tasks of a snapshot with their date key, in the order in which the
    two nested [forEach] loops visit them. *)
Definition visited (tasksByDate : Obj.t (list Task)) : list (string * Task) :=
  entry ← Obj.entries tasksByDate; (fun task => (fst entry, task)) <$> snd entry.

(** Task ids that the registry keeps apart: pairwise distinct, and none is
    the key [__proto__]. *)
Definition distinct_ids (tasksByDate : Obj.t (list Task)) : Prop :=
  NoDup ((fun dt => task_id (snd dt)) <$> visited tasksByDate) /\
  Forall (fun dt => task_id (snd dt) <> "__proto__"%string) (visited tasksByDate).

(** Every pending action is one the registry knows, with an id the host
    has handed out. *)
Definition tracked (w : World) : Prop :=
  Forall (fun t => (timer_id t < next_timer w)%nat /\
                   timer_id t ∈ snd <$> Obj.entries (registry w))
         (pending w).

Section Reminders.
Local Open Scope Z_scope.

(** [new Date(text).getTime()]; [None] is [NaN], the time value of an
    invalid date. *)
Variable Date_getTime : string -> option Z.

(** [due.getTime() - now]. *)
Definition delay_of (now : Z) (date : string) (task : Task) : option Z :=
  (fun due => due - now)
    <$> Date_getTime (date +:+ "T" +:+ task_reminderTime task).

(** The guard [if (delay <= 0) return]: a comparison with [NaN] is
    false. *)
Definition not_due_later (delay : option Z) : bool :=
  match delay with
  | Some d => d <=? 0
  | None => false
  end.

(** The body of the inner [forEach]. *)
Definition schedule_task (now : Z) (date : string) (w : World) (task : Task)
  : World :=
  if String.eqb (task_reminderTime task) "" then w
  else
    let delay := delay_of now date task in
    if not_due_later delay then w
    else register task delay w.

(** A task a reminder is registered for: it has a reminder time and its
    delay is not at or below zero. *)
Definition schedulable (now : Z) (dt : string * Task) : bool :=
  negb (String.eqb (task_reminderTime (snd dt)) "")
  && negb (not_due_later (delay_of now (fst dt) (snd dt))).

(** One action per task of the list, with consecutive ids from [id]. *)
Fixpoint timers_from (now : Z) (id : nat) (l : list (string * Task))
  : list Timer :=
  match l with
  | [] => []
  | dt :: rest =>
      mkTimer id (snd dt) (delay_of now (fst dt) (snd dt))
        :: timers_from now (S id) rest
  end.

(** The registry after the registrations of a run of timers. *)
Definition registered (r : Obj.t nat) (timers : list Timer) : Obj.t nat :=
  foldl (fun r t => Obj.assign (task_id (timer_task t)) (timer_id t) r) r timers.

Definition schedule_date (now : Z) (w : World) (entry : string * list Task)
  : World :=
  foldl (schedule_task now (fst entry)) w (snd entry).

(** [scheduleReminders(tasksByDate, ref)]; [now] is the value read by
    [Date.now()] after the cancellations. *)
Definition scheduleReminders (tasksByDate : Obj.t (list Task)) (now : Z)
    (w : World) : World :=
  let cleared := foldl (fun w id => clearTimeout id w) w
                       (snd <$> Obj.entries (registry w)) in
  let reset := mkWorld (next_timer cleared) (pending cleared) []
                       (delivered cleared) in
  foldl (schedule_date now) reset (Obj.entries tasksByDate).
End Reminders.

(** A pending action comes due: it leaves the table and its reminder is
    delivered, once. *)
Inductive fires : World -> World -> Prop :=
| fires_timer (w : World) (before after : list Timer) (t : Timer) :
    pending w = before ++ t :: after ->
    fires w (mkWorld (next_timer w) (before ++ after) (registry w)
                     (delivered w ++ [timer_task t])).

Inductive fires_star : World -> World -> Prop :=
| fires_refl (w : World) : fires_star w w
| fires_step (w1 w2 w3 : World) :
    fires w1 w2 -> fires_star w2 w3 -> fires_star w1 w3.

(** ** The data endpoint of the server *)

#[local] Set Warnings "-register-all".
Inductive json : Type :=
| JNull
| JBool (b : bool)
| JNum (q : Q)
| JStr (s : string)
| JArr (items : list json)
| JObj (fields : list (string * json)).

Definition truthy (v : json) : bool :=
  match v with
  | JNull => false
  | JBool b => b
  | JNum q => negb (Qeq_bool q 0)
  | JStr s => negb (String.eqb s "")
  | JArr _ | JObj _ => true
  end.

(** A property of a parsed body, [None] for [undefined].  A later
    duplicate of a key in the text wins; a body that is not an object has
    none of the three properties the handler reads. *)
Definition property (v : json) (key : string) : option json :=
  match v with
  | JObj fields =>
      snd <$> List.find (fun kv => String.eqb (fst kv) key) (rev fields)
  | _ => None
  end.

Definition habit_json (h : Habit) : json :=
  JObj [("id"%string, JStr (habit_id h)); ("label"%string, JStr (habit_label h))].

Definition DEFAULT_HABITS : list Habit :=
  [ mkHabit "wake" "Wake up early";
    mkHabit "exercise" "Exercise";
    mkHabit "study" "Study / Learn new skill";
    mkHabit "problems" "2 problems a day";
    mkHabit "water" "Drink enough water";
    mkHabit "meditate" "Meditation";
    mkHabit "read" "Reading" ].

Definition DEFAULT_HABITS_json : json := JArr (habit_json <$> DEFAULT_HABITS).

(** *** The collection and its schema

    [habits: [{ id: String, label: String }]], [history] and [tasksByDate] of
    type [Object], [mobile] a unique [String].  What the collection stores
    has gone through that schema. *)

(** A habit as the collection holds and returns it: the paths [id] and
    [label] of the schema, each set or not, and the [_id] that every
    subdocument of an array has. *)
Record HabitDoc : Type := mkHabitDoc {
  stored_id : option string;
  stored_label : option string;
  stored__id : string
}.

Record UserData : Type := mkUserData {
  doc_mobile : string;
  doc_habits : list HabitDoc;
  doc_history : json;
  doc_tasksByDate : json
}.

(** The object a handler hands to the driver: [update] of [POST /api/data],
    [seed] of [GET /api/data] and of the signup. *)
Record Update : Type := mkUpdate {
  update_mobile : string;
  update_habits : json;
  update_history : json;
  update_tasksByDate : json
}.

(** How a call into the driver ends: with a value, with a throw (which the
    handlers catch and answer with 500), or on an input whose casting is not
    followed here. *)
Inductive outcome (A : Type) : Type :=
| Done (a : A)
| Thrown
| Unfollowed.
Global Arguments Done {A} a.
Global Arguments Thrown {A}.
Global Arguments Unfollowed {A}.

(** The text of an [ObjectId]: 24 hexadecimal digits, in lower case. *)
Definition is_hex_digit (a : Ascii.ascii) : bool :=
  let n := Ascii.N_of_ascii a in
  (((48 <=? n) && (n <=? 57)) || ((97 <=? n) && (n <=? 102)))%N.

Definition is_ObjectId (s : string) : bool :=
  Nat.eqb (String.length s) 24 && every_char is_hex_digit s.

(** A path of type [String] of a subdocument, followed for a field that is
    missing or holds a string. *)
Definition cast_String (v : option json) : option (option string) :=
  match v with
  | None => Some None
  | Some (JStr s) => Some (Some s)
  | Some _ => None
  end.

(** The [_id] of a subdocument: the one the element brings, when it is the
    text of an [ObjectId], or else a fresh one. *)
Definition cast_ObjectId (fresh : string) (v : option json) : option string :=
  match v with
  | None => Some fresh
  | Some (JStr s) => if is_ObjectId s then Some s else None
  | Some _ => None
  end.

(** One element of [habits] cast to a subdocument.  An object keeps the
    paths of the schema and loses every other field.  A nonempty string is
    not an object: the constructor of the subdocument throws. *)
Definition cast_habit (fresh : string) (v : json) : outcome HabitDoc :=
  match v with
  | JObj _ =>
      match cast_String (property v "id"), cast_String (property v "label"),
            cast_ObjectId fresh (property v "_id") with
      | Some id, Some label, Some oid => Done (mkHabitDoc id label oid)
      | _, _, _ => Unfollowed
      end
  | JStr s => if String.eqb s "" then Unfollowed else Thrown
  | _ => Unfollowed
  end.

(** The elements are cast in order; [ObjectId index] is the fresh id for
    the element at [index]. *)
Fixpoint cast_habits (ObjectId : nat -> string) (index : nat) (items : list json)
  : outcome (list HabitDoc) :=
  match items with
  | [] => Done []
  | v :: rest =>
      match cast_habit (ObjectId index) v with
      | Done habit =>
          match cast_habits ObjectId (S index) rest with
          | Done habits => Done (habit :: habits)
          | Thrown => Thrown
          | Unfollowed => Unfollowed
          end
      | Thrown => Thrown
      | Unfollowed => Unfollowed
      end
  end.

(** The document that an update or a seed makes; the two paths of type
    [Object] take the value as it is. *)
Definition cast_document (ObjectId : nat -> string) (update : Update)
  : outcome UserData :=
  match update_habits update with
  | JArr items =>
      match cast_habits ObjectId 0 items with
      | Done habits =>
          Done (mkUserData (update_mobile update) habits
                           (update_history update) (update_tasksByDate update))
      | Thrown => Thrown
      | Unfollowed => Unfollowed
      end
  | _ => Unfollowed
  end.

Inductive Payload : Type :=
| Data (habits : list HabitDoc) (history tasksByDate : json)
| Error (message : string).

Record Response : Type := mkResponse { res_status : nat; res_payload : Payload }.

(** [Array.isArray(habits) && habits.length]. *)
Definition nonempty_array (v : json) : bool :=
  match v with
  | JArr items => negb (Nat.eqb (length items) 0)
  | _ => false
  end.

(** [req.body || {}]. *)
Definition body_or_empty (body : option json) : json :=
  match body with
  | Some v => if truthy v then v else JObj []
  | None => JObj []
  end.

(** The [update] object built by the handler. *)
Definition update_of (mobile : string) (body : option json) : Update :=
  let source := body_or_empty body in
  let habits := default DEFAULT_HABITS_json (property source "habits") in
  let history := default (JObj []) (property source "history") in
  let tasksByDate := default (JObj []) (property source "tasksByDate") in
  mkUpdate mobile
           (if nonempty_array habits then habits else DEFAULT_HABITS_json)
           (if truthy history then history else JObj [])
           (if truthy tasksByDate then tasksByDate else JObj []).

(** [UserData.findOneAndUpdate({ mobile }, update, { new: true, upsert:
    true, ... }).lean()]: the update is cast through the schema, the document
    of the key is created or replaced, and what is stored is returned. *)
Definition findOneAndUpdate (ObjectId : nat -> string) (mobile : string)
    (update : Update) (store : gmap string UserData)
  : outcome (gmap string UserData * UserData) :=
  match cast_document ObjectId update with
  | Done doc => Done (<[mobile := doc]> store, doc)
  | Thrown => Thrown
  | Unfollowed => Unfollowed
  end.

(** [app.post('/api/data', requireMobile, handler)]; [header] is the value
    of [x-user-mobile], [ObjectId] the ids the driver makes during the call.
    [None] stands for a body whose casting is not followed. *)
Definition post_api_data (ObjectId : nat -> string) (header : option string)
    (body : option json) (store : gmap string UserData)
  : option (gmap string UserData * Response) :=
  match header with
  | None => Some (store, mkResponse 401 (Error "Missing mobile header"))
  | Some mobile =>
      if String.eqb mobile ""
      then Some (store, mkResponse 401 (Error "Missing mobile header"))
      else
        match findOneAndUpdate ObjectId mobile (update_of mobile body) store with
        | Done (store', doc) =>
            Some (store', mkResponse 200
                            (Data (doc_habits doc) (doc_history doc)
                                  (doc_tasksByDate doc)))
        | Thrown => Some (store, mkResponse 500 (Error "Failed to save data"))
        | Unfollowed => None
        end
  end.

(** ** Reference formulas of the specification *)
Section Reference.
Local Open Scope Z_scope.

(** [round(n / d)] on exact quotients: the nearest integer, a tie going
    up. *)
Definition round_half_up (n d : Z) : Z := (2 * n + d) / (2 * d).

(** The count of habits whose id is present and true in the map. *)
Definition completed_in (M : DayMap) (Hs : list Habit) : Z :=
  Z.of_nat (length (List.filter
                      (fun h => bool_decide (M !! habit_id h = Some true)) Hs)).

(** [round(mean(series))]. *)
Definition rounded_mean (series : list Z) : Z :=
  round_half_up (foldr Z.add 0 series) (Z.of_nat (length series)).

(** [round(100 * completed / max(|H|, 1))]. *)
Definition percent_formula (M : DayMap) (Hs : list Habit) : Z :=
  round_half_up (100 * completed_in M Hs) (Z.max (Z.of_nat (length Hs)) 1).
End Reference.

(** An id that is not an array index. *)
Definition named_id (h : Habit) : Prop := array_index (habit_id h) = None.

(** Truthiness of [history[day]?.habits?.[id]]. *)
Definition done_on (history : History) (id : string) (day : DateKey) : bool :=
  match history !! day with
  | Some record => record_truthy record id
  | None => false
  end.

(** The number of days of the thirty day window on which the habit is
    recorded as done. *)
Definition monthly_tally (zone : TimeZone) (now : Z) (history : History)
    (id : string) : Z :=
  Z.of_nat (length (List.filter (done_on history id) (lastNDates zone now 30))).

(** The object [{ id: count }] over a habit list, in list order. *)
Definition tally_object (count : string -> Z) (habits : list Habit) : Obj.t Z :=
  (fun h => (habit_id h, count (habit_id h))) <$> habits.

(** A habit whose id is not the name of a member of [Object.prototype]. *)
Definition plain_id (h : Habit) : Prop := habit_id h ∉ Object_prototype_names.

(** The percentage the streak and the weekly series see for a day: that of
    its history entry, if there is one. *)
Definition day_percent (history : History) (habits : list Habit) (day : DateKey)
  : option Z :=
  (fun record => percentForDay (default ∅ (record_habits record)) habits)
    <$> history !! day.

(** A zone whose offset from UTC never changes. *)
Definition constant_offset (zone : TimeZone) : Prop :=
  exists offset : Z, forall (t : Z) (isUTC : bool), zone t isUTC = offset.

(** A zone in which setting a date one day back moves the instant back. *)
Definition backward (zone : TimeZone) : Prop :=
  forall t : Z, (minusDays zone t 1 < t)%Z.

(** A day that ends a streak: no entry, or an entry below 100 percent. *)
Definition breaks_streak (history : History) (habits : list Habit) (day : DateKey)
  : Prop :=
  day_percent history habits day = None \/
  exists p : Z, day_percent history habits day = Some p /\ (p < 100)%Z.

(** ** Sample documents *)

(** [n] habits with the ids [h0], [h1], ... *)
Definition sample_habits (n : nat) : list Habit :=
  (fun i : nat => mkHabit ("h" +:+ pretty i) ("Habit " +:+ pretty i)) <$> seq 0 n.

(** The day map in which exactly the given habits are done. *)
Definition all_done (Hs : list Habit) : DayMap :=
  list_to_map ((fun h => (habit_id h, true)) <$> Hs).

(** A history with a full entry on each of the given days. *)
Definition perfect_on (days : list DateKey) (Hs : list Habit) : History :=
  list_to_map ((fun day => (day, mkRecord (Some (all_done Hs)))) <$> days).

(** A clock reading for the sample snapshots: the instants they mention, in
    UTC. *)
Definition sample_getTime (text : string) : option Z :=
  if String.eqb text "2023-11-15T09:00" then Some 1700038800000%Z
  else if String.eqb text "2023-11-16T09:00" then Some 1700125200000%Z
  else if String.eqb text "2023-11-14T08:00" then Some 1699948800000%Z
  else None.

Definition sample_tasks : Obj.t (list Task) :=
  [ ("2023-11-14"%string,
     [ mkTask "t1" "Stretch" false "08:00"; mkTask "t2" "Buy milk" false "" ]);
    ("2023-11-15"%string,
     [ mkTask "t3" "Call home" false "09:00" ]) ].

Definition sample_state : AppState :=
  mkApp DEFAULT_HABITS ∅ sample_tasks "2023-11-15" "".

(** A snapshot in which two tasks share an id. *)
Definition twin_tasks : Obj.t (list Task) :=
  [ ("2023-11-15"%string, [ mkTask "t1" "Call home" false "09:00" ]);
    ("2023-11-16"%string, [ mkTask "t1" "Pay rent" false "09:00" ]) ].

Definition twin_state : AppState :=
  mkApp DEFAULT_HABITS ∅ twin_tasks "2023-11-15" "".

(** ** Habit toggling and renaming *)

(** The [setHistory] updater of [handleHabitToggle].  The updater calls
    [todayKey()] twice: [read] is the instant of the call that reads the
    current entry, [write] the instant of the call that stores the new
    one. *)
Definition toggle_history (read write : Z) (habitId : string) (checked : bool)
    (prev : History) : History :=
  let current := default (mkRecord (Some ∅)) (prev !! todayKey read) in
  <[todayKey write :=
      mkRecord (Some (<[habitId := checked]> (default ∅ (record_habits current))))]>
    prev.

Definition handleHabitToggle (read write : Z) (habitId : string) (checked : bool)
    (st : AppState) : AppState :=
  mkApp (app_habits st)
        (toggle_history read write habitId checked (app_history st))
        (app_tasksByDate st)
        (app_selectedDate st)
        (app_newHabit st).

(** [history[todayKey()]?.habits || {}]. *)
Definition todayHabits (now : Z) (history : History) : DayMap :=
  default ∅ (history !! todayKey now ≫= record_habits).

(** [habits.filter((h) => todayHabits[h.id]).length]. *)
Definition completedCount (now : Z) (st : AppState) : nat :=
  length (List.filter (fun h => truthy_at (todayHabits now (app_history st)) (habit_id h))
                      (app_habits st)).

Section Prompted.
(** The built-in [String.prototype.trim], and [window.prompt(message,
    value)]: the text the user confirms, [None] for the [null] of a
    cancelled dialog. *)
Variable trim : string -> string.
Variable window_prompt : string -> string -> option string.

Definition handleRenameHabit (id : string) (st : AppState) : AppState :=
  match find_habit (app_habits st) id with
  | None => st
  | Some current =>
      match window_prompt "Rename habit" (habit_label current) with
      | None => st
      | Some updated =>
          if String.eqb updated "" then st
          else
            mkApp ((fun h => if String.eqb (habit_id h) id
                             then mkHabit (habit_id h) (trim updated) else h)
                     <$> app_habits st)
                  (app_history st)
                  (app_tasksByDate st)
                  (app_selectedDate st)
                  (app_newHabit st)
      end
  end.
End Prompted.

(** ** Task handlers of the component *)

(** [tasksByDate[date] || []] where the handlers go on to use the value as
    an array.  An own property is the task list of the date.  Without one,
    a key that names a member of [Object.prototype] reads that member, which
    is truthy and is no array: it cannot be spread into an array and has no
    [map], [filter] or [find], so the use throws. *)
Definition tasks_at (tasksByDate : Obj.t (list Task)) (date : string)
  : completion (list Task) :=
  match Obj.get date tasksByDate with
  | Some list => Normal list
  | None =>
      if bool_decide (date ∈ Object_prototype_names) then Throw TypeError
      else Normal []
  end.

(** The state with another task object. *)
Definition with_tasks (st : AppState) (tasksByDate : Obj.t (list Task)) : AppState :=
  mkApp (app_habits st) (app_history st) tasksByDate
        (app_selectedDate st) (app_newHabit st).

(** The two inputs of the task form, [newTask] and [newReminder]. *)
Record TaskDraft : Type := mkDraft {
  draft_newTask : string;
  draft_newReminder : string
}.

(** [tasksForDate.filter((t) => t.done).length]. *)
Definition tasksCompleted (st : AppState) : completion nat :=
  and_then (tasks_at (app_tasksByDate st) (app_selectedDate st)) (fun tasksForDate =>
  Normal (length (List.filter task_done tasksForDate))).

Section TaskHandlers.
Variable trim : string -> string.
Variable window_prompt : string -> string -> option string.

(** [handleAddTask]; [id] is the value that [makeId()] returns. *)
Definition handleAddTask (id : string) (draft : TaskDraft) (st : AppState)
  : completion (AppState * TaskDraft) :=
  let trimmed := trim (draft_newTask draft) in
  if String.eqb trimmed "" then Normal (st, draft)
  else
    and_then (tasks_at (app_tasksByDate st) (app_selectedDate st)) (fun current =>
    Normal (with_tasks st
              (Obj.spread_set (app_tasksByDate st) (app_selectedDate st)
                 (mkTask id trimmed false (draft_newReminder draft) :: current)),
            mkDraft "" "")).

Definition toggleTask (id : string) (st : AppState) : completion AppState :=
  and_then (tasks_at (app_tasksByDate st) (app_selectedDate st)) (fun current =>
  Normal (with_tasks st
            (Obj.spread_set (app_tasksByDate st) (app_selectedDate st)
               ((fun t => if String.eqb (task_id t) id
                          then mkTask (task_id t) (task_text t) (negb (task_done t))
                                      (task_reminderTime t)
                          else t) <$> current)))).

Definition editTask (id : string) (st : AppState) : completion AppState :=
  and_then (tasks_at (app_tasksByDate st) (app_selectedDate st)) (fun tasksForDate =>
  match List.find (fun t => String.eqb (task_id t) id) tasksForDate with
  | None => Normal st
  | Some current =>
      match window_prompt "Edit task" (task_text current) with
      | None => Normal st
      | Some updated =>
          let text := trim updated in
          if String.eqb text "" then Normal st
          else
            Normal (with_tasks st
                      (Obj.spread_set (app_tasksByDate st) (app_selectedDate st)
                         ((fun t => if String.eqb (task_id t) id
                                    then mkTask (task_id t) text (task_done t)
                                                (task_reminderTime t)
                                    else t) <$> tasksForDate)))
      end
  end).
End TaskHandlers.

(** [handleDateChange(value)].  The new object stores [prev[value] || []]
    under [value]; [None] is the one case that is not a snapshot of task
    lists, a [value] that reads a member of [Object.prototype]. *)
Definition handleDateChange (value : string) (st : AppState) : option AppState :=
  if String.eqb value "" then Some st
  else
    let prev := app_tasksByDate st in
    match Obj.get value prev with
    | Some list =>
        Some (mkApp (app_habits st) (app_history st)
                    (Obj.spread_set prev value list) value (app_newHabit st))
    | None =>
        if bool_decide (value ∈ Object_prototype_names) then None
        else Some (mkApp (app_habits st) (app_history st)
                         (Obj.spread_set prev value []) value (app_newHabit st))
    end.

(** An object in which each key occurs once. *)
Definition single_keys {V} (o : Obj.t V) : Prop := NoDup (fst <$> o).

(** ** Delivery of a reminder *)

(** [Notification.permission]. *)
Inductive Permission : Type := granted | denied | undecided.

(** What the user gets to see. *)
Inductive Delivery : Type :=
| Notified (title body : string)
| Alerted (message : string).

(** The host as [triggerReminder] meets it: whether [window] has the
    [Notification] interface, the permission at the time of the call, and
    the permission that the promise of [Notification.requestPermission()]
    resolves to, [None] when it never settles. *)
Record Host : Type := mkHost {
  has_Notification : bool;
  Notification_permission : Permission;
  requestPermission : option Permission
}.

Definition triggerReminder (window : Host) (task : Task) : list Delivery :=
  if has_Notification window then
    match Notification_permission window with
    | granted => [Notified "Task reminder" (task_text task)]
    | undecided =>
        match requestPermission window with
        | Some granted => [Notified "Task reminder" (task_text task)]
        | Some _ => [Alerted ("Reminder: " +:+ task_text task)]
        | None => []
        end
    | denied => [Alerted ("Reminder: " +:+ task_text task)]
    end
  else [Alerted ("Reminder: " +:+ task_text task)].

(** ** The save effect of the component *)

(** The state that is sent to the server. *)
Record Snapshot : Type := mkSnapshot {
  snap_habits : list Habit;
  snap_history : History;
  snap_tasksByDate : Obj.t (list Task)
}.

(** A pending [POST /api/data]: the timer id, the identity captured by the
    closure and the payload. *)
Record Save : Type := mkSavePending {
  save_id : nat;
  save_mobile : string;
  save_payload : Snapshot
}.

(** The host's pending saves, [saveTimer.current] and the requests sent so
    far. *)
Record SaveWorld : Type := mkSaveWorld {
  save_next : nat;
  save_pending : list Save;
  saveTimer : option nat;
  save_sent : list (string * Snapshot)
}.

(** Timer ids are positive. *)
Definition initial_save_world : SaveWorld := mkSaveWorld 1 [] None [].

(** The effect on [habits], [history], [tasksByDate], [isLoaded] and
    [mobile]. *)
Definition save_effect (isLoaded : bool) (mobile : string) (payload : Snapshot)
    (w : SaveWorld) : SaveWorld :=
  if negb isLoaded || String.eqb mobile "" then w
  else
    let kept :=
      match saveTimer w with
      | Some id =>
          if Nat.eqb id 0 then save_pending w
          else List.filter (fun s => negb (Nat.eqb (save_id s) id)) (save_pending w)
      | None => save_pending w
      end in
    mkSaveWorld (S (save_next w))
                (kept ++ [mkSavePending (save_next w) mobile payload])
                (Some (save_next w))
                (save_sent w).

(** A pending save comes due after its 400 ms and is sent. *)
Inductive save_fires : SaveWorld -> SaveWorld -> Prop :=
| save_fires_timer (w : SaveWorld) (before after : list Save) (s : Save) :
    save_pending w = before ++ s :: after ->
    save_fires w (mkSaveWorld (save_next w) (before ++ after) (saveTimer w)
                              (save_sent w ++ [(save_mobile s, save_payload s)])).

(** One thing that happens to the save machinery: the effect runs, or a
    pending save comes due. *)
Inductive save_step : SaveWorld -> SaveWorld -> Prop :=
| step_effect (isLoaded : bool) (mobile : string) (payload : Snapshot) (w : SaveWorld) :
    save_step w (save_effect isLoaded mobile payload w)
| step_fires (w w' : SaveWorld) : save_fires w w' -> save_step w w'.

Inductive save_steps : SaveWorld -> SaveWorld -> Prop :=
| save_steps_refl (w : SaveWorld) : save_steps w w
| save_steps_step (w1 w2 w3 : SaveWorld) :
    save_steps w1 w2 -> save_step w2 w3 -> save_steps w1 w3.

(** ** The account and read endpoints of the server *)

Inductive AuthPayload : Type :=
| AuthMobile (mobile : string)
| AuthError (message : string).

Record AuthResponse : Type := mkAuth { auth_status : nat; auth_payload : AuthPayload }.

(** The [seed] of a new user; the two computed keys come from two calls
    of [todayKey()]. *)
Definition seed (mobile today today' : string) : Update :=
  mkUpdate mobile
           DEFAULT_HABITS_json
           (JObj [(today, JObj [("habits"%string, JObj [])])])
           (JObj [(today', JArr [])]).

(** The default habits as the collection holds them. *)
Definition default_docs (ObjectId : nat -> string) : list HabitDoc :=
  imap (fun i h => mkHabitDoc (Some (habit_id h)) (Some (habit_label h)) (ObjectId i))
       DEFAULT_HABITS.

(** The document of a new user, as the collection holds it. *)
Definition seed_document (ObjectId : nat -> string) (mobile today today' : string)
  : UserData :=
  mkUserData mobile
             (default_docs ObjectId)
             (JObj [(today, JObj [("habits"%string, JObj [])])])
             (JObj [(today', JArr [])]).

(** [UserData.create(doc)]: the document is cast through the schema and
    inserted; the unique index on [mobile] rejects a second document of the
    same identity. *)
Definition create (ObjectId : nat -> string) (doc : Update)
    (store : gmap string UserData) : outcome (gmap string UserData * UserData) :=
  match cast_document ObjectId doc with
  | Done created =>
      match store !! update_mobile doc with
      | Some _ => Thrown
      | None => Done (<[update_mobile doc := created]> store, created)
      end
  | _ => Unfollowed
  end.

(** [app.post('/api/auth/signup', handler)].  The handler is taken on the
    bodies whose [mobile] is missing, falsy or a string; [None] stands for a
    truthy [mobile] of another type, which goes to the query layer of the
    driver as it is. *)
Definition post_auth_signup (ObjectId : nat -> string) (today today' : string)
    (body : option json) (store : gmap string UserData)
  : option (gmap string UserData * AuthResponse) :=
  match property (body_or_empty body) "mobile" with
  | None => Some (store, mkAuth 400 (AuthError "Mobile is required"))
  | Some v =>
      if negb (truthy v)
      then Some (store, mkAuth 400 (AuthError "Mobile is required"))
      else
        match v with
        | JStr mobile =>
            match store !! mobile with
            | Some existing => Some (store, mkAuth 200 (AuthMobile mobile))
            | None =>
                match create ObjectId (seed mobile today today') store with
                | Done (store', _) => Some (store', mkAuth 201 (AuthMobile mobile))
                | Thrown => Some (store, mkAuth 500 (AuthError "Signup failed"))
                | Unfollowed => None
                end
            end
        | _ => None
        end
  end.

(** [app.post('/api/auth/login', handler)], on the same bodies. *)
Definition post_auth_login (body : option json) (store : gmap string UserData)
  : option (gmap string UserData * AuthResponse) :=
  match property (body_or_empty body) "mobile" with
  | None => Some (store, mkAuth 400 (AuthError "Mobile is required"))
  | Some v =>
      if negb (truthy v)
      then Some (store, mkAuth 400 (AuthError "Mobile is required"))
      else
        match v with
        | JStr mobile =>
            match store !! mobile with
            | Some doc => Some (store, mkAuth 200 (AuthMobile mobile))
            | None => Some (store, mkAuth 404 (AuthError "User not found"))
            end
        | _ => None
        end
  end.

(** [app.get('/api/data', requireMobile, handler)]; [header] is the value
    of [x-user-mobile].  The answer for a new identity carries the document
    that [create] returns. *)
Definition get_api_data (ObjectId : nat -> string) (today today' : string)
    (header : option string) (store : gmap string UserData)
  : option (gmap string UserData * Response) :=
  match header with
  | None => Some (store, mkResponse 401 (Error "Missing mobile header"))
  | Some mobile =>
      if String.eqb mobile ""
      then Some (store, mkResponse 401 (Error "Missing mobile header"))
      else
        match store !! mobile with
        | Some doc =>
            Some (store, mkResponse 200
                           (Data (doc_habits doc) (doc_history doc)
                                 (doc_tasksByDate doc)))
        | None =>
            match create ObjectId (seed mobile today today') store with
            | Done (store', doc) =>
                Some (store', mkResponse 200
                                (Data (doc_habits doc) (doc_history doc)
                                      (doc_tasksByDate doc)))
            | Thrown => Some (store, mkResponse 500 (Error "Failed to load data"))
            | Unfollowed => None
            end
        end
  end.

(** A stored habit as [res.json] sends it and the client holds it. *)
Definition json_of_habit_doc (habit : HabitDoc) : json :=
  JObj (match stored_id habit with
        | Some id => [("id"%string, JStr id)]
        | None => []
        end
        ++ match stored_label habit with
           | Some label => [("label"%string, JStr label)]
           | None => []
           end
        ++ [("_id"%string, JStr (stored__id habit))]).

(** What the client reads of a habit object: its [id] and its [label]. *)
Definition habit_of_json (v : json) : option Habit :=
  match property v "id", property v "label" with
  | Some (JStr id), Some (JStr label) => Some (mkHabit id label)
  | _, _ => None
  end.

(** The object a response carries, as [res.json()] parses it. *)
Definition json_of_payload (payload : Payload) : json :=
  match payload with
  | Data habits history tasksByDate =>
      JObj [("habits"%string, JArr (json_of_habit_doc <$> habits));
            ("history"%string, history);
            ("tasksByDate"%string, tasksByDate)]
  | Error message => JObj [("error"%string, JStr message)]
  end.

(** The body a client sends back from a response: [JSON.stringify] of the
    three fields. *)
Definition body_of (payload : Payload) : option json :=
  match payload with
  | Data _ _ _ => Some (json_of_payload payload)
  | Error _ => None
  end.

(** ** Loading and signing in, on the client *)

(** The [DEFAULT_HABITS] of the client module. *)
Definition App_DEFAULT_HABITS : list Habit :=
  [ mkHabit "wake" "Wake up early";
    mkHabit "exercise" "Exercise";
    mkHabit "study" "Study / Learn new skill";
    mkHabit "problems" "2 problems a day";
    mkHabit "water" "Drink enough water";
    mkHabit "meditate" "Meditation";
    mkHabit "read" "Reading" ].

(** [Object.keys(v).length] read for its truthiness, on a parsed value that
    is truthy: an object or an array with at least one own key, a nonempty
    string; a number or a boolean has no keys. *)
Definition has_keys (v : json) : bool :=
  match v with
  | JObj fields => negb (Nat.eqb (length fields) 0)
  | JArr items => negb (Nat.eqb (length items) 0)
  | JStr s => negb (String.eqb s "")
  | JNull | JBool _ | JNum _ => false
  end.

(** [res.ok]. *)
Definition res_ok (status : nat) : bool := Nat.leb 200 status && Nat.leb status 299.

(** What the load effect sets: [habits], [history] and [tasksByDate]. *)
Record Loaded : Type := mkLoaded {
  loaded_habits : json;
  loaded_history : json;
  loaded_tasksByDate : json
}.

(** The state the effect falls back on; the two keys come from two calls of
    [todayKey()]. *)
Definition fallback_state (today today' : string) : Loaded :=
  mkLoaded (JArr (habit_json <$> App_DEFAULT_HABITS))
           (JObj [(today, JObj [("habits"%string, JObj [])])])
           (JObj [(today', JArr [])]).

(** The load effect of a signed-in user, given the response of
    [GET /api/data]; [None] is a request that fails. *)
Definition load_effect (today today' : string) (res : option Response) : Loaded :=
  match res with
  | None => fallback_state today today'
  | Some r =>
      if negb (res_ok (res_status r)) then fallback_state today today'
      else
        let json := json_of_payload (res_payload r) in
        mkLoaded
          (match property json "habits" with
           | Some habits =>
               if nonempty_array habits then habits
               else JArr (habit_json <$> App_DEFAULT_HABITS)
           | None => JArr (habit_json <$> App_DEFAULT_HABITS)
           end)
          (match property json "history" with
           | Some history =>
               if truthy history && has_keys history then history
               else JObj [(today, JObj [("habits"%string, JObj [])])]
           | None => JObj [(today, JObj [("habits"%string, JObj [])])]
           end)
          (match property json "tasksByDate" with
           | Some tasksByDate =>
               if truthy tasksByDate then tasksByDate else JObj [(today', JArr [])]
           | None => JObj [(today', JArr [])]
           end)
  end.

(** The two buttons of the sign-in card. *)
Inductive AuthMode : Type := login | signup.

(** How [handleAuth] ends: the identity is stored and set, or an error text
    is shown. *)
Inductive AuthOutcome : Type :=
| SignedIn (mobile : string)
| AuthFailed (message : string).

Section SignIn.
Variable trim : string -> string.

(** [handleAuth(mode)] with the request answered by the server; [None] only
    where the server handler has none. *)
Definition handleAuth (ObjectId : nat -> string) (mode : AuthMode)
    (today today' : string) (mobileInput : string) (store : gmap string UserData)
  : option (gmap string UserData * AuthOutcome) :=
  let trimmed := trim mobileInput in
  if String.eqb trimmed "" then Some (store, AuthFailed "Enter mobile number")
  else
    let body := Some (JObj [("mobile"%string, JStr trimmed)]) in
    let answer :=
      match mode with
      | login => post_auth_login body store
      | signup => post_auth_signup ObjectId today today' body store
      end in
    match answer with
    | None => None
    | Some (store', res) =>
        if res_ok (auth_status res) then Some (store', SignedIn trimmed)
        else
          Some (store',
                AuthFailed (match auth_payload res with
                            | AuthError message =>
                                if String.eqb message "" then "Request failed" else message
                            | AuthMobile _ => "Request failed"
                            end))
    end.
End SignIn.

(** ** Shapes of strings and states *)

(** The first character of a string, if there is one, passes the test. *)
Definition first_char (p : Ascii.ascii -> bool) (s : string) : bool :=
  match s with
  | EmptyString => true
  | String a _ => p a
  end.

(** No two dashes stand side by side. *)
Fixpoint single_dashes (s : string) : bool :=
  match s with
  | String a (String b _ as rest) =>
      negb (Ascii.eqb a "-"%char && Ascii.eqb b "-"%char) && single_dashes rest
  | _ => true
  end.

(** At most one save is pending, and it is the one [saveTimer.current]
    names. *)
Definition debounced (w : SaveWorld) : Prop :=
  match save_pending w with
  | [] => (0 < save_next w)%nat
  | [s] => saveTimer w = Some (save_id s) /\ (0 < save_id s < save_next w)%nat
  | _ => False
  end.

(** ** Habit objects

    The elements of [habits] that a client sends: objects whose [id] and
    [label] are strings (or missing) and whose [_id], when they were loaded
    from the server before, is the text of an [ObjectId]. *)

Definition text_of (v : option json) : option string :=
  match v with
  | Some (JStr s) => Some s
  | _ => None
  end.

Definition text_or_missing (v : option json) : bool :=
  match v with
  | None | Some (JStr _) => true
  | Some _ => false
  end.

Definition habit_object (v : json) : bool :=
  match v with
  | JObj _ =>
      text_or_missing (property v "id") && text_or_missing (property v "label")
      && match property v "_id" with
         | None => true
         | Some (JStr s) => is_ObjectId s
         | Some _ => false
         end
  | _ => false
  end.

(** The subdocument that the element at [index] is stored as. *)
Definition stored_as (ObjectId : nat -> string) (index : nat) (v : json) : HabitDoc :=
  mkHabitDoc (text_of (property v "id")) (text_of (property v "label"))
             (default (ObjectId index) (text_of (property v "_id"))).

(** A field of a request body, [None] when the body or the field is
    missing. *)
Definition field (body : option json) (key : string) : option json :=
  body ≫= fun v => property v key.

(** [value || {}] for a field that may be missing. *)
Definition or_empty (v : option json) : json :=
  match v with
  | Some value => if truthy value then value else JObj []
  | None => JObj []
  end.

(** ** Further sample documents *)

(** Ids as a driver hands them out, one for each position. *)
Definition sample_ObjectId (i : nat) : string :=
  let d := (i mod 16)%nat in
  "65a1f0c2b3d4e5f6a7b8c9d" +:+
  String (Ascii.ascii_of_nat (if (d <? 10)%nat then 48 + d else 87 + d)) EmptyString.

Definition sample_prompt (answer : option string) (message value : string)
  : option string := answer.

Definition sample_window : Host := mkHost true undecided (Some granted).

(** The slug that [slugify] makes of the text itself, before the fallback
    on the clock. *)
Definition own_slug (toLowerCase : string -> string) (text : string) : string :=
  slice_prefix 30 (strip_dashes (replace_runs false (toLowerCase text))).

(** The state in which the habit form holds the given text. *)
Definition typing (text : string) (st : AppState) : AppState :=
  mkApp (app_habits st) (app_history st) (app_tasksByDate st)
        (app_selectedDate st) text.

(** * Properties *)

(** ** Binary64 rounding *)
Section Binary64_facts.
Local Open Scope Z_scope.
Import Binary64.

Lemma nearest_even_lower (N D : Z) :
  0 <= N -> 0 < D -> 0 <= nearest_even N D.
Proof.
  intros HN HD. unfold nearest_even.
  assert (0 <= N / D) by (apply Z.div_pos; lia).
  repeat destruct (_ <? _); try destruct (Z.even _); lia.
Qed.

Lemma nearest_even_le (N D K : Z) :
  0 < D -> N <= K * D -> nearest_even N D <= K.
Proof.
  intros HD HN. unfold nearest_even.
  pose proof (Z.div_mod N D ltac:(lia)) as Hdm.
  pose proof (Z.mod_pos_bound N D HD) as Hr.
  assert (N / D <= K) as Hq by (apply Z.div_le_upper_bound; lia).
  destruct (Z.eq_dec (N / D) K) as [Heq | Hne].
  - assert (N mod D = 0) as Hz by nia.
    rewrite Hz. destruct (Z.ltb_spec (2 * 0) D); lia.
  - repeat destruct (_ <? _); try destruct (Z.even _); lia.
Qed.

Lemma ratio_exponent_le (n d b : Z) :
  0 < n -> 0 < d -> 0 <= b -> n <= 2 ^ b * d -> ratio_exponent n d <= b.
Proof.
  intros Hn Hd Hb Hle.
  assert (Z.log2 n - Z.log2 d <= b) as Hk.
  { pose proof (Z.log2_spec n Hn) as [Hn1 _].
    pose proof (Z.log2_spec d Hd) as [_ Hd2].
    pose proof (Z.log2_nonneg n). pose proof (Z.log2_nonneg d).
    assert (2 ^ Z.log2 n < 2 ^ (b + Z.succ (Z.log2 d))) as Hpow.
    { rewrite Z.pow_add_r by lia.
      assert (0 < 2 ^ b) by (apply Z.pow_pos_nonneg; lia). nia. }
    apply Z.pow_lt_mono_r_iff in Hpow; lia. }
  unfold ratio_exponent. destruct (_ <=? _); lia.
Qed.

(** A quotient below an integer [B] rounds to a double below [B]. *)
Lemma round_le (n d b B : Z) :
  0 <= n -> 0 < d -> 0 <= b <= 52 -> 1 <= B <= 2 ^ b -> n <= B * d ->
  expo (round n d) <= 0 /\
  0 <= mant (round n d) <= B * 2 ^ (- expo (round n d)).
Proof.
  intros Hn Hd Hb HB Hle. unfold round.
  destruct (Z.eqb_spec n 0) as [-> | Hn0]; cbn [mant expo].
  - split; [lia |]. change (2 ^ (- 0)) with 1. lia.
  - assert (ratio_exponent n d <= b) as He.
    { apply ratio_exponent_le; try lia. nia. }
    set (e := ratio_exponent n d - 52) in *.
    assert (e <= 0) as He0 by lia.
    rewrite (Z.max_l 0 e) by lia. rewrite (Z.max_r 0 (- e)) by lia.
    rewrite Z.pow_0_r, Z.mul_1_r.
    assert (0 < 2 ^ (- e)) as Hp by (apply Z.pow_pos_nonneg; lia).
    split; [lia |]. split.
    + apply nearest_even_lower; nia.
    + apply nearest_even_le; [lia | nia].
Qed.

Lemma Math_round_le (x : t) (B : Z) :
  expo x <= 0 -> 0 <= mant x <= B * 2 ^ (- expo x) ->
  0 <= Math_round x <= B.
Proof.
  intros He [Hm0 Hm]. unfold Math_round.
  rewrite (Z.max_l 0 (expo x)) by lia. rewrite (Z.max_r 0 (- expo x)) by lia.
  rewrite Z.pow_0_r, Z.mul_1_r.
  assert (0 < 2 ^ (- expo x)) as Hp by (apply Z.pow_pos_nonneg; lia).
  split.
  - apply Z.div_pos; lia.
  - enough ((2 * mant x + 2 ^ (- expo x)) / (2 * 2 ^ (- expo x)) < B + 1) by lia.
    apply Z.div_lt_upper_bound; nia.
Qed.
End Binary64_facts.

Section Percentage_facts.
Local Open Scope Z_scope.

(** The model computes what the hardware doubles compute, on every
    quotient [c / t] and product [(c / t) * 100] with [c <= t <= 64] and
    on every quotient [s / 7] with [s <= 700]. *)
Lemma binary64_matches_hardware :
  Binary64.agrees_upto 64 = true /\
  forallb (fun s => Binary64.quotient_agrees s 7) (seqZ 0 701) = true.
Proof. split; vm_compute; reflexivity. Qed.

Lemma percentage_zero (t : Z) : percentage 0 t = 0.
Proof. reflexivity. Qed.

Lemma percentage_bounds (c t : Z) :
  0 <= c <= t -> 0 < t -> 0 <= percentage c t <= 100.
Proof.
  intros Hc Ht. unfold percentage, Binary64.div.
  destruct (round_le c t 0 1) as [He [Hm0 Hm]]; try lia.
  set (x := Binary64.round c t) in *.
  unfold Binary64.mul.
  rewrite (Z.max_l 0 (Binary64.expo x)) by lia.
  rewrite (Z.max_r 0 (- Binary64.expo x)) by lia.
  rewrite Z.pow_0_r, Z.mul_1_r.
  assert (0 < 2 ^ (- Binary64.expo x)) as Hp by (apply Z.pow_pos_nonneg; lia).
  destruct (round_le (Binary64.mant x * 100) (2 ^ (- Binary64.expo x)) 7 100)
    as [He' Hm']; try lia.
  apply Math_round_le; assumption.
Qed.

Lemma forallb_seqZ (f : Z -> bool) (lo len z : Z) :
  forallb f (seqZ lo len) = true -> lo <= z < lo + len -> f z = true.
Proof.
  intros Hall Hz. rewrite forallb_forall in Hall. apply Hall.
  apply list_elem_of_In, elem_of_seqZ. lia.
Qed.

(** Below forty habits the double rounding is invisible. *)
Lemma percentage_exact_below_40 (c t : Z) :
  0 <= c <= t -> 1 <= t < 40 -> percentage c t = round_half_up (100 * c) t.
Proof.
  assert (forallb (fun t => forallb (fun c => percentage c t =? round_half_up (100 * c) t)
                                    (seqZ 0 (t + 1)))
                  (seqZ 1 39) = true) as Hgrid by (vm_compute; reflexivity).
  intros Hc Ht.
  pose proof (forallb_seqZ _ 1 39 t Hgrid ltac:(lia)) as Hrow. cbv beta in Hrow.
  pose proof (forallb_seqZ _ 0 (t + 1) c Hrow ltac:(lia)) as Hcell. cbv beta in Hcell.
  lia.
Qed.

(** [Math.round(s / 7)] is the exact rounding for every sum of seven
    percentages. *)
Lemma weekly_quotient_exact (s : Z) :
  0 <= s <= 700 ->
  Binary64.Math_round (Binary64.div s 7) = round_half_up s 7.
Proof.
  assert (forallb (fun s => Binary64.Math_round (Binary64.div s 7) =? round_half_up s 7)
                  (seqZ 0 701) = true) as Hgrid by (vm_compute; reflexivity).
  intros Hs. pose proof (forallb_seqZ _ 0 701 s Hgrid ltac:(lia)) as Hcell.
  cbv beta in Hcell. lia.
Qed.

Lemma filter_length_bound {A} (f : A -> bool) (l : list A) :
  (length (List.filter f l) <= length l)%nat.
Proof. induction l as [| x l IH]; simpl; [lia |]. destruct (f x); simpl; lia. Qed.

Lemma percentForDay_range (M : DayMap) (Hs : list Habit) :
  0 <= percentForDay M Hs <= 100.
Proof.
  unfold percentForDay.
  pose proof (filter_length_bound (fun h => truthy_at M (habit_id h)) Hs) as Hlen.
  destruct Hs as [| h Hs].
  - simpl. rewrite percentage_zero. lia.
  - change (Nat.eqb (length (h :: Hs)) 0) with false. cbv iota.
    apply percentage_bounds; simpl length in *; lia.
Qed.

Lemma percentForDay_no_habits (M : DayMap) : percentForDay M [] = 0.
Proof. reflexivity. Qed.

Lemma truthy_at_plain (M : DayMap) (h : Habit) :
  plain_id h -> truthy_at M (habit_id h) = bool_decide (M !! habit_id h = Some true).
Proof.
  intros Hp. unfold truthy_at. destruct (M !! habit_id h) as [[|] |] eqn:E.
  - by rewrite bool_decide_true.
  - by rewrite bool_decide_false.
  - rewrite bool_decide_false by exact Hp. by rewrite bool_decide_false.
Qed.

Lemma filter_ext_Forall {A} (f g : A -> bool) (P : A -> Prop) (l : list A) :
  (forall x, P x -> f x = g x) -> Forall P l -> List.filter f l = List.filter g l.
Proof.
  intros Hfg Hall. induction Hall as [| x l Hx Hl IH]; simpl; [done |].
  rewrite (Hfg x Hx), IH. done.
Qed.

Lemma completed_plain (M : DayMap) (Hs : list Habit) :
  Forall plain_id Hs ->
  Z.of_nat (length (List.filter (fun h => truthy_at M (habit_id h)) Hs))
  = completed_in M Hs.
Proof.
  intros Hp. unfold completed_in. f_equal. f_equal.
  apply (filter_ext_Forall _ _ plain_id); [| done].
  intros h Hh. by apply truthy_at_plain.
Qed.

Lemma percentForDay_empty_map (Hs : list Habit) :
  Forall plain_id Hs -> percentForDay ∅ Hs = 0.
Proof.
  intros Hp. unfold percentForDay. rewrite (completed_plain ∅ Hs Hp).
  unfold completed_in.
  replace (List.filter _ Hs) with (@nil Habit).
  - apply percentage_zero.
  - symmetry. induction Hs as [| h Hs IH]; simpl; [done |].
    rewrite lookup_empty. rewrite bool_decide_false by done.
    apply IH. by inversion Hp.
Qed.

(** With fewer than forty habits, none of them named like a member of
    [Object.prototype], the function is the formula of the specification. *)
Lemma percentForDay_formula_below_40 (M : DayMap) (Hs : list Habit) :
  Forall plain_id Hs -> (length Hs < 40)%nat ->
  percentForDay M Hs = percent_formula M Hs.
Proof.
  intros Hp Hlen. unfold percentForDay, percent_formula.
  rewrite (completed_plain M Hs Hp).
  assert (0 <= completed_in M Hs <= Z.of_nat (length Hs)) as Hc.
  { unfold completed_in.
    pose proof (filter_length_bound
                  (fun h => bool_decide (M !! habit_id h = Some true)) Hs). lia. }
  destruct Hs as [| h Hs].
  - reflexivity.
  - change (Nat.eqb (length (h :: Hs)) 0) with false. cbv iota.
    rewrite Z.max_l by (simpl length; lia).
    apply percentage_exact_below_40; simpl length in *; lia.
Qed.
End Percentage_facts.

(** C1 (as the code has it).  The function leaves the formula
    [round(100 * completed / max(|H|, 1))] in two places.  With forty habits
    of which twenty-three are done, the double [(23 / 40) * 100] is
    [8092405580431359 * 2^-47], just below 57.5, on the hardware as in the
    model, and [percentForDay] returns 57, where the formula gives 58.  With
    the single habit [constructor] (the slug of the label [Constructor]) and
    the empty day map, [habitsMap[h.id]] reads the inherited
    [Object.prototype.constructor], the habit counts as done and
    [percentForDay] returns 100, where the claim has 0. *)
Theorem percentForDay_departs_from_formula :
  percentForDay (all_done (take 23 (sample_habits 40))) (sample_habits 40) = 57%Z /\
  percent_formula (all_done (take 23 (sample_habits 40))) (sample_habits 40) = 58%Z /\
  Prim2SF (Binary64.prim_percent 23 40) = S754_finite false 8092405580431359 (-47) /\
  (2 * 8092405580431359 < 115 * 2 ^ 47)%Z /\
  slugify ascii_toLowerCase 1700000000000 (ascii_trim "Constructor") = "constructor"%string /\
  percentForDay ∅ [mkHabit "constructor" "Constructor"] = 100%Z /\
  percent_formula ∅ [mkHabit "constructor" "Constructor"] = 0%Z.
Proof. repeat split; vm_compute; reflexivity. Qed.

(** ** Date utilities *)
Section Date_facts.
Local Open Scope Z_scope.
Variable zone : TimeZone.

Lemma lastNDates_loop_length (now : Z) (count : nat) (dates : list DateKey) :
  length (lastNDates_loop zone now count dates) = (length dates + count)%nat.
Proof.
  revert dates. induction count as [| i IH]; intros dates; cbn [lastNDates_loop]; [lia |].
  rewrite IH, length_app. cbn [length]. lia.
Qed.

(** The window has [n] keys in every zone. *)
Lemma lastNDates_length (now : Z) (n : nat) : length (lastNDates zone now n) = n.
Proof. unfold lastNDates. by rewrite lastNDates_loop_length. Qed.

Lemma lastNDates_loop_keys (now : Z) (count : nat) (dates : list DateKey) :
  lastNDates_loop zone now count dates
  = dates ++ ((fun i : nat => dateKey (minusDays zone now (Z.of_nat i)))
                <$> rev (seq 0 count)).
Proof.
  revert dates. induction count as [| i IH]; intros dates; cbn [lastNDates_loop].
  - by rewrite app_nil_r.
  - rewrite IH, <- app_assoc. f_equal. by rewrite seq_S, rev_app_distr.
Qed.

(** The keys of the window: the day of the instant [i] days back, for [i]
    from [n - 1] down to 0. *)
Lemma lastNDates_keys (now : Z) (n : nat) :
  lastNDates zone now n
  = (fun i : nat => dateKey (minusDays zone now (Z.of_nat i))) <$> rev (seq 0 n).
Proof. unfold lastNDates. by rewrite lastNDates_loop_keys. Qed.
End Date_facts.

Section Constant_offset_facts.
Local Open Scope Z_scope.
Variable zone : TimeZone.
Hypothesis Hconstant : constant_offset zone.

(** Without a change of offset a calendar day is 86 400 000 ms. *)
Lemma minusDays_constant (time i : Z) : minusDays zone time i = time - i * msPerDay.
Proof.
  destruct Hconstant as [offset Hoffset]. unfold minusDays, UTC, LocalTime.
  rewrite !Hoffset. lia.
Qed.

Lemma dateKey_minusDays (time i : Z) :
  dateKey (minusDays zone time i) = dateKey time - i.
Proof.
  rewrite minusDays_constant. unfold dateKey.
  replace (time - i * msPerDay) with (time + (- i) * msPerDay) by lia.
  rewrite Z.div_add by (unfold msPerDay; lia). lia.
Qed.

Lemma lastNDates_loop_seqZ (now : Z) (count : nat) (dates : list DateKey) :
  lastNDates_loop zone now count dates
  = dates ++ seqZ (todayKey now - Z.of_nat count + 1) (Z.of_nat count).
Proof.
  revert dates. induction count as [| i IH]; intros dates.
  - simpl. rewrite seqZ_nil by lia. by rewrite app_nil_r.
  - cbn [lastNDates_loop]. rewrite IH, dateKey_minusDays, <- app_assoc.
    f_equal. rewrite (seqZ_cons _ (Z.of_nat (S i))) by lia.
    unfold todayKey. simpl app. f_equal; [lia |]. f_equal; lia.
Qed.

(** Without a change of offset the window is the run of [n] consecutive
    days that ends today. *)
Lemma lastNDates_seqZ (now : Z) (n : nat) :
  lastNDates zone now n = seqZ (todayKey now - Z.of_nat n + 1) (Z.of_nat n).
Proof. unfold lastNDates. by rewrite lastNDates_loop_seqZ. Qed.
End Constant_offset_facts.

Section Zone_facts.
Local Open Scope Z_scope.

Lemma constant_offset_fixed (offset : Z) : constant_offset (fixed_zone offset).
Proof. by exists offset. Qed.

Lemma backward_constant (zone : TimeZone) : constant_offset zone -> backward zone.
Proof.
  intros Hconstant t. rewrite (minusDays_constant zone Hconstant). unfold msPerDay. lia.
Qed.

(** A change of offset by an hour does not stop the walk back. *)
Lemma backward_new_york : backward new_york_2026.
Proof.
  intros t. unfold minusDays, UTC, LocalTime, new_york_2026, msPerDay.
  repeat match goal with |- context [?a <? ?b] => destruct (a <? b) end; lia.
Qed.

Lemma seqZ_increasing (len : nat) (lo : Z) :
  StronglySorted Z.lt (seqZ lo (Z.of_nat len)).
Proof.
  revert lo. induction len as [| len IH]; intros lo.
  - rewrite seqZ_nil by lia. constructor.
  - rewrite seqZ_cons by lia.
    replace (Z.pred (Z.of_nat (S len))) with (Z.of_nat len) by lia.
    constructor; [apply IH |]. apply Forall_seqZ. lia.
Qed.
End Zone_facts.

(** In a zone whose offset never changes, [lastNDates(n)] for [n >= 1] has
    exactly [n] date keys, in strictly ascending order, and its last element
    is [todayKey()]. *)
Lemma lastNDates_window (zone : TimeZone) (now : Z) (n : nat) :
  constant_offset zone ->
  (1 <= n)%nat ->
  length (lastNDates zone now n) = n /\
  StronglySorted Z.lt (lastNDates zone now n) /\
  last (lastNDates zone now n) = Some (todayKey now).
Proof.
  intros Hconstant Hn. rewrite (lastNDates_seqZ zone Hconstant). split; [| split].
  - rewrite length_seqZ. lia.
  - apply seqZ_increasing.
  - rewrite last_lookup, length_seqZ, Nat2Z.id.
    rewrite lookup_seqZ_lt by lia. f_equal. lia.
Qed.


(** ** Streak engine *)
Section Streak_facts.
Local Open Scope Z_scope.
Variable zone : TimeZone.
Variable habits : list Habit.

Lemma streak_loop_step (fuel : nat) (history : History) (cursor : Z) (streak : nat) :
  day_percent history habits (dateKey cursor) = Some 100 ->
  streak_loop zone (S fuel) history habits cursor streak
  = streak_loop zone fuel history habits (minusDays zone cursor 1) (S streak).
Proof.
  unfold day_percent. intros Hday. cbn [streak_loop].
  destruct (history !! dateKey cursor) as [record |]; [| done].
  simpl in Hday. injection Hday as ->. done.
Qed.

Lemma streak_loop_stop (fuel : nat) (history : History) (cursor : Z) (streak : nat) :
  day_percent history habits (dateKey cursor) <> Some 100 ->
  streak_loop zone (S fuel) history habits cursor streak = Some streak.
Proof.
  unfold day_percent. intros Hday. cbn [streak_loop].
  destruct (history !! dateKey cursor) as [record |]; [| done].
  simpl in Hday.
  destruct (Z.eqb_spec (percentForDay (default ∅ (record_habits record)) habits) 100)
    as [Heq | Hne]; [| done].
  exfalso. apply Hday. by rewrite Heq.
Qed.

Lemma streak_loop_more_fuel (fuel : nat) :
  forall (history : History) (cursor : Z) (streak result : nat) (fuel' : nat),
  streak_loop zone fuel history habits cursor streak = Some result ->
  (fuel <= fuel')%nat ->
  streak_loop zone fuel' history habits cursor streak = Some result.
Proof.
  induction fuel as [| fuel IH]; intros history cursor streak result fuel' Hrun Hle;
    [done |].
  destruct fuel' as [| fuel']; [lia |].
  cbn [streak_loop] in *.
  destruct (history !! dateKey cursor) as [record |]; [| done].
  destruct (_ =? 100); [| done].
  apply (IH _ _ _ _ fuel' Hrun). lia.
Qed.

(** The loop never takes from the count it starts with. *)
Lemma streak_loop_grows (fuel : nat) :
  forall (history : History) (cursor : Z) (streak result : nat),
  streak_loop zone fuel history habits cursor streak = Some result ->
  (streak <= result)%nat.
Proof.
  induction fuel as [| fuel IH]; intros history cursor streak result Hrun; [done |].
  cbn [streak_loop] in Hrun.
  destruct (history !! dateKey cursor) as [record |]; [| injection Hrun as <-; lia].
  destruct (_ =? 100); [| injection Hrun as <-; lia].
  apply IH in Hrun. lia.
Qed.

(** A finite history has an oldest day. *)
Lemma history_oldest (history : History) :
  exists oldest : Z, forall day : DateKey, is_Some (history !! day) -> oldest <= day.
Proof.
  induction history as [| day record history Hfresh _ [oldest Holdest]] using map_first_key_ind.
  - exists 0. intros day [record Hday]. by rewrite lookup_empty in Hday.
  - exists (Z.min oldest day). intros day' [record' Hday'].
    destruct (decide (day' = day)) as [-> | Hne]; [lia |].
    rewrite lookup_insert_ne in Hday' by done.
    specialize (Holdest day' ltac:(by eexists)). lia.
Qed.

(** Where every step back moves the cursor back in time, the loop comes to
    a day before the oldest entry of the history, and stops there at the
    latest. *)
Lemma streak_loop_halts (history : History) :
  backward zone ->
  forall (cursor : Z) (streak : nat),
  exists (fuel k : nat),
    forall fuel' : nat, (fuel <= fuel')%nat ->
      streak_loop zone fuel' history habits cursor streak = Some (streak + k)%nat.
Proof.
  intros Hback cursor streak.
  destruct (history_oldest history) as [oldest Holdest].
  enough (forall (n : nat) (cursor : Z) (streak : nat),
            cursor - oldest * msPerDay < Z.of_nat n ->
            exists k : nat,
              streak_loop zone (S n) history habits cursor streak = Some (streak + k)%nat)
    as Hrun.
  { destruct (Hrun (Z.to_nat (cursor - oldest * msPerDay + 1)) cursor streak) as [k Hk];
      [lia |].
    eexists _, k. intros fuel' Hfuel. by apply (streak_loop_more_fuel _ _ _ _ _ _ Hk). }
  clear cursor streak. induction n as [| n IH]; intros cursor streak Hnear.
  - exists 0%nat. rewrite streak_loop_stop; [f_equal; lia |].
    unfold day_percent.
    destruct (history !! dateKey cursor) as [record |] eqn:Hrecord; [| done].
    exfalso. specialize (Holdest (dateKey cursor) ltac:(by eexists)).
    unfold dateKey in Holdest.
    assert (cursor / msPerDay < oldest); [| lia].
    apply Z.div_lt_upper_bound; unfold msPerDay in *; lia.
  - destruct (decide (day_percent history habits (dateKey cursor) = Some 100))
      as [Hperfect | Hbreak].
    + rewrite streak_loop_step by done.
      destruct (IH (minusDays zone cursor 1) (S streak)) as [k Hk].
      { specialize (Hback cursor). lia. }
      exists (S k). rewrite Hk. f_equal. lia.
    + exists 0%nat. rewrite streak_loop_stop by done. f_equal. lia.
Qed.
End Streak_facts.

(** Where every step back moves the cursor back in time, [calculateStreak]
    returns, and what it returns does not depend on the fuel. *)
Lemma calculateStreak_halts (zone : TimeZone) (now : Z) (history : History)
    (habits : list Habit) :
  backward zone ->
  exists (fuel k : nat),
    forall fuel' : nat, (fuel <= fuel')%nat ->
      calculateStreak zone fuel' now history habits = Some k.
Proof.
  intros Hback. destruct (streak_loop_halts zone habits history Hback now 0%nat)
    as (fuel & k & Hrun).
  exists fuel, k. intros fuel' Hfuel. unfold calculateStreak. by rewrite (Hrun fuel' Hfuel).
Qed.

Section Streak_constant_facts.
Local Open Scope Z_scope.
Variable zone : TimeZone.
Hypothesis Hconstant : constant_offset zone.
Variable habits : list Habit.

(** [k] perfect days from the cursor back and then a break: the loop
    adds exactly [k]. *)
Lemma streak_loop_counts (history : History) (k : nat) :
  forall (fuel : nat) (cursor : Z) (streak : nat),
  (forall i : nat, (i < k)%nat ->
     day_percent history habits (dateKey cursor - Z.of_nat i) = Some 100) ->
  day_percent history habits (dateKey cursor - Z.of_nat k) <> Some 100 ->
  (k < fuel)%nat ->
  streak_loop zone fuel history habits cursor streak = Some (streak + k)%nat.
Proof.
  induction k as [| k IH]; intros fuel cursor streak Hperfect Hbreak Hfuel;
    destruct fuel as [| fuel]; try lia.
  - rewrite streak_loop_stop; [f_equal; lia |].
    by rewrite Z.sub_0_r in Hbreak.
  - rewrite streak_loop_step.
    + rewrite (IH fuel); [f_equal; lia | | | lia].
      * intros i Hi. rewrite (dateKey_minusDays zone Hconstant).
        specialize (Hperfect (S i) ltac:(lia)).
        by replace (dateKey cursor - 1 - Z.of_nat i)
          with (dateKey cursor - Z.of_nat (S i)) by lia.
      * rewrite (dateKey_minusDays zone Hconstant).
        by replace (dateKey cursor - 1 - Z.of_nat k)
          with (dateKey cursor - Z.of_nat (S k)) by lia.
    + specialize (Hperfect 0%nat ltac:(lia)). by rewrite Z.sub_0_r in Hperfect.
Qed.

(** The loop reads the history at the cursor's day and before only. *)
Lemma streak_loop_agree (fuel : nat) :
  forall (h1 h2 : History) (cursor : Z) (streak : nat),
  (forall d, d <= dateKey cursor -> h1 !! d = h2 !! d) ->
  streak_loop zone fuel h1 habits cursor streak
  = streak_loop zone fuel h2 habits cursor streak.
Proof.
  induction fuel as [| fuel IH]; intros h1 h2 cursor streak Hagree; [done |].
  cbn [streak_loop]. rewrite <- (Hagree (dateKey cursor)) by lia.
  destruct (h1 !! dateKey cursor) as [record |]; [| done].
  destruct (_ =? 100); [| done].
  apply IH. intros d Hd. rewrite (dateKey_minusDays zone Hconstant) in Hd.
  apply Hagree. lia.
Qed.

(** Every counted day uses up one entry of the history. *)
Lemma streak_loop_terminates (fuel : nat) :
  forall (history : History) (cursor : Z) (streak : nat),
  (size history < fuel)%nat ->
  exists k : nat,
    streak_loop zone fuel history habits cursor streak = Some (streak + k)%nat /\
    (k <= size history)%nat.
Proof.
  induction fuel as [| fuel IH]; intros history cursor streak Hfuel; [lia |].
  cbn [streak_loop].
  destruct (history !! dateKey cursor) as [record |] eqn:Hrec.
  - destruct (_ =? 100).
    + rewrite (streak_loop_agree fuel history (delete (dateKey cursor) history)).
      * assert (size (delete (dateKey cursor) history) = pred (size history)) as Hsize
          by (by apply map_size_delete_Some).
        assert (size history <> 0)%nat as Hpos.
        { intros Hz. apply map_size_empty_inv in Hz. subst history.
          by rewrite lookup_empty in Hrec. }
        destruct (IH (delete (dateKey cursor) history) (minusDays zone cursor 1) (S streak))
          as (k & Hk & Hle); [lia |].
        exists (S k). split; [rewrite Hk; f_equal; lia | lia].
      * intros d Hd. rewrite (dateKey_minusDays zone Hconstant) in Hd.
        rewrite lookup_delete_ne by lia. done.
    + exists 0%nat. split; [f_equal; lia | lia].
  - exists 0%nat. split; [f_equal; lia | lia].
Qed.

Lemma calculateStreak_returns (now : Z) (history : History) :
  exists k : nat,
    (forall fuel : nat, (size history < fuel)%nat ->
       calculateStreak zone fuel now history habits = Some k) /\
    (k <= size history)%nat.
Proof.
  destruct (streak_loop_terminates (S (size history)) history now 0%nat)
    as (k & Hk & Hle); [lia |].
  exists k. split; [| done].
  intros fuel Hfuel. unfold calculateStreak.
  apply (streak_loop_more_fuel zone habits (S (size history))); [exact Hk | lia].
Qed.
End Streak_constant_facts.

Lemma breaks_streak_not_perfect (history : History) (habits : list Habit) (day : DateKey) :
  breaks_streak history habits day -> day_percent history habits day <> Some 100%Z.
Proof.
  intros [Hnone | (p & Hp & Hlt)] Heq; rewrite Heq in *; [done |].
  injection Hp as <-. lia.
Qed.

(** In a zone whose offset never changes, [calculateStreak] walks back from
    today one day at a time and stops at the first day without a history
    entry or with [percentForDay] below 100: if the last [k] days, today
    included, are all at 100 percent and the day before them is absent or
    below 100 percent, it returns exactly [k] (given fuel for [k + 1]
    iterations); in particular it returns 0 when today's entry is absent or
    below 100 percent. *)
Lemma calculateStreak_counts_perfect_days
    (zone : TimeZone) (now : Z) (history : History) (habits : list Habit) (k : nat) :
  constant_offset zone ->
  (forall i : nat, (i < k)%nat ->
     day_percent history habits (todayKey now - Z.of_nat i) = Some 100%Z) ->
  breaks_streak history habits (todayKey now - Z.of_nat k) ->
  forall fuel : nat, (k < fuel)%nat ->
    calculateStreak zone fuel now history habits = Some k.
Proof.
  intros Hconstant Hperfect Hbreak fuel Hfuel. unfold calculateStreak.
  rewrite (streak_loop_counts zone Hconstant habits history k);
    [done | exact Hperfect | | exact Hfuel].
  by apply breaks_streak_not_perfect.
Qed.

(** In whatever zone, [calculateStreak] returns 0 when today's entry is
    absent or below 100 percent. *)
Lemma calculateStreak_zero_today
    (zone : TimeZone) (now : Z) (history : History) (habits : list Habit) :
  breaks_streak history habits (todayKey now) ->
  forall fuel : nat, calculateStreak zone (S fuel) now history habits = Some 0%nat.
Proof.
  intros Hbreak fuel. unfold calculateStreak.
  by apply streak_loop_stop, breaks_streak_not_perfect.
Qed.

(** In a zone whose offset never changes, any fuel above the number of
    history entries is enough for [calculateStreak], and its result never
    exceeds the number of date entries of the history. *)
Lemma calculateStreak_terminates_within_history
    (zone : TimeZone) (now : Z) (history : History) (habits : list Habit) :
  constant_offset zone ->
  exists k : nat,
    (forall fuel : nat, (size history < fuel)%nat ->
       calculateStreak zone fuel now history habits = Some k) /\
    (k <= size history)%nat.
Proof. intros Hconstant. by apply calculateStreak_returns. Qed.

(** C2 (as the code has it).  The cursor is stepped back in local time and
    the day it names is its UTC day.  In New York on 8 March 2026 at 19:30
    local time (23:30 UTC), the day the clocks went forward, the step back
    from the first iteration lands on 7 March at 19:30 local time, which is
    8 March at 00:30 UTC: the loop reads the entry of 8 March a second time.
    With a history that holds that one day, at 100 percent, the last [k = 1]
    days are perfect and the day before has no entry; [calculateStreak]
    returns 2. *)
Theorem calculateStreak_counts_a_day_twice :
  let now := 1773012600000%Z in
  let habits := DEFAULT_HABITS in
  let history := perfect_on [20520]%Z habits in
  todayKey now = 20520%Z /\
  (forall i : nat, (i < 1)%nat ->
     day_percent history habits (todayKey now - Z.of_nat i) = Some 100%Z) /\
  breaks_streak history habits (todayKey now - Z.of_nat 1) /\
  minusDays new_york_2026 now 1 = 1772929800000%Z /\
  dateKey (minusDays new_york_2026 now 1) = todayKey now /\
  (forall fuel : nat, (2 < fuel)%nat ->
     calculateStreak new_york_2026 fuel now history habits = Some 2%nat).
Proof.
  intros now habits history.
  split; [vm_compute; reflexivity |]. split.
  { intros [| i] Hi; [vm_compute; reflexivity | lia]. }
  split; [left; vm_compute; reflexivity |].
  split; [vm_compute; reflexivity |]. split; [vm_compute; reflexivity |].
  intros fuel Hfuel. unfold calculateStreak.
  apply (streak_loop_more_fuel new_york_2026 habits 3); [vm_compute; reflexivity | lia].
Qed.

(** C10 (as the code has it).  In New York on 8 March 2026 at 19:30 local
    time the loop reads the entry of 8 March in two iterations (the step back
    in local time stays within that UTC day), so the two days it counts are
    one entry of the history: with the one-entry history that holds that day
    at 100 percent, [calculateStreak] terminates in three iterations and
    returns 2, more than the number of entries. *)
Theorem calculateStreak_exceeds_history :
  let now := 1773012600000%Z in
  let habits := DEFAULT_HABITS in
  let history := perfect_on [20520]%Z habits in
  size history = 1%nat /\
  history !! dateKey now = history !! dateKey (minusDays new_york_2026 now 1) /\
  is_Some (history !! dateKey now) /\
  calculateStreak new_york_2026 2 now history habits = None /\
  calculateStreak new_york_2026 3 now history habits = Some 2%nat /\
  exists k : nat,
    (forall fuel : nat, (2 < fuel)%nat ->
       calculateStreak new_york_2026 fuel now history habits = Some k) /\
    (size history < k)%nat.
Proof.
  intros now habits history.
  assert (size history = 1%nat) as Hsize.
  { unfold history, perfect_on. cbn [fmap list_fmap list_to_map foldr].
    by rewrite insert_empty, map_size_singleton. }
  split; [exact Hsize |]. split; [vm_compute; reflexivity |].
  split; [vm_compute; by eexists |].
  split; [vm_compute; reflexivity |]. split; [vm_compute; reflexivity |].
  exists 2%nat. split; [| lia].
  intros fuel Hfuel. unfold calculateStreak.
  apply (streak_loop_more_fuel new_york_2026 habits 3); [vm_compute; reflexivity | lia].
Qed.

(** Where the calendar skips a day the cursor does not move: in Samoa on
    31 December 2011 the day before is the day the zone left out, and
    [setDate] reads the local time of that day back as the instant the cursor
    already holds.  On a perfect day the loop then never ends. *)
Lemma calculateStreak_stalls_on_skipped_day :
  minusDays apia_2011 1325275200000 1 = 1325275200000%Z /\
  forall fuel : nat,
    calculateStreak apia_2011 fuel 1325275200000
                    (perfect_on [15338]%Z DEFAULT_HABITS) DEFAULT_HABITS = None.
Proof.
  assert (minusDays apia_2011 1325275200000 1 = 1325275200000%Z) as Hstay
    by (vm_compute; reflexivity).
  split; [exact Hstay |]. intros fuel. unfold calculateStreak.
  generalize 0%nat. induction fuel as [| fuel IH]; intros streak; [done |].
  rewrite streak_loop_step; [| vm_compute; reflexivity].
  rewrite Hstay. apply IH.
Qed.

(** ** Calls with missing arguments *)
Section Call_facts.
Lemma filter_call_present (M : DayMap) (Hs : list Habit) :
  filter_call (fun h => read_truthy (Some M) (habit_id h)) Hs
  = Normal (List.filter (fun h => truthy_at M (habit_id h)) Hs).
Proof.
  induction Hs as [| h Hs IH]; [done |].
  simpl in IH |- *. rewrite IH. done.
Qed.

Lemma percentForDay_call_present (M : DayMap) (Hs : option (list Habit)) :
  percentForDay_call (Some M) Hs = Normal (percentForDay M (default [] Hs)).
Proof.
  unfold percentForDay_call. rewrite (filter_call_present M (default [] Hs)).
  destruct Hs as [Hs |]; reflexivity.
Qed.

Lemma find_habit_elem (habits : list Habit) (id : string) (h : Habit) :
  find_habit habits id = Some h -> h ∈ habits.
Proof.
  unfold find_habit. intros Hfind. apply find_some in Hfind as [Hin _].
  by apply list_elem_of_In.
Qed.
End Call_facts.

(** ** Weekly aggregation *)
Section Weekly_facts.
Local Open Scope Z_scope.

Lemma foldl_sum (series : list Z) (start : Z) :
  foldl (fun sum val => sum + val) start series = start + foldr Z.add 0 series.
Proof.
  revert start. induction series as [| p series IH]; intros start; simpl; [lia |].
  rewrite IH. lia.
Qed.

Lemma sum_of_percentages (series : list Z) :
  Forall (fun p => 0 <= p <= 100) series ->
  0 <= foldr Z.add 0 series <= 100 * Z.of_nat (length series).
Proof.
  induction 1 as [| p series Hp _ IH]; simpl foldr; simpl length; lia.
Qed.

(** The weekly series has seven entries in every zone. *)
Lemma weeklyPercentages_length (zone : TimeZone) (now : Z) (history : History)
    (habits : list Habit) :
  length (weeklyPercentages zone now history habits) = 7%nat.
Proof. unfold weeklyPercentages. by rewrite length_fmap, lastNDates_length. Qed.

Lemma weeklyPercentages_days (zone : TimeZone) (now : Z) (history : History)
    (habits : list Habit) :
  constant_offset zone ->
  weeklyPercentages zone now history habits
  = (fun day => percentForDay (default ∅ (history !! day ≫= record_habits)) habits)
      <$> seqZ (todayKey now - 6) 7.
Proof.
  intros Hconstant. unfold weeklyPercentages. rewrite (lastNDates_seqZ zone Hconstant).
  by replace (todayKey now - Z.of_nat 7 + 1) with (todayKey now - 6) by lia.
Qed.

Lemma weeklyPercentages_range (zone : TimeZone) (now : Z) (history : History)
    (habits : list Habit) :
  Forall (fun p => 0 <= p <= 100) (weeklyPercentages zone now history habits).
Proof.
  unfold weeklyPercentages. apply Forall_fmap, Forall_forall.
  intros day _. unfold compose. apply percentForDay_range.
Qed.

Lemma weeklyAverage_exact (series : list Z) :
  length series = 7%nat -> Forall (fun p => 0 <= p <= 100) series ->
  weeklyAverage series = rounded_mean series.
Proof.
  intros Hlen Hrange. unfold weeklyAverage, rounded_mean.
  rewrite Hlen. change (Nat.eqb 7 0) with false. cbv iota.
  rewrite foldl_sum, Z.add_0_l.
  pose proof (sum_of_percentages series Hrange) as Hsum. rewrite Hlen in Hsum.
  change (Z.of_nat 7) with 7. apply weekly_quotient_exact. lia.
Qed.

Lemma weeklyAverage_range (series : list Z) :
  length series = 7%nat -> Forall (fun p => 0 <= p <= 100) series ->
  0 <= weeklyAverage series <= 100.
Proof.
  intros Hlen Hrange. rewrite (weeklyAverage_exact _ Hlen Hrange).
  pose proof (sum_of_percentages _ Hrange) as Hsum. rewrite Hlen in Hsum.
  unfold rounded_mean, round_half_up. rewrite Hlen.
  split; [apply Z.div_pos; lia |].
  enough ((2 * foldr Z.add 0 series + Z.of_nat 7) / (2 * Z.of_nat 7) < 101) by lia.
  apply Z.div_lt_upper_bound; lia.
Qed.
End Weekly_facts.

(** C4.  In every zone the weekly series is [percentForDay] over
    [lastNDates(7)], each day with the habit map of its history entry, or the
    empty map when the entry is absent; the weekly average is the rounded
    mean of that series; the series [100, 100, 0, 100, 100, 100, 100]
    averages to 86. *)
Theorem weeklyAverage_is_rounded_mean
    (zone : TimeZone) (now : Z) (history : History) (habits : list Habit) :
  weeklyPercentages zone now history habits
  = (fun day => percentForDay (default ∅ (history !! day ≫= record_habits)) habits)
      <$> lastNDates zone now 7 /\
  length (weeklyPercentages zone now history habits) = 7%nat /\
  weeklyAverage (weeklyPercentages zone now history habits)
  = rounded_mean (weeklyPercentages zone now history habits) /\
  weeklyAverage [100; 100; 0; 100; 100; 100; 100]%Z = 86%Z /\
  rounded_mean [100; 100; 0; 100; 100; 100; 100]%Z = 86%Z.
Proof.
  split; [reflexivity |]. split; [apply weeklyPercentages_length |]. split.
  - apply weeklyAverage_exact; [apply weeklyPercentages_length |].
    apply weeklyPercentages_range.
  - split; vm_compute; reflexivity.
Qed.

(** C6 (as stated): with a missing day map and a nonempty habit list the
    call does not return 0, it throws. *)
Lemma percentForDay_missing_map_throws :
  percentForDay_call None (Some [mkHabit "wake" "Wake up early"]) = Throw TypeError /\
  percentForDay_call None (Some [mkHabit "wake" "Wake up early"]) <> Normal 0%Z.
Proof. split; [reflexivity | discriminate]. Qed.

(** C6 (amended).  [percentForDay] never raises when the day map is present,
    the empty map included, whatever the habit list, present or missing, and
    then returns an integer between 0 and 100; with a missing day map it
    returns 0 when the habit list is empty or missing and raises a
    [TypeError] for every nonempty habit list.  The other derivations never
    hand it a missing map and return for every input, in every zone:
    [lastNDates(n)] returns [n] keys, none for [n = 0]; the weekly series has
    seven entries between 0 and 100, its average lies between 0 and 100 (and
    is 0 for an empty series), and at most seven of its days are full;
    [monthlyInsight] returns habits of the list, or [null] twice for the
    empty list.  [calculateStreak] returns a value for every history and
    habit list, in every zone in which setting a date one day back moves the
    instant back. *)
Theorem derivations_total_on_present_maps :
  (forall (M : DayMap) (Hs : option (list Habit)),
     exists p : Z, percentForDay_call (Some M) Hs = Normal p /\
                   p = percentForDay M (default [] Hs) /\ (0 <= p <= 100)%Z) /\
  (forall (h : Habit) (Hs : list Habit),
     percentForDay_call None (Some (h :: Hs)) = Throw TypeError) /\
  percentForDay_call None (Some []) = Normal 0%Z /\
  percentForDay_call None None = Normal 0%Z /\
  (forall (zone : TimeZone) (now : Z) (n : nat),
     length (lastNDates zone now n) = n /\ lastNDates zone now 0 = []) /\
  (forall (zone : TimeZone) (now : Z) (history : History) (habits : list Habit),
     length (weeklyPercentages zone now history habits) = 7%nat /\
     Forall (fun p => 0 <= p <= 100)%Z (weeklyPercentages zone now history habits) /\
     (0 <= weeklyAverage (weeklyPercentages zone now history habits) <= 100)%Z /\
     (weeklyFullDays (weeklyPercentages zone now history habits) <= 7)%nat) /\
  weeklyAverage [] = 0%Z /\
  weeklyFullDays [] = 0%nat /\
  (forall (zone : TimeZone) (now : Z) (history : History) (habits : list Habit),
     (forall h : Habit,
        bestHabit (monthlyInsight zone now history habits) = Some h -> h ∈ habits) /\
     (forall h : Habit,
        worstHabit (monthlyInsight zone now history habits) = Some h -> h ∈ habits) /\
     monthlyInsight zone now history [] = mkInsight None None) /\
  (forall zone : TimeZone, backward zone ->
   forall (now : Z) (history : History) (habits : list Habit),
     exists (fuel k : nat),
       forall fuel' : nat, (fuel <= fuel')%nat ->
         calculateStreak zone fuel' now history habits = Some k).
Proof.
  split; [| split; [| split; [| split; [| split; [| split; [| split; [| split;
    [| split]]]]]]]].
  - intros M Hs. eexists. split; [apply percentForDay_call_present |].
    split; [reflexivity | apply percentForDay_range].
  - reflexivity.
  - reflexivity.
  - reflexivity.
  - intros zone now n. split; [apply lastNDates_length | reflexivity].
  - intros zone now history habits.
    pose proof (weeklyPercentages_length zone now history habits) as Hlen.
    pose proof (weeklyPercentages_range zone now history habits) as Hrange.
    split; [exact Hlen |]. split; [exact Hrange |].
    split; [by apply weeklyAverage_range |].
    unfold weeklyFullDays.
    pose proof (filter_length_bound (fun p => p =? 100)%Z
                                    (weeklyPercentages zone now history habits)). lia.
  - reflexivity.
  - reflexivity.
  - intros zone now history habits. split; [| split].
    + intros h. unfold monthlyInsight.
      destruct (Obj.entries (monthly_counts zone now history habits)); [done |].
      cbn [bestHabit]. apply find_habit_elem.
    + intros h. unfold monthlyInsight.
      destruct (Obj.entries (monthly_counts zone now history habits)); [done |].
      cbn [worstHabit]. apply find_habit_elem.
    + unfold monthlyInsight, monthly_counts. cbn [foldl].
      assert (forall days : list DateKey, foldl (count_day history []) [] days = [])
        as ->; [| done].
      induction days as [| day days IH]; [done |].
      cbn [foldl]. unfold count_day at 2. by destruct (history !! day).
  - intros zone Hback now history habits. by apply calculateStreak_halts.
Qed.

Lemma derivations_total_on_present_maps_witness :
  backward india /\
  exists (fuel k : nat),
    forall fuel' : nat, (fuel <= fuel')%nat ->
      calculateStreak india fuel' 1700000000000
                      (perfect_on [19675; 19674; 19672]%Z (sample_habits 3))
                      (sample_habits 3) = Some k.
Proof.
  assert (backward india) as Hback.
  { intros t. unfold minusDays, UTC, LocalTime, india, fixed_zone, msPerDay. lia. }
  split; [exact Hback |].
  exact (proj2 (proj2 (proj2 (proj2 (proj2 (proj2 (proj2 (proj2 (proj2
           derivations_total_on_present_maps)))))))) india Hback 1700000000000%Z
           (perfect_on [19675; 19674; 19672]%Z (sample_habits 3)) (sample_habits 3)).
Defined.

(** ** Habit handlers *)
Section Handler_facts.
Variable toLowerCase : string -> string.
Variable trim : string -> string.

Lemma backfill_lookup (id : string) (prev : History) (date : DateKey) :
  backfill id prev !! date
  = (fun entry => mkRecord (Some (<[id := false]> (default ∅ (record_habits entry)))))
      <$> prev !! date.
Proof. unfold backfill. apply lookup_fmap. Qed.

Lemma forget_lookup (id : string) (prev : History) (date : DateKey) :
  forget id prev !! date
  = (fun entry => mkRecord (delete id <$> record_habits entry)) <$> prev !! date.
Proof. unfold forget. apply lookup_fmap. Qed.

Lemma handleAddHabit_adds (now : Z) (st : AppState) :
  trim (app_newHabit st) <> ""%string ->
  Forall (fun h => habit_id h <> slugify toLowerCase now (trim (app_newHabit st)))
         (app_habits st) ->
  handleAddHabit toLowerCase trim now st
  = mkApp (app_habits st
             ++ [mkHabit (slugify toLowerCase now (trim (app_newHabit st)))
                         (trim (app_newHabit st))])
          (backfill (slugify toLowerCase now (trim (app_newHabit st))) (app_history st))
          (app_tasksByDate st) (app_selectedDate st) "".
Proof.
  intros Htrim Hfresh. unfold handleAddHabit.
  destruct (String.eqb_spec (trim (app_newHabit st)) "") as [Heq | _]; [done |].
  replace (existsb _ (app_habits st)) with false; [done |].
  symmetry. apply not_true_is_false. intros Hex.
  apply existsb_exists in Hex as (h & Hin & Heq).
  apply String.eqb_eq in Heq. rewrite Forall_forall in Hfresh.
  apply (Hfresh h); [by apply list_elem_of_In | done].
Qed.

(** Nothing is added for a blank label or an id that is taken. *)
Lemma handleAddHabit_rejects (now : Z) (st : AppState) :
  trim (app_newHabit st) = ""%string \/
  Exists (fun h => habit_id h = slugify toLowerCase now (trim (app_newHabit st)))
         (app_habits st) ->
  handleAddHabit toLowerCase trim now st = st.
Proof.
  intros [Hblank | Htaken]; unfold handleAddHabit.
  - rewrite Hblank. done.
  - destruct (String.eqb _ ""); [done |].
    replace (existsb _ (app_habits st)) with true; [done |].
    symmetry. apply existsb_exists. apply Exists_exists in Htaken as (h & Hin & Heq).
    exists h. split; [by apply list_elem_of_In | by apply String.eqb_eq].
Qed.
End Handler_facts.

Section Slug_facts.
Variable toLowerCase : string -> string.

Lemma replace_runs_chars (s : string) :
  forall in_run : bool, every_char is_slug_or_dash (replace_runs in_run s) = true.
Proof.
  induction s as [| a s IH]; intros in_run; [done |]. cbn [replace_runs].
  destruct (is_slug_char a) eqn:Ha; cbn [every_char].
  - unfold is_slug_or_dash. by rewrite Ha, IH.
  - destruct in_run; [apply IH |]. cbn [every_char]. by rewrite IH.
Qed.

Lemma strip_leading_dash_chars (p : Ascii.ascii -> bool) (s : string) :
  every_char p s = true -> every_char p (strip_leading_dash s) = true.
Proof.
  destruct s as [| a s]; [done |]. cbn [strip_leading_dash every_char].
  intros [Ha Hs]%andb_prop. destruct (Ascii.eqb a "-"); [done |].
  cbn [every_char]. by rewrite Ha, Hs.
Qed.

Lemma strip_trailing_dash_chars (p : Ascii.ascii -> bool) (s : string) :
  every_char p s = true -> every_char p (strip_trailing_dash s) = true.
Proof.
  induction s as [| a s IH]; [done |]. cbn [every_char].
  intros [Ha Hs]%andb_prop. cbn [strip_trailing_dash].
  destruct s as [| b s].
  - destruct (Ascii.eqb a "-"); [done |]. cbn [every_char]. by rewrite Ha.
  - cbn [every_char]. rewrite Ha. by apply IH.
Qed.

Lemma slice_prefix_chars (p : Ascii.ascii -> bool) (n : nat) :
  forall s : string, every_char p s = true -> every_char p (slice_prefix n s) = true.
Proof.
  induction n as [| n IH]; intros [| a s]; try done. cbn [every_char slice_prefix].
  intros [Ha Hs]%andb_prop. rewrite Ha. by apply IH.
Qed.

(** A slug is never [__proto__]: the assignment [entry.habits[id] = false]
    of [handleAddHabit] always defines an own property. *)
Lemma slugify_not_proto (now : Z) (text : string) :
  slugify toLowerCase now text <> "__proto__"%string.
Proof.
  unfold slugify.
  set (slug := slice_prefix 30 (strip_dashes (replace_runs false (toLowerCase text)))).
  assert (every_char is_slug_or_dash slug = true) as Hchars.
  { apply slice_prefix_chars, strip_trailing_dash_chars, strip_leading_dash_chars,
      replace_runs_chars. }
  destruct (String.eqb slug ""); [| intros Heq; by rewrite Heq in Hchars].
  intros Heq. cbn in Heq. discriminate Heq.
Qed.
End Slug_facts.

(** C9.  When [handleAddHabit] adds a habit (the trimmed label is not blank
    and its slug is not the id of a habit of the list), the habit goes to the
    end of the list, every date of the history keeps its entry, and every
    entry then holds [false] for the new id, its other keys unchanged.
    [handleDeleteHabit] removes the habits with the id from the list, keeps
    every date's entry, and no entry holds the id afterwards, its other keys
    unchanged. *)
Theorem habit_handlers_sync_history
    (toLowerCase trim : string -> string) (now : Z) (st : AppState) (gone : string) :
  let label := trim (app_newHabit st) in
  let id := slugify toLowerCase now label in
  label <> ""%string ->
  Forall (fun h => habit_id h <> id) (app_habits st) ->
  (app_habits (handleAddHabit toLowerCase trim now st)
     = app_habits st ++ [mkHabit id label] /\
   forall (date : DateKey) (entry : HistoryRecord),
     app_history st !! date = Some entry ->
     exists M : DayMap,
       app_history (handleAddHabit toLowerCase trim now st) !! date
         = Some (mkRecord (Some M)) /\
       M !! id = Some false /\
       forall key : string, key <> id ->
         M !! key = default ∅ (record_habits entry) !! key) /\
  (forall date : DateKey,
     app_history (handleAddHabit toLowerCase trim now st) !! date = None <->
     app_history st !! date = None) /\
  (app_habits (handleDeleteHabit gone st)
     = List.filter (fun h => negb (String.eqb (habit_id h) gone)) (app_habits st) /\
   forall (date : DateKey) (entry : HistoryRecord),
     app_history st !! date = Some entry ->
     exists entry' : HistoryRecord,
       app_history (handleDeleteHabit gone st) !! date = Some entry' /\
       (record_habits entry = None -> record_habits entry' = None) /\
       (forall M : DayMap, record_habits entry = Some M ->
          exists M' : DayMap, record_habits entry' = Some M' /\
            M' !! gone = None /\
            forall key : string, key <> gone -> M' !! key = M !! key)) /\
  (forall date : DateKey,
     app_history (handleDeleteHabit gone st) !! date = None <->
     app_history st !! date = None).
Proof.
  intros label id Hlabel Hfresh.
  rewrite (handleAddHabit_adds toLowerCase trim now st Hlabel Hfresh).
  fold label. fold id. cbn [app_habits app_history handleDeleteHabit].
  split; [split; [reflexivity |] | split; [| split; [split; [reflexivity |] |]]].
  - intros date entry Hentry. eexists. rewrite backfill_lookup, Hentry.
    split; [reflexivity |]. split; [apply lookup_insert_eq |].
    intros key Hkey. by rewrite lookup_insert_ne.
  - intros date. rewrite backfill_lookup. by rewrite fmap_None.
  - intros date entry Hentry. eexists. rewrite forget_lookup, Hentry.
    split; [reflexivity |]. cbn [record_habits]. split.
    + intros ->. done.
    + intros M ->. eexists. split; [reflexivity |].
      split; [apply lookup_delete_eq |]. intros key Hkey. by rewrite lookup_delete_ne.
  - intros date. rewrite forget_lookup. by rewrite fmap_None.
Qed.

Lemma habit_handlers_sync_history_witness :
  let st := mkApp (sample_habits 2) (perfect_on [19675; 19674]%Z (sample_habits 2))
                  [] "2023-11-14" "  Drink More Water " in
  ascii_trim (app_newHabit st) <> ""%string /\
  Forall (fun h => habit_id h
                   <> slugify ascii_toLowerCase 1700000000000
                              (ascii_trim (app_newHabit st)))
         (app_habits st) /\
  app_habits (handleAddHabit ascii_toLowerCase ascii_trim 1700000000000 st)
    = app_habits st ++ [mkHabit "drink-more-water" "Drink More Water"].
Proof.
  intros st.
  assert (ascii_trim (app_newHabit st) <> ""%string) as Hlabel by (vm_compute; discriminate).
  assert (Forall (fun h => habit_id h
                           <> slugify ascii_toLowerCase 1700000000000
                                      (ascii_trim (app_newHabit st)))
                 (app_habits st)) as Hfresh
    by (repeat constructor; vm_compute; discriminate).
  split; [exact Hlabel |]. split; [exact Hfresh |].
  exact (proj1 (proj1 (habit_handlers_sync_history
                         ascii_toLowerCase ascii_trim 1700000000000 st "h0"
                         Hlabel Hfresh))).
Defined.

(** ** The data endpoint *)
Section Cast_facts.
Variable ObjectId : nat -> string.

Lemma property_body (body : option json) (key : string) :
  property (body_or_empty body) key = field body key.
Proof.
  destruct body as [v |]; [| done]. cbn [body_or_empty field mbind option_bind].
  destruct (truthy v) eqn:Hv; [done |].
  by destruct v as [| b | q | s | items | fields].
Qed.

Lemma cast_habit_object (index : nat) (v : json) :
  habit_object v = true ->
  cast_habit (ObjectId index) v = Done (stored_as ObjectId index v).
Proof.
  destruct v as [| b | q | s | items | fields]; try done.
  unfold habit_object, cast_habit, stored_as.
  intros [[Hid Hlabel]%andb_prop Hoid]%andb_prop.
  destruct (property (JObj fields) "id") as [[| | | id | |] |]; try done;
    destruct (property (JObj fields) "label") as [[| | | label | |] |]; try done;
    destruct (property (JObj fields) "_id") as [[| | | oid | |] |]; try done;
    cbn [cast_String cast_ObjectId text_of default from_option];
    by rewrite ?Hoid.
Qed.

Lemma cast_habits_objects (items : list json) :
  forall index : nat,
  Forall (fun v => habit_object v = true) items ->
  cast_habits ObjectId index items
  = Done (imap (fun i => stored_as ObjectId (index + i)) items).
Proof.
  induction items as [| v items IH]; intros index Hitems; [done |].
  apply Forall_cons in Hitems as [Hv Hitems]. cbn [cast_habits imap].
  rewrite (cast_habit_object _ _ Hv), (IH (S index) Hitems), Nat.add_0_r.
  do 2 f_equal. apply imap_ext. intros i x _. cbn. f_equal. lia.
Qed.

(** A nonempty string among the habits makes the cast throw. *)
Lemma cast_habits_text (objects rest : list json) (text : string) :
  forall index : nat,
  Forall (fun v => habit_object v = true) objects -> text <> ""%string ->
  cast_habits ObjectId index (objects ++ JStr text :: rest) = Thrown.
Proof.
  intros index Hobjects Htext. revert index.
  induction objects as [| v objects IH]; intros index; cbn [app cast_habits].
  - cbn [cast_habit]. by destruct (String.eqb_spec text "").
  - apply Forall_cons in Hobjects as [Hv Hobjects].
    by rewrite (cast_habit_object _ _ Hv), (IH Hobjects).
Qed.

Lemma cast_DEFAULT_HABITS :
  cast_habits ObjectId 0 (habit_json <$> DEFAULT_HABITS) = Done (default_docs ObjectId).
Proof. reflexivity. Qed.

(** The cast on single elements: an object keeps [id] and [label], loses
    its other fields and gets a fresh [_id], or keeps the [_id] it brings;
    a nonempty string throws; the other elements are not followed. *)
Lemma cast_habit_cases (fresh : string) :
  cast_habit fresh (JObj [("id"%string, JStr "run"); ("colour"%string, JStr "red")])
  = Done (mkHabitDoc (Some "run"%string) None fresh) /\
  cast_habit fresh (JObj [("label"%string, JStr "Run");
                          ("_id"%string, JStr "0123456789abcdef01234567")])
  = Done (mkHabitDoc None (Some "Run"%string) "0123456789abcdef01234567") /\
  cast_habit fresh (JObj [("_id"%string, JStr "0123456789ABCDEF01234567")]) = Unfollowed /\
  cast_habit fresh (JObj [("_id"%string, JStr "run")]) = Unfollowed /\
  cast_habit fresh (JObj [("id"%string, JNum 7)]) = Unfollowed /\
  cast_habit fresh (JStr "run") = Thrown /\
  cast_habit fresh (JStr "") = Unfollowed /\
  cast_habit fresh JNull = Unfollowed /\
  cast_habit fresh (JNum 7) = Unfollowed /\
  cast_habit fresh (JArr []) = Unfollowed.
Proof. repeat split. Qed.

(** The habits that the handler hands to the driver. *)
Lemma update_of_habits (mobile : string) (body : option json) :
  update_habits (update_of mobile body)
  = match field body "habits" with
    | Some (JArr (first :: rest)) => JArr (first :: rest)
    | _ => DEFAULT_HABITS_json
    end.
Proof.
  unfold update_of. cbn [update_habits]. rewrite property_body.
  by destruct (field body "habits") as [[| | | | [| first rest] |] |].
Qed.

Lemma update_of_history (mobile : string) (body : option json) :
  update_history (update_of mobile body) = or_empty (field body "history").
Proof.
  unfold update_of. cbn [update_history]. rewrite property_body.
  by destruct (field body "history").
Qed.

Lemma update_of_tasksByDate (mobile : string) (body : option json) :
  update_tasksByDate (update_of mobile body) = or_empty (field body "tasksByDate").
Proof.
  unfold update_of. cbn [update_tasksByDate]. rewrite property_body.
  by destruct (field body "tasksByDate").
Qed.

(** The three ways the handler ends, by the cast of the habits it hands
    over. *)
Lemma post_api_data_cast (mobile : string) (body : option json)
    (store : gmap string UserData) (items : list json) :
  mobile <> ""%string ->
  update_habits (update_of mobile body) = JArr items ->
  post_api_data ObjectId (Some mobile) body store
  = match cast_habits ObjectId 0 items with
    | Done habits =>
        Some (<[mobile := mkUserData mobile habits (or_empty (field body "history"))
                                     (or_empty (field body "tasksByDate"))]> store,
              mkResponse 200 (Data habits (or_empty (field body "history"))
                                   (or_empty (field body "tasksByDate"))))
    | Thrown => Some (store, mkResponse 500 (Error "Failed to save data"))
    | Unfollowed => None
    end.
Proof.
  intros Hmobile Hitems. unfold post_api_data, findOneAndUpdate, cast_document.
  destruct (String.eqb_spec mobile "") as [Heq | _]; [done |].
  rewrite Hitems, <- update_of_history with (mobile := mobile),
    <- update_of_tasksByDate with (mobile := mobile).
  by destruct (cast_habits ObjectId 0 items).
Qed.
End Cast_facts.

(** C8 (as stated): a body whose [habits] are texts does not pass the
    schema; the handler answers 500 and no document is stored. *)
Lemma post_api_data_refuses_habits_of_text :
  post_api_data sample_ObjectId (Some "9876543210"%string)
                (Some (JObj [("habits"%string, JArr [JStr "run"; JStr "read"])])) ∅
  = Some (∅, mkResponse 500 (Error "Failed to save data")) /\
  (∅ : gmap string UserData) !! "9876543210"%string = None.
Proof. split; reflexivity. Qed.

(** C8 (amended).  With an identity, [POST /api/data] creates or replaces
    the document of the identity, leaves the other documents alone and
    answers 200 with the habits, history and tasks of the saved document, for
    every body whose [habits] are missing, not an array, an empty array or an
    array of habit objects.  The saved habits are then those of the body,
    each cast to the two paths of the schema and given an [_id], or the seven
    default habits when the field is missing, not an array or an empty array;
    a missing (or falsy) [history] or [tasksByDate] is saved as the empty
    map.  A body whose [habits] hold a nonempty string after habit objects
    does not pass the schema: the handler answers 500 and stores nothing. *)
Theorem post_api_data_upserts
    (ObjectId : nat -> string) (mobile : string) (body : option json)
    (store : gmap string UserData) :
  mobile <> ""%string ->
  let history := or_empty (field body "history") in
  let tasksByDate := or_empty (field body "tasksByDate") in
  let saved (habits : list HabitDoc) :=
    Some (<[mobile := mkUserData mobile habits history tasksByDate]> store,
          mkResponse 200 (Data habits history tasksByDate)) in
  (forall items : list json,
     field body "habits" = Some (JArr items) -> items <> [] ->
     Forall (fun v => habit_object v = true) items ->
     post_api_data ObjectId (Some mobile) body store
     = saved (imap (stored_as ObjectId) items)) /\
  (match field body "habits" with
   | Some (JArr (_ :: _)) => False
   | _ => True
   end ->
   post_api_data ObjectId (Some mobile) body store = saved (default_docs ObjectId)) /\
  (forall (objects rest : list json) (text : string),
     field body "habits" = Some (JArr (objects ++ JStr text :: rest)) ->
     Forall (fun v => habit_object v = true) objects -> text <> ""%string ->
     post_api_data ObjectId (Some mobile) body store
     = Some (store, mkResponse 500 (Error "Failed to save data"))) /\
  (forall other : string, other <> mobile ->
   forall (store' : gmap string UserData) (response : Response),
     post_api_data ObjectId (Some mobile) body store = Some (store', response) ->
     store' !! other = store !! other) /\
  default_docs ObjectId
  = imap (fun i h => mkHabitDoc (Some (habit_id h)) (Some (habit_label h)) (ObjectId i))
         DEFAULT_HABITS /\
  length DEFAULT_HABITS = 7%nat.
Proof.
  intros Hmobile history tasksByDate saved.
  pose proof (update_of_habits mobile body) as Hupdate.
  split; [| split; [| split; [| split; [| split; reflexivity]]]].
  - intros items Hfield Hne Hitems. rewrite Hfield in Hupdate.
    destruct items as [| first rest]; [done |].
    rewrite (post_api_data_cast ObjectId mobile body store _ Hmobile Hupdate).
    by rewrite (cast_habits_objects ObjectId _ 0 Hitems).
  - intros Hfield.
    assert (update_habits (update_of mobile body) = JArr (habit_json <$> DEFAULT_HABITS))
      as Hdefault.
    { rewrite Hupdate.
      by destruct (field body "habits") as [[| | | | [| first rest] |] |]. }
    rewrite (post_api_data_cast ObjectId mobile body store _ Hmobile Hdefault).
    by rewrite cast_DEFAULT_HABITS.
  - intros objects rest text Hfield Hobjects Htext. rewrite Hfield in Hupdate.
    assert (update_habits (update_of mobile body) = JArr (objects ++ JStr text :: rest))
      as Hitems by (rewrite Hupdate; by destruct objects).
    rewrite (post_api_data_cast ObjectId mobile body store _ Hmobile Hitems).
    by rewrite (cast_habits_text ObjectId objects rest text 0 Hobjects Htext).
  - intros other Hother store' response.
    assert (exists items : list json, update_habits (update_of mobile body) = JArr items)
      as [items Hitems].
    { rewrite Hupdate.
      destruct (field body "habits") as [[| | | | [| first rest] |] |]; by eexists. }
    rewrite (post_api_data_cast ObjectId mobile body store _ Hmobile Hitems).
    destruct (cast_habits ObjectId 0 items); intros [= <- _]; [| done].
    by rewrite lookup_insert_ne.
Qed.

Lemma post_api_data_upserts_witness :
  let body :=
    Some (JObj [("habits"%string,
                 JArr [JObj [("id"%string, JStr "run"); ("label"%string, JStr "Run");
                             ("colour"%string, JStr "red")]]);
                ("history"%string,
                 JObj [("2023-11-14"%string,
                        JObj [("habits"%string, JObj [("run"%string, JBool true)])])]);
                ("tasksByDate"%string, JNull)]) in
  "9876543210"%string <> ""%string /\
  post_api_data sample_ObjectId (Some "9876543210"%string) body ∅
  = Some (<["9876543210"%string :=
             mkUserData "9876543210"
               [mkHabitDoc (Some "run"%string) (Some "Run"%string) "65a1f0c2b3d4e5f6a7b8c9d0"]
               (JObj [("2023-11-14"%string,
                       JObj [("habits"%string, JObj [("run"%string, JBool true)])])])
               (JObj [])]> ∅,
          mkResponse 200
            (Data [mkHabitDoc (Some "run"%string) (Some "Run"%string)
                              "65a1f0c2b3d4e5f6a7b8c9d0"]
                  (JObj [("2023-11-14"%string,
                          JObj [("habits"%string, JObj [("run"%string, JBool true)])])])
                  (JObj []))).
Proof.
  intros body.
  assert ("9876543210"%string <> ""%string) as Hmobile by discriminate.
  split; [exact Hmobile |].
  apply (proj1 (post_api_data_upserts sample_ObjectId "9876543210" body ∅ Hmobile)
           [JObj [("id"%string, JStr "run"); ("label"%string, JStr "Run");
                  ("colour"%string, JStr "red")]]).
  - reflexivity.
  - discriminate.
  - repeat constructor.
Defined.

(** Without the identity header nothing is stored and the answer is 401. *)
Lemma post_api_data_requires_mobile (ObjectId : nat -> string) (body : option json)
    (store : gmap string UserData) :
  post_api_data ObjectId None body store
    = Some (store, mkResponse 401 (Error "Missing mobile header")) /\
  post_api_data ObjectId (Some ""%string) body store
    = Some (store, mkResponse 401 (Error "Missing mobile header")).
Proof. split; reflexivity. Qed.

(** ** Ordered objects *)
Section Obj_facts.
Context {V : Type}.
Implicit Types (o : Obj.t V) (kv : string * V).

Lemma elem_of_insert_index (i : N) kv (l : list (N * (string * V))) x :
  x ∈ Obj.insert_index i kv l <-> x = (i, kv) \/ x ∈ l.
Proof.
  induction l as [| [j kw] l IH]; simpl.
  - rewrite list_elem_of_singleton, elem_of_nil. tauto.
  - destruct (i <? j)%N; rewrite !elem_of_cons; [tauto |].
    rewrite IH. tauto.
Qed.

Lemma elem_of_index_entries o (i : N) kv :
  (i, kv) ∈ Obj.index_entries o <-> kv ∈ o /\ array_index (fst kv) = Some i.
Proof.
  induction o as [| kw o IH]; simpl.
  - rewrite !elem_of_nil. tauto.
  - unfold Obj.index_entries in *. simpl.
    destruct (array_index (fst kw)) as [j |] eqn:Hidx.
    + rewrite elem_of_insert_index, IH, elem_of_cons. split.
      * intros [Heq | [Hin Hi]]; [injection Heq as -> ->; auto | auto].
      * intros [[-> | Hin] Hi]; [left; congruence | auto].
    + rewrite IH, elem_of_cons. split; [tauto |].
      intros [[-> | Hin] Hi]; [congruence | auto].
Qed.

Lemma elem_of_string_entries o kv :
  kv ∈ Obj.string_entries o <-> kv ∈ o /\ array_index (fst kv) = None.
Proof.
  unfold Obj.string_entries. rewrite !list_elem_of_In, filter_In.
  destruct (array_index (fst kv)); split; intros [? ?]; split; congruence.
Qed.

(** [Object.entries] lists the own properties, all of them and no other. *)
Lemma elem_of_entries o kv : kv ∈ Obj.entries o <-> kv ∈ o.
Proof.
  unfold Obj.entries. rewrite elem_of_app, list_elem_of_fmap, elem_of_string_entries.
  split.
  - intros [([i kw] & -> & Hin) | [Hin _]]; [| done].
    by apply elem_of_index_entries in Hin as [Hin _].
  - intros Hin. destruct (array_index (fst kv)) as [i |] eqn:Hidx; [left | by right].
    exists (i, kv). split; [done |]. by apply elem_of_index_entries.
Qed.

Lemma elem_of_set (key : string) (v : V) o kv :
  kv ∈ Obj.set key v o -> kv = (key, v) \/ kv ∈ o.
Proof.
  induction o as [| [k w] o IH]; simpl.
  - rewrite list_elem_of_singleton. auto.
  - destruct (String.eqb_spec k key) as [-> | Hne]; rewrite !elem_of_cons.
    + tauto.
    + intros [-> | Hin]; [auto |]. destruct (IH Hin); auto.
Qed.

Lemma set_fresh (key : string) (v : V) o :
  key ∉ (fst <$> o) -> Obj.set key v o = o ++ [(key, v)].
Proof.
  induction o as [| [k w] o IH]; [done |].
  rewrite fmap_cons, not_elem_of_cons. cbn [fst Obj.set]. intros [Hne Hfresh].
  destruct (String.eqb_spec k key) as [-> | _]; [done |]. by rewrite IH.
Qed.

Lemma keys_set (key : string) (v : V) o :
  fst <$> Obj.set key v o = fst <$> o \/
  ((key ∉ fst <$> o) /\ fst <$> Obj.set key v o = (fst <$> o) ++ [key]).
Proof.
  induction o as [| [k w] o IH].
  - right. split; [apply not_elem_of_nil | done].
  - cbn [Obj.set]. destruct (String.eqb_spec k key) as [-> | Hne]; [by left |].
    rewrite !fmap_cons. cbn [fst].
    destruct IH as [-> | [Hfresh ->]]; [by left | right].
    split; [| done]. rewrite not_elem_of_cons. split; [congruence | done].
Qed.

Lemma NoDup_keys_set (key : string) (v : V) o :
  NoDup (fst <$> o) -> NoDup (fst <$> Obj.set key v o).
Proof.
  intros Hnd. destruct (keys_set key v o) as [-> | [Hfresh ->]]; [done |].
  apply NoDup_app. split; [done |]. split; [| apply NoDup_singleton].
  intros k Hk. rewrite list_elem_of_singleton. by intros ->.
Qed.

Lemma elem_of_set_NoDup (key : string) (v : V) o kv :
  NoDup (fst <$> o) -> kv ∈ Obj.set key v o ->
  kv = (key, v) \/ (kv ∈ o /\ fst kv <> key).
Proof.
  induction o as [| [k w] o IH]; cbn [Obj.set].
  - rewrite list_elem_of_singleton. auto.
  - rewrite fmap_cons, NoDup_cons. cbn [fst]. intros [Hk Hnd].
    destruct (String.eqb_spec k key) as [-> | Hne]; rewrite !elem_of_cons.
    + intros [-> | Hin]; [auto | right]. split; [auto |].
      intros <-. apply Hk. apply list_elem_of_fmap. by exists kv.
    + intros [-> | Hin]; [right; auto |].
      destruct (IH Hnd Hin) as [-> | [Hin' Hkey]]; auto.
Qed.

Lemma rebuild_spec (l : list (string * V)) :
  forall acc : Obj.t V,
  NoDup (fst <$> acc) ->
  NoDup (fst <$> foldl (fun acc kv => Obj.set (fst kv) (snd kv) acc) acc l) /\
  forall kv, kv ∈ foldl (fun acc kv => Obj.set (fst kv) (snd kv) acc) acc l ->
             kv ∈ acc \/ kv ∈ l.
Proof.
  induction l as [| [k w] l IH]; intros acc Hnd; simpl.
  - split; [done | auto].
  - destruct (IH (Obj.set k w acc) (NoDup_keys_set k w acc Hnd)) as [Hnd' Hin'].
    split; [done |]. intros kv Hkv.
    destruct (Hin' kv Hkv) as [Hset | Hl]; [| right; by apply elem_of_cons; right].
    destruct (elem_of_set _ _ _ _ Hset) as [-> | Hacc]; [| by left].
    right. apply elem_of_cons. by left.
Qed.

(** The properties of [{ ...o, [key]: v }]: [key] with [v], and the
    properties of [o] under the other keys. *)
Lemma elem_of_spread_set o (key : string) (v : V) kv :
  kv ∈ Obj.entries (Obj.spread_set o key v) ->
  kv = (key, v) \/ (kv ∈ o /\ fst kv <> key).
Proof.
  rewrite elem_of_entries. unfold Obj.spread_set.
  destruct (rebuild_spec (Obj.entries o) [] (NoDup_nil_2)) as [Hnd Hin].
  intros Hkv. destruct (elem_of_set_NoDup _ _ _ _ Hnd Hkv) as [-> | [Hkv' Hkey]]; [auto |].
  right. split; [| done]. destruct (Hin kv Hkv') as [Hnil | Hent].
  - by apply elem_of_nil in Hnil.
  - by apply elem_of_entries.
Qed.

Lemma get_elem_of o (key : string) (v : V) :
  Obj.get key o = Some v -> (key, v) ∈ o.
Proof.
  unfold Obj.get. destruct (List.find _ o) as [[k w] |] eqn:Hfind; [| done].
  simpl. intros [= ->]. apply find_some in Hfind as [Hin Heq].
  apply String.eqb_eq in Heq. simpl in Heq. subst k. by apply list_elem_of_In.
Qed.
End Obj_facts.


(** ** Reminder scheduler *)
Section Reminder_facts.
Variable Date_getTime : string -> option Z.

Lemma clear_all_spec (ids : list nat) :
  forall w : World,
  let w' := foldl (fun w id => clearTimeout id w) w ids in
  next_timer w' = next_timer w /\ registry w' = registry w /\
  delivered w' = delivered w /\
  forall t : Timer, t ∈ pending w' -> t ∈ pending w /\ timer_id t ∉ ids.
Proof.
  induction ids as [| id ids IH]; intros w; cbn [foldl]; cbn zeta.
  - split; [done |]. split; [done |]. split; [done |].
    intros t Ht. split; [done | apply not_elem_of_nil].
  - destruct (IH (clearTimeout id w)) as (Hn & Hr & Hd & Hp).
    rewrite Hn, Hr, Hd.
    split; [done |]. split; [done |]. split; [done |].
    intros t Ht. apply Hp in Ht as [Hin Hnot].
    cbn [clearTimeout pending] in Hin.
    apply list_elem_of_In, filter_In in Hin as [Hin Hne].
    split; [by apply list_elem_of_In |].
    rewrite not_elem_of_cons. split; [| done].
    intros Heq. rewrite Heq, Nat.eqb_refl in Hne. done.
Qed.

Lemma clear_all_tracked (w : World) :
  tracked w ->
  pending (foldl (fun w id => clearTimeout id w) w (snd <$> Obj.entries (registry w))) = [].
Proof.
  intros Htracked. apply elem_of_nil_inv. intros t Ht.
  destruct (clear_all_spec (snd <$> Obj.entries (registry w)) w) as (_ & _ & _ & Hp).
  apply Hp in Ht as [Hin Hnot]. unfold tracked in Htracked.
  rewrite Forall_forall in Htracked. by destruct (Htracked t Hin) as [_ Hreg].
Qed.

Lemma schedule_entries_flat (now : Z) (entries : list (string * list Task)) :
  forall w : World,
  foldl (schedule_date Date_getTime now) w entries
  = foldl (fun w dt => schedule_task Date_getTime now (fst dt) w (snd dt)) w
          (entry ← entries; (fun task => (fst entry, task)) <$> snd entry).
Proof.
  induction entries as [| [date tasks] entries IH]; intros w; [done |].
  cbn [foldl mbind list_bind]. rewrite foldl_app, <- IH. f_equal.
  unfold schedule_date. cbn [fst snd]. generalize w.
  induction tasks as [| task tasks IHt]; intros w0; [done |]. apply IHt.
Qed.

Lemma schedule_task_cases (now : Z) (date : string) (w : World) (task : Task) :
  schedule_task Date_getTime now date w task
  = if schedulable Date_getTime now (date, task)
    then register task (delay_of Date_getTime now date task) w
    else w.
Proof.
  unfold schedule_task, schedulable. cbn [fst snd].
  destruct (String.eqb (task_reminderTime task) ""); [done |].
  by destruct (not_due_later _).
Qed.

Lemma schedule_flat_spec (now : Z) (l : list (string * Task)) :
  forall w : World,
  let w' := foldl (fun w dt => schedule_task Date_getTime now (fst dt) w (snd dt)) w l in
  let timers := timers_from Date_getTime now (next_timer w)
                            (List.filter (schedulable Date_getTime now) l) in
  pending w' = pending w ++ timers /\
  next_timer w' = (next_timer w + length timers)%nat /\
  delivered w' = delivered w /\
  registry w' = registered (registry w) timers.
Proof.
  induction l as [| [date task] l IH]; intros w; cbn zeta.
  - cbn. rewrite app_nil_r. repeat split; lia.
  - cbn [foldl List.filter fst snd]. rewrite schedule_task_cases.
    destruct (schedulable Date_getTime now (date, task)); [| apply IH].
    destruct (IH (register task (delay_of Date_getTime now date task) w))
      as (Hp & Hn & Hd & Hr).
    rewrite Hp, Hn, Hd, Hr.
    cbn [register pending next_timer delivered registry timers_from fst snd
         length registered foldl timer_task timer_id].
    rewrite <- app_assoc. repeat split; lia.
Qed.

(** The pending actions after a reschedule: the old ones are gone, and
    there is one per schedulable task, in visiting order. *)
Lemma scheduleReminders_spec (tasksByDate : Obj.t (list Task)) (now : Z) (w : World) :
  tracked w ->
  let timers := timers_from Date_getTime now (next_timer w)
                  (List.filter (schedulable Date_getTime now) (visited tasksByDate)) in
  let w' := scheduleReminders Date_getTime tasksByDate now w in
  pending w' = timers /\
  next_timer w' = (next_timer w + length timers)%nat /\
  delivered w' = delivered w /\
  registry w' = registered [] timers.
Proof.
  intros Htracked. cbn zeta. unfold scheduleReminders.
  rewrite schedule_entries_flat. fold (visited tasksByDate).
  destruct (clear_all_spec (snd <$> Obj.entries (registry w)) w) as (Hn & _ & Hd & _).
  cbn zeta in Hn, Hd.
  match goal with |- context [foldl ?f ?w0 (visited tasksByDate)] =>
    destruct (schedule_flat_spec now (visited tasksByDate) w0) as (Hp' & Hn' & Hd' & Hr')
  end.
  cbn zeta in *. cbn [pending next_timer delivered registry] in *.
  rewrite Hp', Hn', Hd', Hr', Hn, Hd, (clear_all_tracked w Htracked). done.
Qed.

Lemma timers_from_ids (now : Z) (l : list (string * Task)) :
  forall (id : nat) (t : Timer),
  t ∈ timers_from Date_getTime now id l ->
  (id <= timer_id t < id + length l)%nat.
Proof.
  induction l as [| dt l IH]; intros id t; cbn [timers_from length].
  - by rewrite elem_of_nil.
  - rewrite elem_of_cons. intros [-> | Hin]; [cbn; lia |].
    apply IH in Hin. lia.
Qed.

Lemma length_timers_from (now : Z) (l : list (string * Task)) (id : nat) :
  length (timers_from Date_getTime now id l) = length l.
Proof. revert id. induction l as [| dt l IH]; intros id; cbn; [done | by rewrite IH]. Qed.

Lemma NoDup_timers_from (now : Z) (l : list (string * Task)) (id : nat) :
  NoDup (timer_id <$> timers_from Date_getTime now id l).
Proof.
  revert id. induction l as [| dt l IH]; intros id; cbn [timers_from].
  - constructor.
  - rewrite fmap_cons. apply NoDup_cons. split; [| apply IH].
    intros Hin. apply list_elem_of_fmap in Hin as (t & Hid & Ht).
    apply timers_from_ids in Ht. cbn [timer_id] in Hid. lia.
Qed.

Lemma timers_from_tasks (now : Z) (l : list (string * Task)) (id : nat) :
  timer_task <$> timers_from Date_getTime now id l = snd <$> l.
Proof.
  revert id. induction l as [| dt l IH]; intros id; [done |].
  cbn [timers_from]. rewrite !fmap_cons, IH. done.
Qed.

Lemma registered_fresh (timers : list Timer) :
  forall r : Obj.t nat,
  NoDup ((fst <$> r) ++ ((fun t => task_id (timer_task t)) <$> timers)) ->
  Forall (fun t => task_id (timer_task t) <> "__proto__"%string) timers ->
  registered r timers
  = r ++ ((fun t => (task_id (timer_task t), timer_id t)) <$> timers).
Proof.
  induction timers as [| t timers IH]; intros r Hnd Hkeys; cbn [registered foldl].
  - by rewrite app_nil_r.
  - rewrite fmap_cons in Hnd. apply NoDup_app in Hnd as (Hr & Hdisj & Ht).
    apply NoDup_cons in Ht as [Ht Hts].
    apply Forall_cons in Hkeys as [Hkey Hkeys].
    assert (task_id (timer_task t) ∉ (fst <$> r)) as Hfresh.
    { intros Hin. apply (Hdisj _ Hin). apply elem_of_cons. by left. }
    unfold Obj.assign at 2.
    destruct (String.eqb_spec (task_id (timer_task t)) "__proto__") as [Heq | _];
      [done |].
    rewrite (set_fresh _ _ _ Hfresh).
    fold (registered (r ++ [(task_id (timer_task t), timer_id t)]) timers).
    rewrite IH.
    + rewrite fmap_cons, <- app_assoc. done.
    + rewrite fmap_app, <- app_assoc. cbn [fmap list_fmap fst app].
      apply NoDup_app. split; [done |]. split.
      * intros k Hk. rewrite elem_of_cons. intros [-> | Hin].
        -- by apply Hfresh.
        -- apply (Hdisj k Hk). apply elem_of_cons. by right.
      * apply NoDup_cons. split; done.
    + done.
Qed.

Lemma Forall_filter_keep {A} (P : A -> Prop) (p : A -> bool) (l : list A) :
  Forall P l -> Forall P (List.filter p l).
Proof.
  induction 1 as [| x l Hx _ IH]; cbn [List.filter]; [constructor |].
  destruct (p x); [by constructor | done].
Qed.

Lemma NoDup_fmap_filter {A B} (f : A -> B) (p : A -> bool) (l : list A) :
  NoDup (f <$> l) -> NoDup (f <$> List.filter p l).
Proof.
  induction l as [| x l IH]; [done |].
  rewrite fmap_cons, NoDup_cons. intros [Hx Hnd]. cbn [List.filter].
  destruct (p x); [| by apply IH].
  rewrite fmap_cons, NoDup_cons. split; [| by apply IH].
  intros Hin. apply Hx. apply list_elem_of_fmap in Hin as (y & -> & Hy).
  apply list_elem_of_fmap. exists y. split; [done |].
  apply list_elem_of_In, filter_In in Hy as [Hy _]. by apply list_elem_of_In.
Qed.

(** With distinct task ids the registry knows every action that the
    reschedule registers. *)
Lemma scheduleReminders_tracked (tasksByDate : Obj.t (list Task)) (now : Z) (w : World) :
  tracked w -> distinct_ids tasksByDate ->
  tracked (scheduleReminders Date_getTime tasksByDate now w).
Proof.
  intros Htracked [Hnd Hkeys].
  destruct (scheduleReminders_spec tasksByDate now w Htracked) as (Hp & Hn & _ & Hr).
  cbn zeta in *. unfold tracked. rewrite Hp, Hn, Hr. apply Forall_forall. intros t Ht.
  split; [apply timers_from_ids in Ht; rewrite length_timers_from; lia |].
  rewrite registered_fresh.
  - apply list_elem_of_fmap. exists (task_id (timer_task t), timer_id t).
    split; [done |]. apply elem_of_entries. cbn [app].
    apply list_elem_of_fmap. by exists t.
  - cbn [fmap list_fmap app].
    rewrite (list_fmap_compose timer_task task_id), timers_from_tasks.
    rewrite <- list_fmap_compose. by apply NoDup_fmap_filter.
  - apply Forall_fmap with (f := timer_task)
                           (P := fun x => task_id x <> "__proto__"%string).
    rewrite timers_from_tasks. apply Forall_fmap.
    by apply Forall_filter_keep.
Qed.

Lemma schedulable_due (now : Z) (date : string) (task : Task) (due : Z) :
  Date_getTime (date +:+ "T" +:+ task_reminderTime task) = Some due ->
  schedulable Date_getTime now (date, task)
  = bool_decide (task_reminderTime task <> ""%string /\ (now < due)%Z).
Proof.
  intros Hdue. unfold schedulable, delay_of. cbn [fst snd]. rewrite Hdue.
  cbn [fmap option_fmap option_map not_due_later].
  destruct (String.eqb_spec (task_reminderTime task) "") as [Heq | Hne]; cbn [negb andb].
  - symmetry. apply bool_decide_eq_false. tauto.
  - destruct (Z.leb_spec (due - now) 0); cbn [negb]; symmetry.
    + apply bool_decide_eq_false. lia.
    + apply bool_decide_eq_true. split; [done | lia].
Qed.

Lemma schedulable_no_reminder (now : Z) (date : string) (task : Task) :
  task_reminderTime task = ""%string ->
  schedulable Date_getTime now (date, task) = false.
Proof. intros Heq. unfold schedulable. cbn [fst snd]. by rewrite Heq. Qed.

(** A reminder time that does not parse gives the delay [NaN], which is
    not [<= 0]: the action is registered. *)
Lemma schedulable_invalid_date (now : Z) (date : string) (task : Task) :
  task_reminderTime task <> ""%string ->
  Date_getTime (date +:+ "T" +:+ task_reminderTime task) = None ->
  schedulable Date_getTime now (date, task) = true.
Proof.
  intros Hne Hnan. unfold schedulable, delay_of. cbn [fst snd]. rewrite Hnan.
  by destruct (String.eqb_spec (task_reminderTime task) "").
Qed.
End Reminder_facts.

Section Firing_facts.
Lemma fires_spec (w w' : World) :
  fires w w' ->
  next_timer w' = next_timer w /\ registry w' = registry w /\
  (forall t, t ∈ pending w' -> t ∈ pending w) /\
  exists x : Task, delivered w' = delivered w ++ [x] /\ x ∈ timer_task <$> pending w.
Proof.
  intros [w0 before after t Hpending]. cbn [next_timer registry pending delivered].
  split; [done |]. split; [done |]. split.
  - intros t'. rewrite Hpending, !elem_of_app, elem_of_cons. tauto.
  - exists (timer_task t). split; [done |]. apply list_elem_of_fmap. exists t.
    split; [done |]. rewrite Hpending, elem_of_app, elem_of_cons. auto.
Qed.

(** Whatever fires was pending. *)
Lemma fires_star_spec (w w' : World) :
  fires_star w w' ->
  next_timer w' = next_timer w /\ registry w' = registry w /\
  (forall t, t ∈ pending w' -> t ∈ pending w) /\
  exists later : list Task,
    delivered w' = delivered w ++ later /\
    Forall (fun x => x ∈ timer_task <$> pending w) later.
Proof.
  induction 1 as [w | w1 w2 w3 Hstep _ IH].
  - split; [done |]. split; [done |]. split; [done |].
    exists []. by rewrite app_nil_r.
  - destruct (fires_spec _ _ Hstep) as (Hn & Hr & Hp & x & Hd & Hx).
    destruct IH as (Hn' & Hr' & Hp' & later & Hd' & Hlater).
    split; [congruence |]. split; [congruence |]. split; [auto |].
    exists (x :: later). split; [rewrite Hd', Hd, <- app_assoc; done |].
    constructor; [done |]. eapply Forall_impl; [exact Hlater |].
    intros y Hy. apply list_elem_of_fmap in Hy as (t & -> & Ht).
    apply list_elem_of_fmap. exists t. auto.
Qed.

Lemma fires_star_tracked (w w' : World) :
  tracked w -> fires_star w w' -> tracked w'.
Proof.
  intros Htracked Hrun. destruct (fires_star_spec _ _ Hrun) as (Hn & Hr & Hp & _).
  unfold tracked in *. rewrite Forall_forall in *. intros t Ht. rewrite Hn, Hr. auto.
Qed.

Lemma elem_of_visited (tasksByDate : Obj.t (list Task)) (date : string) (task : Task) :
  (date, task) ∈ visited tasksByDate <->
  exists tasks : list Task, (date, tasks) ∈ tasksByDate /\ task ∈ tasks.
Proof.
  unfold visited. rewrite list_elem_of_bind. split.
  - intros ([d tasks] & Hin & Hentry). cbn [fst snd] in Hin.
    apply list_elem_of_fmap in Hin as (x & [= -> ->] & Hx).
    exists tasks. split; [by apply elem_of_entries | done].
  - intros (tasks & Hentry & Hin). exists (date, tasks).
    split; [| by apply elem_of_entries]. cbn [fst snd].
    apply list_elem_of_fmap. by exists task.
Qed.

Lemma NoDup_fmap_agree {A B} (f : A -> B) (l : list A) (a b : A) :
  NoDup (f <$> l) -> a ∈ l -> b ∈ l -> f a = f b -> a = b.
Proof.
  induction l as [| x l IH]; [by rewrite elem_of_nil |].
  rewrite fmap_cons, NoDup_cons, !elem_of_cons. intros [Hx Hnd] Ha Hb Hfab.
  destruct Ha as [-> | Ha], Hb as [-> | Hb]; [done | | | by apply IH].
  - exfalso. apply Hx. rewrite Hfab. by apply list_elem_of_fmap_2.
  - exfalso. apply Hx. rewrite <- Hfab. by apply list_elem_of_fmap_2.
Qed.

(** Once a task is deleted, no task of the snapshot carries its id. *)
Lemma visited_deleteTask (st : AppState) (t : Task) (tasks : list Task) :
  NoDup ((fun dt => task_id (snd dt)) <$> visited (app_tasksByDate st)) ->
  Obj.get (app_selectedDate st) (app_tasksByDate st) = Some tasks ->
  t ∈ tasks ->
  forall (date : string) (x : Task),
    (date, x) ∈ visited (app_tasksByDate (deleteTask (task_id t) st)) ->
    task_id x <> task_id t.
Proof.
  intros Hnd Hget Ht date x Hx Hid.
  apply elem_of_visited in Hx as (l & Hentry & Hxl).
  cbn [deleteTask app_tasksByDate] in Hentry.
  apply elem_of_entries, elem_of_spread_set in Hentry as [Heq | [Hprev Hdate]].
  - injection Heq as -> ->. rewrite Hget in Hxl. cbn [default] in Hxl.
    apply list_elem_of_In, filter_In in Hxl as [_ Hne].
    rewrite Hid, String.eqb_refl in Hne. done.
  - cbn [fst] in Hdate. apply Hdate.
    assert ((date, x) ∈ visited (app_tasksByDate st)) as Hvx
      by (apply elem_of_visited; eauto).
    assert ((app_selectedDate st, t) ∈ visited (app_tasksByDate st)) as Hvt.
    { apply elem_of_visited. exists tasks. split; [| done]. by apply get_elem_of. }
    pose proof (NoDup_fmap_agree _ _ _ _ Hnd Hvx Hvt Hid) as Heq.
    by injection Heq.
Qed.
End Firing_facts.

(** C7 (as stated).  The registry is keyed by task id, so it holds one timer
    per id.  In a snapshot where two tasks share the id [t1], the action of
    the first is registered and then forgotten by the registry.  After that
    task is deleted, the reschedule cancels the action of its twin only: the
    action of the deleted task is still pending, and when it fires the
    reminder of the deleted task is delivered. *)
Lemma scheduleReminders_twin_ids_orphan :
  let call := mkTask "t1" "Call home" false "09:00" in
  let w1 := scheduleReminders sample_getTime twin_tasks 1700000000000 initial_world in
  let after := app_tasksByDate (deleteTask "t1" twin_state) in
  let w2 := scheduleReminders sample_getTime after 1700000001000 w1 in
  tracked initial_world /\
  mkTimer 1 call (Some 38800000%Z) ∈ pending w1 /\
  (forall date : string, (date, call) ∉ visited after) /\
  mkTimer 1 call (Some 38800000%Z) ∈ pending w2 /\
  exists w3 : World, fires_star w2 w3 /\ call ∈ delivered w3.
Proof.
  cbv zeta.
  assert (pending (scheduleReminders sample_getTime twin_tasks 1700000000000 initial_world)
          = [ mkTimer 1 (mkTask "t1" "Call home" false "09:00") (Some 38800000%Z);
              mkTimer 2 (mkTask "t1" "Pay rent" false "09:00") (Some 125200000%Z) ])
    as Hw1 by (vm_compute; reflexivity).
  assert (visited (app_tasksByDate (deleteTask "t1" twin_state))
          = [ ("2023-11-16"%string, mkTask "t1" "Pay rent" false "09:00") ])
    as Hafter by (vm_compute; reflexivity).
  assert (pending (scheduleReminders sample_getTime
                     (app_tasksByDate (deleteTask "t1" twin_state)) 1700000001000
                     (scheduleReminders sample_getTime twin_tasks 1700000000000
                                        initial_world))
          = [ mkTimer 1 (mkTask "t1" "Call home" false "09:00") (Some 38800000%Z);
              mkTimer 3 (mkTask "t1" "Pay rent" false "09:00") (Some 125199000%Z) ])
    as Hw2 by (vm_compute; reflexivity).
  split; [constructor |]. split; [rewrite Hw1; apply elem_of_cons; by left |].
  split; [| split].
  - intros date Hin. rewrite Hafter in Hin.
    apply list_elem_of_singleton in Hin. discriminate Hin.
  - rewrite Hw2. apply elem_of_cons. by left.
  - eexists. split.
    + eapply fires_step; [| apply fires_refl].
      apply (fires_timer _ []
               [mkTimer 3 (mkTask "t1" "Pay rent" false "09:00") (Some 125199000%Z)]
               (mkTimer 1 (mkTask "t1" "Call home" false "09:00") (Some 38800000%Z))).
      rewrite Hw2. reflexivity.
    + cbn [delivered]. apply elem_of_app. right. apply list_elem_of_singleton. reflexivity.
Qed.

(** C7 (amended).  From a state in which the registry knows every pending
    action (the initial state is one), [scheduleReminders] cancels all of
    them and then registers exactly one action per task that has a reminder
    time and a fire instant strictly after [now], in visiting order; a task
    whose fire instant is at or before [now], or that has no reminder time,
    gets none.  When the task ids of the snapshot are pairwise distinct (and
    none is the key [__proto__]), the registry again knows every pending
    action, and once a task is deleted the reschedule that follows leaves no
    action for it: whatever fires afterwards, no reminder with its id is
    delivered. *)
Theorem scheduleReminders_reschedules
    (Date_getTime : string -> option Z) (tasksByDate : Obj.t (list Task))
    (now : Z) (w : World) :
  tracked w ->
  let w1 := scheduleReminders Date_getTime tasksByDate now w in
  (forall t : Timer, t ∈ pending w -> t ∉ pending w1) /\
  timer_task <$> pending w1
    = snd <$> List.filter (schedulable Date_getTime now) (visited tasksByDate) /\
  NoDup (timer_id <$> pending w1) /\
  delivered w1 = delivered w /\
  (forall (date : string) (task : Task) (due : Z),
     Date_getTime (date +:+ "T" +:+ task_reminderTime task) = Some due ->
     schedulable Date_getTime now (date, task)
     = bool_decide (task_reminderTime task <> ""%string /\ (now < due)%Z)) /\
  (forall (date : string) (task : Task),
     task_reminderTime task = ""%string ->
     schedulable Date_getTime now (date, task) = false) /\
  (distinct_ids tasksByDate -> tracked w1) /\
  (forall (st : AppState) (t : Task) (tasks : list Task) (now' : Z) (w2 w3 : World),
     app_tasksByDate st = tasksByDate ->
     distinct_ids tasksByDate ->
     Obj.get (app_selectedDate st) tasksByDate = Some tasks ->
     t ∈ tasks ->
     fires_star w1 w2 ->
     fires_star (scheduleReminders Date_getTime
                   (app_tasksByDate (deleteTask (task_id t) st)) now' w2) w3 ->
     exists later : list Task,
       delivered w3 = delivered w2 ++ later /\
       Forall (fun x => task_id x <> task_id t) later).
Proof.
  intros Htracked w1.
  destruct (scheduleReminders_spec Date_getTime tasksByDate now w Htracked)
    as (Hp & Hn & Hd & Hr). cbn zeta in Hp, Hn, Hd, Hr. fold w1 in Hp, Hn, Hd, Hr.
  split; [| split; [| split; [| split; [| split; [| split; [| split]]]]]].
  - intros t Hold Hnew. rewrite Hp in Hnew. apply timers_from_ids in Hnew.
    unfold tracked in Htracked. rewrite Forall_forall in Htracked.
    destruct (Htracked t Hold) as [Hlt _]. lia.
  - rewrite Hp. apply timers_from_tasks.
  - rewrite Hp. apply NoDup_timers_from.
  - exact Hd.
  - intros date task due. apply schedulable_due.
  - intros date task. apply schedulable_no_reminder.
  - intros Hids. by apply scheduleReminders_tracked.
  - intros st t tasks now' w2 w3 Hst Hids Hget Ht Hrun1 Hrun2. subst tasksByDate.
    pose proof (proj1 Hids) as Hnd.
    assert (tracked w1) as Htracked1 by (by apply scheduleReminders_tracked).
    assert (tracked w2) as Htracked2 by (by apply (fires_star_tracked w1)).
    destruct (scheduleReminders_spec Date_getTime
                (app_tasksByDate (deleteTask (task_id t) st)) now' w2 Htracked2)
      as (Hp2 & _ & Hd2 & _). cbn zeta in Hp2, Hd2.
    destruct (fires_star_spec _ _ Hrun2) as (_ & _ & _ & later & Hlater & Hall).
    exists later. split; [by rewrite Hlater, Hd2 |].
    eapply Forall_impl; [exact Hall |]. intros x Hx.
    rewrite Hp2, timers_from_tasks in Hx.
    apply list_elem_of_fmap in Hx as ([date x'] & -> & Hin). cbn [snd].
    apply list_elem_of_In, filter_In in Hin as [Hin _]. apply list_elem_of_In in Hin.
    by apply (visited_deleteTask st t tasks Hnd Hget Ht date).
Qed.

Lemma scheduleReminders_reschedules_witness :
  let w1 := scheduleReminders sample_getTime sample_tasks 1700000000000 initial_world in
  tracked initial_world /\
  timer_task <$> pending w1 = [mkTask "t3" "Call home" false "09:00"] /\
  (forall w3 : World,
     fires_star (scheduleReminders sample_getTime
                   (app_tasksByDate (deleteTask "t3" sample_state))
                   1700000001000 w1) w3 ->
     exists later : list Task,
       delivered w3 = delivered w1 ++ later /\
       Forall (fun x => task_id x <> "t3"%string) later).
Proof.
  intros w1.
  assert (tracked initial_world) as Htracked by constructor.
  pose proof (scheduleReminders_reschedules
                sample_getTime sample_tasks 1700000000000 initial_world Htracked)
    as (_ & Htasks & _ & _ & _ & _ & _ & Hdelete).
  split; [exact Htracked |]. split; [exact Htasks |].
  intros w3 Hrun.
  apply (Hdelete sample_state (mkTask "t3" "Call home" false "09:00")
                 [mkTask "t3" "Call home" false "09:00"] 1700000001000%Z
                 (scheduleReminders sample_getTime sample_tasks 1700000000000 initial_world)
                 w3).
  - reflexivity.
  - assert (visited sample_tasks
            = [ ("2023-11-14"%string, mkTask "t1" "Stretch" false "08:00");
                ("2023-11-14"%string, mkTask "t2" "Buy milk" false "");
                ("2023-11-15"%string, mkTask "t3" "Call home" false "09:00") ])
      as Hvisited by (vm_compute; reflexivity).
    unfold distinct_ids. rewrite Hvisited. cbn [fmap list_fmap snd task_id]. split.
    + repeat (apply NoDup_cons; split;
              [rewrite ?elem_of_cons, elem_of_nil; intuition discriminate |]).
      apply NoDup_nil_2.
    + repeat constructor; discriminate.
  - reflexivity.
  - apply list_elem_of_singleton. reflexivity.
  - apply fires_refl.
  - exact Hrun.
Defined.

(** ** Monthly insight *)
Section Obj_more.
Context {V : Type}.
Implicit Types (o : Obj.t V).

Lemma entries_named o :
  Forall (fun kv => array_index (fst kv) = None) o -> Obj.entries o = o.
Proof.
  intros Hnamed. unfold Obj.entries.
  assert (Obj.index_entries o = [] /\ Obj.string_entries o = o) as [-> ->]; [| done].
  unfold Obj.index_entries, Obj.string_entries.
  induction Hnamed as [| kv o Hkv _ [IHi IHs]]; [done |].
  cbn [foldr List.filter]. rewrite Hkv, IHi, IHs. done.
Qed.

Lemma rebuild_fresh (l : list (string * V)) :
  forall acc : Obj.t V,
  NoDup ((fst <$> acc) ++ (fst <$> l)) ->
  foldl (fun acc kv => Obj.set (fst kv) (snd kv) acc) acc l = acc ++ l.
Proof.
  induction l as [| [k v] l IH]; intros acc Hnd; cbn [foldl fst snd].
  - by rewrite app_nil_r.
  - rewrite fmap_cons in Hnd. cbn [fst] in Hnd.
    assert (k ∉ (fst <$> acc)) as Hfresh.
    { apply NoDup_app in Hnd as (_ & Hdisj & _). intros Hin.
      apply (Hdisj _ Hin). apply elem_of_cons. by left. }
    rewrite (set_fresh _ _ _ Hfresh), IH.
    + by rewrite <- app_assoc.
    + rewrite fmap_app, <- app_assoc. exact Hnd.
Qed.

Lemma spread_set_fresh o (key : string) (v : V) :
  Forall (fun kv => array_index (fst kv) = None) o ->
  NoDup (fst <$> o) -> key ∉ (fst <$> o) ->
  Obj.spread_set o key v = o ++ [(key, v)].
Proof.
  intros Hnamed Hnd Hfresh. unfold Obj.spread_set.
  rewrite (entries_named o Hnamed), rebuild_fresh by (by rewrite app_nil_l).
  rewrite app_nil_l. by apply set_fresh.
Qed.
End Obj_more.

Section Insight_facts.
Local Open Scope Z_scope.

Lemma initial_counts (habits : list Habit) :
  forall acc : Obj.t Z,
  Forall (fun kv => array_index (fst kv) = None) acc ->
  Forall named_id habits ->
  NoDup ((fst <$> acc) ++ (habit_id <$> habits)) ->
  foldl (fun acc h => Obj.spread_set acc (habit_id h) 0) acc habits
  = acc ++ tally_object (fun _ => 0) habits.
Proof.
  induction habits as [| h habits IH]; intros acc Hacc Hnamed Hnd; cbn [foldl].
  - unfold tally_object. by rewrite app_nil_r.
  - apply Forall_cons in Hnamed as [Hh Hnamed].
    rewrite fmap_cons in Hnd.
    pose proof Hnd as Hnd'. apply NoDup_app in Hnd' as (Hacc_nd & Hdisj & _).
    assert (habit_id h ∉ (fst <$> acc)) as Hfresh.
    { intros Hin. apply (Hdisj _ Hin). apply elem_of_cons. by left. }
    rewrite (spread_set_fresh acc _ _ Hacc Hacc_nd Hfresh), IH.
    + unfold tally_object. rewrite fmap_cons, <- app_assoc. done.
    + apply Forall_app. split; [done |]. by constructor.
    + done.
    + rewrite fmap_app, <- app_assoc. exact Hnd.
Qed.

Lemma tally_object_ext (count count' : string -> Z) (habits : list Habit) :
  (forall h, h ∈ habits -> count (habit_id h) = count' (habit_id h)) ->
  tally_object count habits = tally_object count' habits.
Proof.
  intros Hext. unfold tally_object. apply list_fmap_ext.
  intros i h Hh. rewrite (Hext h); [done |]. by apply list_elem_of_lookup_2 in Hh.
Qed.

Lemma get_tally_object (count : string -> Z) (habits : list Habit) (h : Habit) :
  h ∈ habits ->
  Obj.get (habit_id h) (tally_object count habits) = Some (count (habit_id h)).
Proof.
  unfold Obj.get, tally_object. induction habits as [| h' habits IH]; [by rewrite elem_of_nil |].
  rewrite elem_of_cons, fmap_cons. cbn [List.find fst].
  destruct (String.eqb_spec (habit_id h') (habit_id h)) as [Heq | Hne].
  - intros _. cbn. by rewrite Heq.
  - intros [-> | Hin]; [done | by apply IH].
Qed.

Lemma set_tally_object (count : string -> Z) (habits : list Habit) (h : Habit) (v : Z) :
  NoDup (habit_id <$> habits) -> h ∈ habits ->
  Obj.set (habit_id h) v (tally_object count habits)
  = tally_object (fun id => if String.eqb id (habit_id h) then v else count id) habits.
Proof.
  unfold tally_object. induction habits as [| h' habits IH]; [by rewrite elem_of_nil |].
  rewrite !fmap_cons, NoDup_cons, elem_of_cons. intros [Hh' Hnd] Hin. cbn [Obj.set].
  destruct (String.eqb_spec (habit_id h') (habit_id h)) as [Heq | Hne].
  - rewrite Heq. f_equal. apply list_fmap_ext. intros i x Hx.
    destruct (String.eqb_spec (habit_id x) (habit_id h)) as [Hxe | _]; [| done].
    exfalso. apply Hh'. rewrite Heq, <- Hxe.
    apply list_elem_of_fmap_2. by apply list_elem_of_lookup_2 in Hx.
  - f_equal. destruct Hin as [-> | Hin]; [done | by apply IH].
Qed.

Lemma increment_tally_object (count : string -> Z) (habits : list Habit) (h : Habit) :
  NoDup (habit_id <$> habits) -> h ∈ habits ->
  increment (habit_id h) (tally_object count habits)
  = tally_object (fun id => if String.eqb id (habit_id h) then count id + 1 else count id)
                 habits.
Proof.
  intros Hnd Hin. unfold increment. rewrite (get_tally_object _ _ _ Hin).
  rewrite (set_tally_object _ _ _ _ Hnd Hin). apply tally_object_ext.
  intros x _. by destruct (String.eqb_spec (habit_id x) (habit_id h)) as [-> | _].
Qed.

(** One day's pass over a part of the habit list. *)
Lemma count_habits (record : HistoryRecord) (habits part : list Habit) :
  NoDup (habit_id <$> habits) -> NoDup (habit_id <$> part) ->
  (forall h, h ∈ part -> h ∈ habits) ->
  forall count : string -> Z,
  foldl (fun counts h =>
           if record_truthy record (habit_id h)
           then increment (habit_id h) counts else counts)
        (tally_object count habits) part
  = tally_object
      (fun id => count id
                 + (if record_truthy record id
                       && bool_decide (id ∈ (habit_id <$> part))
                    then 1 else 0))
      habits.
Proof.
  intros Hnd. induction part as [| h part IH]; intros Hpart Hsub count; cbn [foldl].
  - apply tally_object_ext. intros x _. rewrite andb_false_r. lia.
  - rewrite fmap_cons, NoDup_cons in Hpart. destruct Hpart as [Hh Hpart].
    assert (h ∈ habits) as Hin by (apply Hsub, elem_of_cons; by left).
    assert (forall x, x ∈ part -> x ∈ habits) as Hsub'
      by (intros x Hx; apply Hsub, elem_of_cons; by right).
    destruct (record_truthy record (habit_id h)) eqn:Htruthy.
    + rewrite (increment_tally_object _ _ _ Hnd Hin), (IH Hpart Hsub').
      apply tally_object_ext. intros x _. rewrite fmap_cons.
      destruct (String.eqb_spec (habit_id x) (habit_id h)) as [Heq | Hne].
      * rewrite Heq, Htruthy. rewrite (bool_decide_eq_false_2 _ Hh).
        rewrite bool_decide_eq_true_2 by (apply elem_of_cons; by left). cbn. lia.
      * destruct (record_truthy record (habit_id x)); [| done]. cbn [andb].
        rewrite (bool_decide_ext (habit_id x ∈ habit_id <$> part)
                                 (habit_id x ∈ habit_id h :: (habit_id <$> part)));
          [done |]. rewrite elem_of_cons. tauto.
    + rewrite (IH Hpart Hsub'). apply tally_object_ext. intros x _. rewrite fmap_cons.
      destruct (String.eqb_spec (habit_id x) (habit_id h)) as [Heq | Hne].
      * rewrite Heq, Htruthy. done.
      * destruct (record_truthy record (habit_id x)); [| done]. cbn [andb].
        rewrite (bool_decide_ext (habit_id x ∈ habit_id <$> part)
                                 (habit_id x ∈ habit_id h :: (habit_id <$> part)));
          [done |]. rewrite elem_of_cons. tauto.
Qed.

Lemma count_day_tally (history : History) (habits : list Habit) (day : DateKey)
    (count : string -> Z) :
  NoDup (habit_id <$> habits) ->
  count_day history habits (tally_object count habits) day
  = tally_object (fun id => count id + (if done_on history id day then 1 else 0))
                 habits.
Proof.
  intros Hnd. unfold count_day, done_on.
  destruct (history !! day) as [record |].
  - rewrite (count_habits record habits habits Hnd Hnd) by done.
    apply tally_object_ext. intros x Hx.
    rewrite bool_decide_eq_true_2 by (by apply list_elem_of_fmap_2).
    by rewrite andb_true_r.
  - apply tally_object_ext. intros x _. lia.
Qed.

Lemma count_days_tally (history : History) (habits : list Habit) (days : list DateKey) :
  NoDup (habit_id <$> habits) ->
  forall count : string -> Z,
  foldl (count_day history habits) (tally_object count habits) days
  = tally_object
      (fun id => count id
                 + Z.of_nat (length (List.filter (done_on history id) days)))
      habits.
Proof.
  intros Hnd. induction days as [| day days IH]; intros count; cbn [foldl].
  - apply tally_object_ext. intros x _. cbn. lia.
  - rewrite (count_day_tally _ _ _ _ Hnd), IH. apply tally_object_ext. intros x _.
    cbn [List.filter]. destruct (done_on history (habit_id x) day); cbn [length]; lia.
Qed.

(** With distinct ids that are not array indices, [counts] lists the
    habits in list order, each with its tally. *)
Lemma monthly_counts_tally (zone : TimeZone) (now : Z) (history : History) (habits : list Habit) :
  NoDup (habit_id <$> habits) -> Forall named_id habits ->
  Obj.entries (monthly_counts zone now history habits)
  = tally_object (monthly_tally zone now history) habits.
Proof.
  intros Hnd Hnamed. unfold monthly_counts.
  rewrite (initial_counts habits []) by (done || by rewrite app_nil_l).
  rewrite app_nil_l, (count_days_tally _ _ _ Hnd).
  rewrite entries_named.
  - apply tally_object_ext. intros x _. unfold monthly_tally. lia.
  - unfold tally_object. apply Forall_fmap. eapply Forall_impl; [exact Hnamed |]. done.
Qed.
End Insight_facts.

Section Reduction_facts.
Local Open Scope Z_scope.

(** A left-to-right reduction that moves on only for a strictly better
    score ends on the first of the best elements. *)
Lemma first_best {A} (score : A -> Z) (rest : list A) :
  forall first : A,
  exists (before after : list A),
    first :: rest
    = before ++ foldl (fun a b => if score a <? score b then b else a) first rest
             :: after /\
    Forall (fun x => score x
                     < score (foldl (fun a b => if score a <? score b then b else a)
                                    first rest)) before /\
    Forall (fun x => score x
                     <= score (foldl (fun a b => if score a <? score b then b else a)
                                     first rest)) after.
Proof.
  induction rest as [| b rest IH]; intros first; cbn [foldl].
  - exists [], []. repeat split; constructor.
  - destruct (Z.ltb_spec (score first) (score b)) as [Hlt | Hge].
    + destruct (IH b) as (before & after & Heq & Hbefore & Hafter).
      set (best := foldl _ b rest) in *.
      exists (first :: before), after. rewrite Heq. split; [done |].
      split; [| done]. constructor; [| done].
      assert (score b <= score best); [| lia].
      destruct before as [| x before]; cbn [app] in Heq.
      * injection Heq as Heq _. rewrite <- Heq. lia.
      * injection Heq as <- _. apply Forall_cons in Hbefore as [Hx _]. lia.
    + destruct (IH first) as (before & after & Heq & Hbefore & Hafter).
      set (best := foldl _ first rest) in *.
      destruct before as [| x before]; cbn [app] in Heq.
      * injection Heq as Hbest Hrest. exists [], (b :: after).
        cbn [app]. rewrite <- Hbest, <- Hrest. split; [done |].
        split; [constructor |]. constructor; [lia |]. by rewrite Hrest, Hbest.
      * injection Heq as <- Hrest. exists (first :: b :: before), after.
        cbn [app]. rewrite Hrest. split; [done |]. split; [| done].
        apply Forall_cons in Hbefore as [Hfirst Hbefore].
        constructor; [done |]. constructor; [lia | done].
Qed.

Lemma foldl_agree {A B} (f g : A -> B -> A) (l : list B) :
  (forall a b, f a b = g a b) -> forall a : A, foldl f a l = foldl g a l.
Proof.
  intros Hfg. induction l as [| b l IH]; intros a; [done |].
  cbn [foldl]. by rewrite Hfg, IH.
Qed.

(** The reduction over the entries follows the habits they come from. *)
Lemma reduce_entries (count : string -> Z) (choose : Z -> Z -> bool)
    (rest : list Habit) :
  forall first : Habit,
  foldl (fun a b : string * Z => if choose (snd a) (snd b) then b else a)
        (habit_id first, count (habit_id first))
        (tally_object count rest)
  = (fun h => (habit_id h, count (habit_id h)))
      (foldl (fun a b => if choose (count (habit_id a)) (count (habit_id b))
                         then b else a)
             first rest).
Proof.
  induction rest as [| b rest IH]; intros first; [done |].
  unfold tally_object in *. rewrite fmap_cons. cbn [foldl snd].
  destruct (choose (count (habit_id first)) (count (habit_id b))); apply IH.
Qed.

Lemma find_habit_unique (habits : list Habit) (h : Habit) :
  NoDup (habit_id <$> habits) -> h ∈ habits ->
  find_habit habits (habit_id h) = Some h.
Proof.
  unfold find_habit. induction habits as [| h' habits IH]; [by rewrite elem_of_nil |].
  rewrite fmap_cons, NoDup_cons, elem_of_cons. intros [Hh' Hnd] Hin. cbn [List.find].
  destruct (String.eqb_spec (habit_id h') (habit_id h)) as [Heq | Hne].
  - destruct Hin as [-> | Hin]; [done |].
    exfalso. apply Hh'. rewrite Heq. by apply list_elem_of_fmap_2.
  - destruct Hin as [-> | Hin]; [done | by apply IH].
Qed.

Lemma no_habits_no_counts (history : History) (days : list DateKey) :
  foldl (count_day history []) [] days = [].
Proof.
  induction days as [| day days IH]; [done |]. cbn [foldl].
  unfold count_day at 2. by destruct (history !! day).
Qed.

(** Where the claim holds.  For a nonempty habit list with distinct ids,
    none of them an array index, [bestHabit] is the first habit of the list
    with the highest tally and [worstHabit] the first with the lowest; for
    the empty list both are null. *)
Lemma monthlyInsight_first_wins (zone : TimeZone) (now : Z) (history : History)
    (first : Habit) (rest : list Habit) :
  NoDup (habit_id <$> first :: rest) -> Forall named_id (first :: rest) ->
  (exists (before : list Habit) (best : Habit) (after : list Habit),
     first :: rest = before ++ best :: after /\
     bestHabit (monthlyInsight zone now history (first :: rest)) = Some best /\
     Forall (fun h => monthly_tally zone now history (habit_id h)
                      < monthly_tally zone now history (habit_id best)) before /\
     Forall (fun h => monthly_tally zone now history (habit_id h)
                      <= monthly_tally zone now history (habit_id best)) after) /\
  (exists (before : list Habit) (worst : Habit) (after : list Habit),
     first :: rest = before ++ worst :: after /\
     worstHabit (monthlyInsight zone now history (first :: rest)) = Some worst /\
     Forall (fun h => monthly_tally zone now history (habit_id worst)
                      < monthly_tally zone now history (habit_id h)) before /\
     Forall (fun h => monthly_tally zone now history (habit_id worst)
                      <= monthly_tally zone now history (habit_id h)) after).
Proof.
  intros Hnd Hnamed.
  assert (monthlyInsight zone now history (first :: rest)
          = mkInsight
              (find_habit (first :: rest)
                 (fst (foldl (fun a b : string * Z => if snd a <? snd b then b else a)
                             (habit_id first, monthly_tally zone now history (habit_id first))
                             (tally_object (monthly_tally zone now history) rest))))
              (find_habit (first :: rest)
                 (fst (foldl (fun a b : string * Z => if snd b <? snd a then b else a)
                             (habit_id first, monthly_tally zone now history (habit_id first))
                             (tally_object (monthly_tally zone now history) rest)))))
    as Hrun.
  { unfold monthlyInsight.
    by rewrite (monthly_counts_tally zone now history (first :: rest) Hnd Hnamed). }
  rewrite Hrun. cbn [bestHabit worstHabit]. split.
  - rewrite (reduce_entries (monthly_tally zone now history) Z.ltb). cbn [fst].
    destruct (first_best (fun h => monthly_tally zone now history (habit_id h)) rest first)
      as (before & after & Heq & Hbefore & Hafter).
    set (best := foldl _ first rest) in *.
    exists before, best, after. split; [done |]. split; [| done].
    apply find_habit_unique; [done |]. rewrite Heq, elem_of_app, elem_of_cons. auto.
  - pose proof (reduce_entries (monthly_tally zone now history) (fun x y => y <? x)
                              rest first) as Hred.
    cbv beta in Hred. rewrite Hred. clear Hred. cbn [fst].
    destruct (first_best (fun h => - monthly_tally zone now history (habit_id h)) rest first)
      as (before & after & Heq & Hbefore & Hafter).
    assert (foldl (fun a b => if - monthly_tally zone now history (habit_id a)
                                 <? - monthly_tally zone now history (habit_id b)
                              then b else a) first rest
            = foldl (fun a b => if monthly_tally zone now history (habit_id b)
                                   <? monthly_tally zone now history (habit_id a)
                                then b else a) first rest) as Hsame.
    { apply foldl_agree. intros a b.
      destruct (Z.ltb_spec (- monthly_tally zone now history (habit_id a))
                           (- monthly_tally zone now history (habit_id b)));
        destruct (Z.ltb_spec (monthly_tally zone now history (habit_id b))
                             (monthly_tally zone now history (habit_id a))); done || lia. }
    rewrite Hsame in Heq, Hbefore, Hafter.
    set (worst := foldl _ first rest) in *.
    exists before, worst, after. split; [done |]. split.
    + apply find_habit_unique; [done |]. rewrite Heq, elem_of_app, elem_of_cons. auto.
    + split; (eapply Forall_impl; [eassumption |]); intros h Hh; cbv beta in Hh; lia.
Qed.

Lemma monthlyInsight_no_habits (zone : TimeZone) (now : Z) (history : History) :
  monthlyInsight zone now history [] = mkInsight None None.
Proof.
  unfold monthlyInsight, monthly_counts. cbn [foldl].
  by rewrite no_habits_no_counts.
Qed.
End Reduction_facts.

(** C5 (as the code has it).  [Object.entries(counts)] lists a key that is
    an array index before every other key, whatever the order of the habit
    list.  With the habits [wake] and [5] (the slug of the label [5]), in
    that order, both done today and on no other day, the tie is between the
    first habit [wake] and the second habit [5]; [monthlyInsight] returns the
    habit [5] as [bestHabit] and as [worstHabit], where the claim has the
    habit listed first. *)
Theorem monthlyInsight_index_id_wins_tie :
  let habits := [mkHabit "wake" "Wake up early"; mkHabit "5" "5"] in
  let history := perfect_on [19675]%Z habits in
  slugify ascii_toLowerCase 1700000000000 (ascii_trim "5") = "5"%string /\
  monthly_tally india 1700000000000 history "wake" = 1%Z /\
  monthly_tally india 1700000000000 history "5" = 1%Z /\
  Obj.entries (monthly_counts india 1700000000000 history habits)
    = [("5"%string, 1%Z); ("wake"%string, 1%Z)] /\
  monthlyInsight india 1700000000000 history habits
    = mkInsight (Some (mkHabit "5" "5")) (Some (mkHabit "5" "5")).
Proof. repeat split; vm_compute; reflexivity. Qed.

(** ** Perfect days *)
Section Perfect_facts.
Local Open Scope Z_scope.
Import Binary64.

(** A quotient at or below the dyadic number [p / 2^k] rounds to a double
    at or below it. *)
Lemma round_le_dyadic (n d b p k : Z) :
  0 <= n -> 0 < d -> 0 <= b -> n <= 2 ^ b * d -> 0 <= k <= 52 - b -> 0 <= p ->
  n * 2 ^ k <= p * d ->
  expo (round n d) <= 0 /\
  0 <= mant (round n d) /\
  mant (round n d) * 2 ^ k <= p * 2 ^ (- expo (round n d)).
Proof.
  intros Hn Hd Hb Hle Hk Hp Hdy. unfold round.
  destruct (Z.eqb_spec n 0) as [-> | Hn0]; cbn [mant expo].
  - split; [lia |]. split; [lia |]. change (2 ^ (- 0)) with 1. lia.
  - assert (ratio_exponent n d <= b) as He by (apply ratio_exponent_le; lia).
    set (e := ratio_exponent n d - 52) in *.
    assert (e <= - k) as Hek by lia.
    rewrite (Z.max_l 0 e) by lia. rewrite (Z.max_r 0 (- e)) by lia.
    rewrite Z.pow_0_r, Z.mul_1_r.
    assert (0 < 2 ^ (- e - k)) as Hq by (apply Z.pow_pos_nonneg; lia).
    assert (0 < 2 ^ k) as Hpk by (apply Z.pow_pos_nonneg; lia).
    assert (2 ^ (- e) = 2 ^ (- e - k) * 2 ^ k) as Hsplit.
    { rewrite <- Z.pow_add_r by lia. f_equal. lia. }
    assert (0 < 2 ^ (- e)) as Hpe by (apply Z.pow_pos_nonneg; lia).
    split; [lia |]. split.
    + apply nearest_even_lower; nia.
    + assert (nearest_even (n * 2 ^ (- e)) d <= p * 2 ^ (- e - k)) as Hm.
      { apply nearest_even_le; [lia |]. rewrite Hsplit. nia. }
      set (m := nearest_even (n * 2 ^ (- e)) d) in *. rewrite Hsplit. nia.
Qed.

(** With fewer than two hundred habits, one habit short is below 100
    percent. *)
Lemma percentage_short_of_100 (c t : Z) :
  0 <= c < t -> t < 200 -> percentage c t <= 99.
Proof.
  intros Hc Ht. unfold percentage, div.
  destruct (round_le_dyadic c t 0 1043333 20) as (He & Hm0 & Hm); try lia.
  set (x := round c t) in *. unfold mul.
  rewrite (Z.max_l 0 (expo x)) by lia. rewrite (Z.max_r 0 (- expo x)) by lia.
  rewrite Z.pow_0_r, Z.mul_1_r.
  assert (0 < 2 ^ (- expo x)) as Hp by (apply Z.pow_pos_nonneg; lia).
  destruct (round_le_dyadic (mant x * 100) (2 ^ (- expo x)) 7 104333300 20)
    as (He' & Hm0' & Hm'); try lia.
  set (y := round (mant x * 100) (2 ^ (- expo x))) in *.
  unfold Math_round.
  rewrite (Z.max_l 0 (expo y)) by lia. rewrite (Z.max_r 0 (- expo y)) by lia.
  rewrite Z.pow_0_r, Z.mul_1_r.
  assert (0 < 2 ^ (- expo y)) as Hp' by (apply Z.pow_pos_nonneg; lia).
  enough ((2 * mant y + 2 ^ (- expo y)) / (2 * 2 ^ (- expo y)) < 100) by lia.
  apply Z.div_lt_upper_bound; lia.
Qed.

(** All of them done is 100 percent, however many there are. *)
Lemma percentage_all (t : Z) : 0 < t -> percentage t t = 100.
Proof.
  intros Ht. unfold percentage, div.
  assert (round t t = mk (2 ^ 52) (-52)) as ->; [| vm_compute; reflexivity].
  unfold round. destruct (Z.eqb_spec t 0) as [-> | _]; [lia |].
  assert (ratio_exponent t t = 0) as ->.
  { unfold ratio_exponent. rewrite Z.sub_diag. cbn [Z.max Z.opp].
    rewrite Z.pow_0_r, !Z.mul_1_r. by rewrite Z.leb_refl. }
  f_equal. change (Z.max 0 (- (0 - 52))) with 52. change (Z.max 0 (0 - 52)) with 0.
  rewrite Z.pow_0_r, Z.mul_1_r. unfold nearest_even.
  rewrite (Z.mul_comm t), Z.div_mul, Z.mod_mul by lia.
  destruct (Z.ltb_spec (2 * 0) t); [done | lia].
Qed.

Lemma filter_all {A} (f : A -> bool) (l : list A) :
  length (List.filter f l) = length l <-> Forall (fun x => f x = true) l.
Proof.
  induction l as [| x l IH]; cbn [List.filter length].
  - split; [constructor | done].
  - pose proof (filter_length_bound f l) as Hle.
    rewrite Forall_cons. destruct (f x); cbn [length].
    + split; [intros [= Hlen]; split; [done | by apply IH]
             | intros [_ Hall]; f_equal; by apply IH].
    + split; [lia | intros [Hx _]; done].
Qed.

Lemma percentForDay_perfect (M : DayMap) (Hs : list Habit) :
  (0 < length Hs < 200)%nat ->
  percentForDay M Hs = 100 <-> Forall (fun h => truthy_at M (habit_id h) = true) Hs.
Proof.
  intros Hlen. rewrite <- filter_all. unfold percentForDay.
  pose proof (filter_length_bound (fun h => truthy_at M (habit_id h)) Hs) as Hle.
  destruct (Nat.eqb_spec (length Hs) 0) as [Hz | _]; [lia |].
  set (c := length (List.filter _ Hs)) in *. split.
  - intros Hp. destruct (decide (c = length Hs)) as [| Hne]; [done |].
    pose proof (percentage_short_of_100 (Z.of_nat c) (Z.of_nat (length Hs))
                  ltac:(lia) ltac:(lia)). lia.
  - intros ->. apply percentage_all. lia.
Qed.

(** Done habits do not depend on the labels, and a day map is read at the
    ids of the list only. *)
Lemma percentForDay_agree (M M' : DayMap) (Hs Hs' : list Habit) :
  habit_id <$> Hs = habit_id <$> Hs' ->
  Forall (fun h => truthy_at M (habit_id h) = truthy_at M' (habit_id h)) Hs ->
  percentForDay M Hs = percentForDay M' Hs'.
Proof.
  intros Hids Hagree. unfold percentForDay.
  assert (length Hs = length Hs') as Hlen
    by (by rewrite <- (length_fmap habit_id Hs), Hids, length_fmap).
  assert (length (List.filter (fun h => truthy_at M (habit_id h)) Hs)
          = length (List.filter (fun h => truthy_at M' (habit_id h)) Hs')) as Hcount.
  { clear Hlen. revert Hs' Hids.
    induction Hagree as [| h Hs Hh _ IH]; intros [| h' Hs'] Hids; try done.
    injection Hids as Hid Hids. cbn [List.filter]. rewrite Hh, Hid.
    destruct (truthy_at M' (habit_id h')); cbn [length]; by rewrite (IH Hs'). }
  by rewrite Hcount, Hlen.
Qed.
End Perfect_facts.

(** X1.  With at least one and fewer than two hundred habits,
    [percentForDay] is 100 exactly when every habit of the list reads truthy
    in the day map; as soon as one habit does not, the result is at most
    99. *)
Theorem percentForDay_100_iff_all_done (M : DayMap) (Hs : list Habit) :
  (0 < length Hs < 200)%nat ->
  (percentForDay M Hs = 100%Z <->
   Forall (fun h => truthy_at M (habit_id h) = true) Hs) /\
  (~ Forall (fun h => truthy_at M (habit_id h) = true) Hs ->
   (percentForDay M Hs <= 99)%Z).
Proof.
  intros Hlen. pose proof (percentForDay_perfect M Hs Hlen) as Hiff.
  split; [exact Hiff |]. intros Hopen.
  pose proof (percentForDay_range M Hs) as Hrange.
  destruct (decide (percentForDay M Hs = 100%Z)) as [Hfull | Hshort]; [| lia].
  exfalso. apply Hopen. by apply Hiff.
Qed.

Lemma percentForDay_100_iff_all_done_witness :
  (0 < length (sample_habits 3) < 200)%nat /\
  (percentForDay (all_done (sample_habits 3)) (sample_habits 3) = 100%Z <->
   Forall (fun h => truthy_at (all_done (sample_habits 3)) (habit_id h) = true)
          (sample_habits 3)).
Proof.
  split; [vm_compute; lia |].
  apply (percentForDay_100_iff_all_done (all_done (sample_habits 3)) (sample_habits 3)).
  vm_compute. lia.
Defined.

(** The bound is sharp: with two hundred habits, 199 done already give
    100.  Around that bound the model computes what the hardware doubles
    compute: on [(t - 1) / t] and [t / t], times 100, for every [t] up to
    400. *)
Lemma percentForDay_generous_at_200 :
  percentForDay (all_done (take 199 (sample_habits 200))) (sample_habits 200) = 100%Z /\
  forallb (fun t => Binary64.agrees_on (t - 1) t && Binary64.agrees_on t t)
          (seqZ 1 400) = true.
Proof. split; vm_compute; reflexivity. Qed.

(** ** The streak and the week *)
Section Streak_week_facts.
Local Open Scope Z_scope.
Variable zone : TimeZone.
Variable habits : list Habit.

(** In a zone whose offset never changes, what the loop returns tells what
    it has read: as many perfect days as it added, and then a break. *)
Lemma streak_loop_inv (fuel : nat) :
  constant_offset zone ->
  forall (history : History) (cursor : Z) (streak result : nat),
  streak_loop zone fuel history habits cursor streak = Some result ->
  exists k : nat,
    result = (streak + k)%nat /\
    (forall i : nat, (i < k)%nat ->
       day_percent history habits (dateKey cursor - Z.of_nat i) = Some 100) /\
    day_percent history habits (dateKey cursor - Z.of_nat k) <> Some 100.
Proof.
  intros Hconstant.
  induction fuel as [| fuel IH]; intros history cursor streak result Hrun; [done |].
  cbn [streak_loop] in Hrun. unfold day_percent.
  destruct (history !! dateKey cursor) as [record |] eqn:Hrec.
  - destruct (Z.eqb_spec (percentForDay (default ∅ (record_habits record)) habits) 100)
      as [Hfull | Hshort].
    + apply IH in Hrun as (k & -> & Hperfect & Hbreak).
      rewrite (dateKey_minusDays zone Hconstant) in Hbreak.
      exists (S k). split; [lia |]. split.
      * intros [| i] Hi.
        -- rewrite Z.sub_0_r, Hrec. cbn. by rewrite Hfull.
        -- specialize (Hperfect i ltac:(lia)).
           rewrite (dateKey_minusDays zone Hconstant) in Hperfect.
           by replace (dateKey cursor - Z.of_nat (S i))
             with (dateKey cursor - 1 - Z.of_nat i) by lia.
      * by replace (dateKey cursor - Z.of_nat (S k))
          with (dateKey cursor - 1 - Z.of_nat k) by lia.
    + injection Hrun as <-. exists 0%nat. split; [lia |]. split; [lia |].
      rewrite Z.sub_0_r, Hrec. cbn. intros [= Heq]. done.
  - injection Hrun as <-. exists 0%nat. split; [lia |]. split; [lia |].
    by rewrite Z.sub_0_r, Hrec.
Qed.

(** The loop depends on the history through the percentages of its days
    only. *)
Lemma streak_loop_percent (fuel : nat) (habits' : list Habit) :
  forall (h1 h2 : History) (cursor : Z) (streak : nat),
  (forall d, day_percent h1 habits d = day_percent h2 habits' d) ->
  streak_loop zone fuel h1 habits cursor streak
  = streak_loop zone fuel h2 habits' cursor streak.
Proof.
  induction fuel as [| fuel IH]; intros h1 h2 cursor streak Hsame; [done |].
  cbn [streak_loop]. specialize (Hsame (dateKey cursor)) as Hday. unfold day_percent in Hday.
  destruct (h1 !! dateKey cursor) as [r1 |], (h2 !! dateKey cursor) as [r2 |];
    try done.
  cbn in Hday. injection Hday as ->.
  destruct (_ =? 100); [by apply IH | done].
Qed.

(** Of two runs from one cursor, the run on the history that has every
    perfect day of the other counts at least as many days. *)
Lemma streak_loop_mono (fuel : nat) (habits' : list Habit) :
  forall (fuel' : nat) (h1 h2 : History) (cursor : Z) (streak k k' : nat),
  (forall d, day_percent h1 habits d = Some 100 -> day_percent h2 habits' d = Some 100) ->
  streak_loop zone fuel h1 habits cursor streak = Some k ->
  streak_loop zone fuel' h2 habits' cursor streak = Some k' ->
  (k <= k')%nat.
Proof.
  induction fuel as [| fuel IH]; intros fuel' h1 h2 cursor streak k k' Hkeep Hrun Hrun';
    [done |].
  destruct (decide (day_percent h1 habits (dateKey cursor) = Some 100)) as [Hperfect | Hbreak].
  - rewrite streak_loop_step in Hrun by done.
    destruct fuel' as [| fuel']; [done |].
    rewrite streak_loop_step in Hrun' by (by apply Hkeep).
    by apply (IH fuel' h1 h2 _ _ k k' Hkeep Hrun Hrun').
  - rewrite streak_loop_stop in Hrun by done. injection Hrun as <-.
    by apply (streak_loop_grows zone habits' fuel' h2 cursor).
Qed.

(** A day that counts for the streak counts for the week. *)
Lemma perfect_day_in_week (history : History) (day : DateKey) :
  day_percent history habits day = Some 100 ->
  percentForDay (default ∅ (history !! day ≫= record_habits)) habits = 100.
Proof.
  unfold day_percent. destruct (history !! day) as [record |]; [| done].
  cbn. by intros [= ->].
Qed.

Lemma full_days_from_today (f : Z -> Z) (today : Z) (k n : nat) :
  (forall i : nat, (i < k)%nat -> f (today - Z.of_nat i) = 100) ->
  Nat.le (Nat.min k n)
         (length (List.filter (fun p => p =? 100)
                              (f <$> seqZ (today - Z.of_nat n + 1) (Z.of_nat n)))).
Proof.
  intros Hperfect. induction n as [| n IH].
  - rewrite seqZ_nil by lia. cbn. lia.
  - rewrite seqZ_cons by lia.
    replace (Z.succ (today - Z.of_nat (S n) + 1)) with (today - Z.of_nat n + 1) by lia.
    replace (Z.pred (Z.of_nat (S n))) with (Z.of_nat n) by lia.
    rewrite fmap_cons. cbn [List.filter].
    replace (today - Z.of_nat (S n) + 1) with (today - Z.of_nat n) by lia.
    destruct (decide (n < k)%nat) as [Hlt | Hge].
    + rewrite (Hperfect n Hlt). cbn [Z.eqb Pos.eqb length]. lia.
    + destruct (f (today - Z.of_nat n) =? 100); cbn [length]; lia.
Qed.

Lemma sum_of_full (series : list Z) :
  Forall (fun p => (p =? 100) = true) series ->
  foldr Z.add 0 series = 100 * Z.of_nat (length series).
Proof.
  induction 1 as [| p series Hp _ IH]; [done |].
  cbn [foldr length]. apply Z.eqb_eq in Hp. lia.
Qed.
End Streak_week_facts.

(** X2.  In a zone whose offset never changes, what [calculateStreak]
    returns is what it has seen: when it returns [k], the last [k] days,
    today included, have a history entry at 100 percent, the day before them
    has none or one below 100 percent, and the week shows the streak: of the
    seven days of the weekly series at least [min(k, 7)] are full days. *)
Theorem calculateStreak_shows_in_week
    (zone : TimeZone) (fuel : nat) (now : Z) (history : History) (habits : list Habit)
    (k : nat) :
  constant_offset zone ->
  calculateStreak zone fuel now history habits = Some k ->
  (forall i : nat, (i < k)%nat ->
     day_percent history habits (todayKey now - Z.of_nat i) = Some 100%Z) /\
  day_percent history habits (todayKey now - Z.of_nat k) <> Some 100%Z /\
  (Nat.min k 7 <= weeklyFullDays (weeklyPercentages zone now history habits))%nat.
Proof.
  unfold calculateStreak. intros Hconstant Hrun.
  apply (streak_loop_inv zone habits fuel Hconstant) in Hrun
    as (k' & Hk & Hperfect & Hbreak).
  cbn in Hk. subst k'. split; [exact Hperfect |]. split; [exact Hbreak |].
  unfold weeklyFullDays, weeklyPercentages. rewrite (lastNDates_seqZ zone Hconstant).
  apply (full_days_from_today
           (fun day => percentForDay (default ∅ (history !! day ≫= record_habits)) habits)
           (todayKey now) k 7).
  intros i Hi. by apply perfect_day_in_week, Hperfect.
Qed.

Lemma calculateStreak_shows_in_week_witness :
  let now := 1700000000000%Z in
  let habits := sample_habits 3 in
  let history := perfect_on [19675; 19674; 19672]%Z habits in
  constant_offset india /\
  calculateStreak india 5 now history habits = Some 2%nat /\
  (2 <= weeklyFullDays (weeklyPercentages india now history habits))%nat.
Proof.
  intros now habits history.
  assert (constant_offset india) as Hconstant by (exists 19800000%Z; reflexivity).
  assert (calculateStreak india 5 now history habits = Some 2%nat) as Hrun
    by (vm_compute; reflexivity).
  split; [exact Hconstant |]. split; [exact Hrun |].
  exact (proj2 (proj2 (calculateStreak_shows_in_week india 5 now history habits 2
                         Hconstant Hrun))).
Defined.

(** X3.  Of the weekly series at most seven days are full days, the weekly
    average lies between 0 and 100, and a week of seven full days has the
    average 100. *)
Theorem weekly_summary_bounds
    (zone : TimeZone) (now : Z) (history : History) (habits : list Habit) :
  (weeklyFullDays (weeklyPercentages zone now history habits) <= 7)%nat /\
  (0 <= weeklyAverage (weeklyPercentages zone now history habits) <= 100)%Z /\
  (weeklyFullDays (weeklyPercentages zone now history habits) = 7%nat ->
   weeklyAverage (weeklyPercentages zone now history habits) = 100%Z).
Proof.
  pose proof (weeklyPercentages_length zone now history habits) as Hlen.
  pose proof (weeklyPercentages_range zone now history habits) as Hrange.
  pose proof (sum_of_percentages _ Hrange) as Hsum. rewrite Hlen in Hsum.
  rewrite (weeklyAverage_exact _ Hlen Hrange).
  unfold weeklyFullDays, rounded_mean, round_half_up. rewrite Hlen.
  split; [| split].
  - pose proof (filter_length_bound (fun p => p =? 100)%Z
                                    (weeklyPercentages zone now history habits)). lia.
  - split; [apply Z.div_pos; lia |].
    enough ((2 * foldr Z.add 0 (weeklyPercentages zone now history habits) + Z.of_nat 7)
            / (2 * Z.of_nat 7) < 101)%Z by lia.
    apply Z.div_lt_upper_bound; lia.
  - intros Hfull. rewrite <- Hlen in Hfull. apply filter_all in Hfull.
    rewrite (sum_of_full _ Hfull), Hlen. reflexivity.
Qed.

(** ** Habit handlers and the derived numbers *)
Section Habit_more_facts.
Local Open Scope Z_scope.

Lemma percentForDay_all_done (M : DayMap) (Hs : list Habit) :
  Hs <> [] -> Forall (fun h => truthy_at M (habit_id h) = true) Hs ->
  percentForDay M Hs = 100.
Proof.
  intros Hne Hall. apply filter_all in Hall. unfold percentForDay. rewrite Hall.
  destruct Hs as [| h Hs]; [done |].
  change (Nat.eqb (length (h :: Hs)) 0) with false. cbv iota.
  apply percentage_all. cbn [length]. lia.
Qed.

Lemma truthy_at_insert (M : DayMap) (id : string) (b : bool) (key : string) :
  truthy_at (<[id := b]> M) key = if String.eqb key id then b else truthy_at M key.
Proof.
  unfold truthy_at. destruct (String.eqb_spec key id) as [-> | Hne].
  - by rewrite lookup_insert_eq.
  - by rewrite lookup_insert_ne.
Qed.

Lemma truthy_at_delete_ne (M : DayMap) (id key : string) :
  key <> id -> truthy_at (delete id M) key = truthy_at M key.
Proof. intros Hne. unfold truthy_at. by rewrite lookup_delete_ne. Qed.

(** One flag set in a day map moves the count of done habits by that
    habit. *)
Lemma count_after_insert (M : DayMap) (id : string) (b : bool) (Hs : list Habit) :
  NoDup (habit_id <$> Hs) -> id ∈ (habit_id <$> Hs) ->
  (length (List.filter (fun h => truthy_at (<[id := b]> M) (habit_id h)) Hs)
   + (if truthy_at M id then 1 else 0)
   = length (List.filter (fun h => truthy_at M (habit_id h)) Hs)
     + (if b then 1 else 0))%nat.
Proof.
  induction Hs as [| h Hs IH]; [by rewrite elem_of_nil |].
  rewrite fmap_cons, NoDup_cons, elem_of_cons. intros [Hh Hnd] Hin.
  cbn [List.filter]. rewrite truthy_at_insert.
  destruct (String.eqb_spec (habit_id h) id) as [Heq | Hne].
  - subst id.
    assert (List.filter (fun x => truthy_at (<[habit_id h := b]> M) (habit_id x)) Hs
            = List.filter (fun x => truthy_at M (habit_id x)) Hs) as ->.
    { apply (filter_ext_Forall _ _ (fun x => habit_id x <> habit_id h)).
      - intros x Hx. rewrite truthy_at_insert.
        by destruct (String.eqb_spec (habit_id x) (habit_id h)).
      - apply Forall_forall. intros x Hx Heq. apply Hh. rewrite <- Heq.
        by apply list_elem_of_fmap_2. }
    destruct b, (truthy_at M (habit_id h)); cbn [length]; lia.
  - destruct Hin as [-> | Hin]; [done |]. specialize (IH Hnd Hin).
    destruct (truthy_at M (habit_id h)); cbn [length]; lia.
Qed.

Lemma todayHabits_toggle (read write : Z) (id : string) (b : bool) (history : History) :
  todayHabits write (toggle_history read write id b history)
  = <[id := b]> (todayHabits read history).
Proof.
  unfold todayHabits, toggle_history. rewrite lookup_insert_eq. cbn.
  by destruct (history !! todayKey read) as [[[M |]] |].
Qed.
End Habit_more_facts.

(** X4.  [handleHabitToggle] stores the flag under the habit id in the entry
    of the day of its second clock reading: that entry then has a day map
    that holds the flag and, under every other key, what the entry of the day
    of the first reading held (nothing when there was no such entry or it had
    no map); the entries of all other days and the habit list stay as they
    were, and the habit then reads as the flag says. *)
Theorem handleHabitToggle_sets_flag
    (read write : Z) (habitId : string) (checked : bool) (st : AppState) :
  app_habits (handleHabitToggle read write habitId checked st) = app_habits st /\
  (exists M : DayMap,
     app_history (handleHabitToggle read write habitId checked st) !! todayKey write
       = Some (mkRecord (Some M)) /\
     M !! habitId = Some checked /\
     forall key : string, key <> habitId ->
       M !! key = todayHabits read (app_history st) !! key) /\
  (forall date : DateKey, date <> todayKey write ->
     app_history (handleHabitToggle read write habitId checked st) !! date
     = app_history st !! date) /\
  truthy_at (todayHabits write
               (app_history (handleHabitToggle read write habitId checked st)))
            habitId = checked.
Proof.
  cbn [handleHabitToggle app_habits app_history].
  split; [reflexivity |]. split; [| split].
  - eexists. unfold toggle_history. rewrite lookup_insert_eq.
    split; [reflexivity |]. split; [apply lookup_insert_eq |].
    intros key Hkey. rewrite lookup_insert_ne by done. unfold todayHabits.
    by destruct (app_history st !! todayKey read) as [[[M |]] |].
  - intros date Hdate. unfold toggle_history. by rewrite lookup_insert_ne.
  - rewrite todayHabits_toggle, truthy_at_insert. by rewrite String.eqb_refl.
Qed.

(** X5.  With pairwise distinct habit ids and the two clock readings of
    the handler on one day, toggling a habit of the list moves
    [completedCount] by that habit alone: the count after, plus one if the
    habit read as done before, is the count before, plus one if it is now
    checked.  When the count then equals the length of a nonempty habit list,
    today is a perfect day, and [calculateStreak] returns at least 1 in
    every zone in which setting a date one day back moves the instant
    back. *)
Theorem handleHabitToggle_moves_count
    (read write : Z) (habitId : string) (checked : bool) (st : AppState) :
  todayKey read = todayKey write ->
  NoDup (habit_id <$> app_habits st) ->
  habitId ∈ (habit_id <$> app_habits st) ->
  let st' := handleHabitToggle read write habitId checked st in
  (completedCount write st'
   + (if truthy_at (todayHabits write (app_history st)) habitId then 1 else 0)
   = completedCount write st + (if checked then 1 else 0))%nat /\
  (completedCount write st' = length (app_habits st') ->
   day_percent (app_history st') (app_habits st') (todayKey write) = Some 100%Z /\
   forall zone : TimeZone, backward zone ->
     exists fuel k : nat,
       forall fuel' : nat, (fuel <= fuel')%nat ->
         calculateStreak zone fuel' write (app_history st') (app_habits st')
         = Some (S k)).
Proof.
  intros Hday Hnd Hin st'. split.
  - unfold completedCount. cbn [st' handleHabitToggle app_habits app_history].
    rewrite todayHabits_toggle. unfold todayHabits at 2 3. rewrite <- Hday.
    fold (todayHabits read (app_history st)). by apply count_after_insert.
  - intros Hfull.
    assert (app_habits st' <> []) as Hne.
    { cbn [st' handleHabitToggle app_habits]. intros Hnil. rewrite Hnil in Hin.
      by apply elem_of_nil in Hin. }
    assert (day_percent (app_history st') (app_habits st') (todayKey write)
            = Some 100%Z) as Hperfect.
    { unfold completedCount in Hfull. apply filter_all in Hfull.
      pose proof (percentForDay_all_done _ _ Hne Hfull) as Hp.
      unfold day_percent. unfold todayHabits in Hp.
      cbn [st' handleHabitToggle app_history] in *. unfold toggle_history in *.
      rewrite lookup_insert_eq in *. cbn in *. by rewrite Hp. }
    split; [exact Hperfect |]. intros zone Hback.
    destruct (calculateStreak_halts zone write (app_history st') (app_habits st') Hback)
      as (fuel & k & Hrun).
    pose proof (Hrun (S fuel) ltac:(lia)) as Hfirst. unfold calculateStreak in Hfirst.
    rewrite streak_loop_step in Hfirst by exact Hperfect.
    apply streak_loop_grows in Hfirst.
    destruct k as [| k]; [lia |]. by exists fuel, k.
Qed.

Lemma handleHabitToggle_moves_count_witness :
  let st := mkApp (sample_habits 2)
                  (perfect_on [19675]%Z (take 1 (sample_habits 2))) [] "2023-11-14" "" in
  let st' := handleHabitToggle 1700000000000 1700000000500 "h1" true st in
  todayKey 1700000000000 = todayKey 1700000000500 /\
  NoDup (habit_id <$> app_habits st) /\
  "h1"%string ∈ (habit_id <$> app_habits st) /\
  completedCount 1700000000500 st = 1%nat /\
  completedCount 1700000000500 st' = 2%nat /\
  backward india /\
  exists fuel k : nat,
    forall fuel' : nat, (fuel <= fuel')%nat ->
      calculateStreak india fuel' 1700000000500 (app_history st') (app_habits st')
      = Some (S k).
Proof.
  intros st st'.
  assert (todayKey 1700000000000 = todayKey 1700000000500) as Hday
    by (vm_compute; reflexivity).
  assert (NoDup (habit_id <$> app_habits st)) as Hnd.
  { apply NoDup_ListNoDup. vm_compute.
    repeat (constructor; [cbn; intuition discriminate |]). constructor. }
  assert ("h1"%string ∈ (habit_id <$> app_habits st)) as Hin.
  { apply list_elem_of_In. vm_compute. auto. }
  assert (backward india) as Hback.
  { intros t. unfold minusDays, UTC, LocalTime, india, fixed_zone, msPerDay. lia. }
  split; [exact Hday |]. split; [exact Hnd |]. split; [exact Hin |].
  split; [vm_compute; reflexivity |]. split; [vm_compute; reflexivity |].
  split; [exact Hback |].
  apply (proj2 (handleHabitToggle_moves_count
                  1700000000000 1700000000500 "h1" true st Hday Hnd Hin));
    [vm_compute; reflexivity | exact Hback].
Defined.

Section Habit_list_facts.
Local Open Scope Z_scope.
Variable toLowerCase : string -> string.
Variable trim : string -> string.

Lemma filter_other_ids (id : string) (habits : list Habit) :
  Forall (fun h => habit_id h <> id) habits ->
  List.filter (fun h => negb (String.eqb (habit_id h) id)) habits = habits.
Proof.
  induction 1 as [| h habits Hh _ IH]; [done |]. cbn [List.filter].
  destruct (String.eqb_spec (habit_id h) id) as [Heq | _]; [done |].
  cbn [negb]. by rewrite IH.
Qed.

Lemma elem_of_remaining (id : string) (habits : list Habit) (h : Habit) :
  h ∈ List.filter (fun h => negb (String.eqb (habit_id h) id)) habits ->
  h ∈ habits /\ habit_id h <> id.
Proof.
  rewrite !list_elem_of_In, filter_In. intros [Hin Hne]. split; [done |].
  intros Heq. by rewrite Heq, String.eqb_refl in Hne.
Qed.

(** After the back-fill no day with an entry is a perfect day. *)
Lemma backfill_breaks (id : string) (history : History) (habits : list Habit)
    (label : string) (day : DateKey) :
  (length habits < 199)%nat ->
  day_percent (backfill id history) (habits ++ [mkHabit id label]) day <> Some 100.
Proof.
  intros Hlen. unfold day_percent. rewrite backfill_lookup.
  destruct (history !! day) as [entry |]; [| done]. cbn. intros [= Hp].
  apply percentForDay_perfect in Hp; [| rewrite length_app; cbn [length]; lia].
  apply Forall_app in Hp as [_ Hnew]. apply Forall_cons in Hnew as [Hnew _].
  cbn [habit_id] in Hnew. rewrite truthy_at_insert, String.eqb_refl in Hnew. done.
Qed.

(** Deleting a habit keeps the perfect days perfect, as long as a habit is
    left. *)
Lemma forget_keeps_perfect (gone : string) (history : History) (habits : list Habit)
    (day : DateKey) :
  (length habits < 200)%nat ->
  List.filter (fun h => negb (String.eqb (habit_id h) gone)) habits <> [] ->
  day_percent history habits day = Some 100 ->
  day_percent (forget gone history)
              (List.filter (fun h => negb (String.eqb (habit_id h) gone)) habits) day
  = Some 100.
Proof.
  intros Hlen Hleft. unfold day_percent. rewrite forget_lookup.
  destruct (history !! day) as [entry |]; [| done]. cbn. intros [= Hp]. f_equal.
  assert (habits <> []) as Hne by (intros ->; done).
  apply percentForDay_perfect in Hp;
    [| destruct habits; [done | cbn [length] in *; lia]].
  apply percentForDay_all_done; [done |].
  apply Forall_forall. intros h Hh. apply elem_of_remaining in Hh as [Hin Hid].
  rewrite Forall_forall in Hp. specialize (Hp h Hin).
  destruct (record_habits entry) as [M |]; cbn in *; [| done].
  by rewrite truthy_at_delete_ne.
Qed.

(** Adding a habit and deleting it again leaves every day map as it reads
    at the ids of the list. *)
Lemma forget_backfill_reads (id : string) (history : History) (day : DateKey)
    (key : string) :
  key <> id ->
  truthy_at (default ∅ (forget id (backfill id history) !! day ≫= record_habits)) key
  = truthy_at (default ∅ (history !! day ≫= record_habits)) key.
Proof.
  intros Hkey. rewrite forget_lookup, backfill_lookup.
  destruct (history !! day) as [entry |]; [| done]. cbn.
  rewrite truthy_at_delete_ne, truthy_at_insert by done.
  by destruct (String.eqb_spec key id).
Qed.

Lemma NoDup_ids_snoc (habits : list Habit) (id label : string) :
  NoDup (habit_id <$> habits) ->
  existsb (fun h => String.eqb (habit_id h) id) habits = false ->
  NoDup (habit_id <$> habits ++ [mkHabit id label]).
Proof.
  intros Hnd Hfresh. rewrite fmap_app. apply NoDup_app. split; [done |].
  split; [| apply NoDup_singleton].
  intros key Hkey Hnew. apply list_elem_of_singleton in Hnew. cbn in Hnew. subst key.
  apply list_elem_of_fmap in Hkey as (h & Hid & Hin).
  assert (existsb (fun h => String.eqb (habit_id h) id) habits = true) as Hex.
  { apply existsb_exists. exists h. split; [by apply list_elem_of_In |].
    by apply String.eqb_eq. }
  congruence.
Qed.

Lemma rename_ids (id label : string) (habits : list Habit) :
  habit_id <$> ((fun h => if String.eqb (habit_id h) id
                          then mkHabit (habit_id h) label else h) <$> habits)
  = habit_id <$> habits.
Proof.
  rewrite <- list_fmap_compose. apply list_fmap_ext. intros i h _. cbn.
  by destruct (String.eqb (habit_id h) id).
Qed.
End Habit_list_facts.

(** X6.  When [handleAddHabit] adds a habit to a list of fewer than 199
    habits, the back-fill writes [false] for it into every entry of the
    history, so no day with an entry is at 100 percent afterwards and
    [calculateStreak] returns 0, whatever the streak was before. *)
Theorem handleAddHabit_resets_streak
    (zone : TimeZone) (toLowerCase trim : string -> string) (now : Z) (st : AppState) :
  let label := trim (app_newHabit st) in
  let id := slugify toLowerCase now label in
  label <> ""%string ->
  Forall (fun h => habit_id h <> id) (app_habits st) ->
  (length (app_habits st) < 199)%nat ->
  let st' := handleAddHabit toLowerCase trim now st in
  (forall day : DateKey,
     day_percent (app_history st') (app_habits st') day <> Some 100%Z) /\
  (forall (fuel : nat) (clock : Z),
     calculateStreak zone (S fuel) clock (app_history st') (app_habits st') = Some 0%nat).
Proof.
  intros label id Hlabel Hfresh Hlen st'.
  assert (forall day : DateKey,
            day_percent (app_history st') (app_habits st') day <> Some 100%Z) as Hbreak.
  { intros day. unfold st'.
    rewrite (handleAddHabit_adds toLowerCase trim now st Hlabel Hfresh).
    cbn [app_habits app_history]. by apply backfill_breaks. }
  split; [exact Hbreak |]. intros fuel clock. unfold calculateStreak.
  apply streak_loop_stop, Hbreak.
Qed.

Lemma handleAddHabit_resets_streak_witness :
  let st := mkApp (sample_habits 2) (perfect_on [19675; 19674]%Z (sample_habits 2))
                  [] "2023-11-14" "  Drink More Water " in
  let id := slugify ascii_toLowerCase 1700000000000 (ascii_trim (app_newHabit st)) in
  ascii_trim (app_newHabit st) <> ""%string /\
  Forall (fun h => habit_id h <> id) (app_habits st) /\
  (length (app_habits st) < 199)%nat /\
  calculateStreak india 4 1700000000000 (app_history st) (app_habits st) = Some 2%nat /\
  let st' := handleAddHabit ascii_toLowerCase ascii_trim 1700000000000 st in
  calculateStreak india 4 1700000000000 (app_history st') (app_habits st') = Some 0%nat.
Proof.
  intros st id.
  assert (ascii_trim (app_newHabit st) <> ""%string) as Hlabel by (vm_compute; discriminate).
  assert (Forall (fun h => habit_id h <> id) (app_habits st)) as Hfresh
    by (repeat constructor; vm_compute; discriminate).
  assert (length (app_habits st) < 199)%nat as Hlen by (vm_compute; lia).
  split; [exact Hlabel |]. split; [exact Hfresh |]. split; [exact Hlen |].
  split; [vm_compute; reflexivity |].
  exact (proj2 (handleAddHabit_resets_streak india ascii_toLowerCase ascii_trim 1700000000000
                  st Hlabel Hfresh Hlen) 3%nat 1700000000000%Z).
Defined.

(** X7.  Adding a habit and then deleting it again is invisible to the
    derived numbers: the habit list is the one before, and every day has the
    percentage it had, for the streak as for the weekly series, so
    [calculateStreak] and [weeklyPercentages] return what they returned. *)
Theorem add_then_delete_habit_invisible
    (zone : TimeZone) (toLowerCase trim : string -> string) (now : Z) (st : AppState) :
  let label := trim (app_newHabit st) in
  let id := slugify toLowerCase now label in
  label <> ""%string ->
  Forall (fun h => habit_id h <> id) (app_habits st) ->
  let st' := handleDeleteHabit id (handleAddHabit toLowerCase trim now st) in
  app_habits st' = app_habits st /\
  (forall day : DateKey,
     day_percent (app_history st') (app_habits st') day
     = day_percent (app_history st) (app_habits st) day) /\
  (forall (fuel : nat) (clock : Z),
     calculateStreak zone fuel clock (app_history st') (app_habits st')
     = calculateStreak zone fuel clock (app_history st) (app_habits st)) /\
  (forall clock : Z,
     weeklyPercentages zone clock (app_history st') (app_habits st')
     = weeklyPercentages zone clock (app_history st) (app_habits st)).
Proof.
  intros label id Hlabel Hfresh st'. unfold st'.
  rewrite (handleAddHabit_adds toLowerCase trim now st Hlabel Hfresh).
  fold label. fold id. cbn [handleDeleteHabit app_habits app_history].
  assert (List.filter (fun h => negb (String.eqb (habit_id h) id))
                      (app_habits st ++ [mkHabit id label]) = app_habits st) as Hlist.
  { rewrite List.filter_app, (filter_other_ids id _ Hfresh). cbn [List.filter habit_id].
    rewrite String.eqb_refl. cbn [negb]. apply app_nil_r. }
  rewrite Hlist.
  assert (forall day : DateKey,
            percentForDay (default ∅ (forget id (backfill id (app_history st)) !! day
                                      ≫= record_habits)) (app_habits st)
            = percentForDay (default ∅ (app_history st !! day ≫= record_habits))
                            (app_habits st)) as Hday.
  { intros day. apply percentForDay_agree; [done |].
    eapply Forall_impl; [exact Hfresh |]. intros h Hh. cbv beta in Hh.
    by apply forget_backfill_reads. }
  assert (forall day : DateKey,
            day_percent (forget id (backfill id (app_history st))) (app_habits st) day
            = day_percent (app_history st) (app_habits st) day) as Hpercent.
  { intros day. specialize (Hday day). unfold day_percent.
    rewrite forget_lookup, backfill_lookup in *.
    destruct (app_history st !! day) as [entry |]; [| done]. cbn in *. by rewrite Hday. }
  split; [reflexivity |]. split; [exact Hpercent |]. split.
  - intros fuel clock. unfold calculateStreak. by apply streak_loop_percent.
  - intros clock. unfold weeklyPercentages. apply list_fmap_ext. intros i day _.
    apply Hday.
Qed.

Lemma add_then_delete_habit_invisible_witness :
  let st := mkApp (sample_habits 2) (perfect_on [19675; 19674]%Z (sample_habits 2))
                  [] "2023-11-14" "  Drink More Water " in
  let id := slugify ascii_toLowerCase 1700000000000 (ascii_trim (app_newHabit st)) in
  ascii_trim (app_newHabit st) <> ""%string /\
  Forall (fun h => habit_id h <> id) (app_habits st) /\
  let st' := handleDeleteHabit id
               (handleAddHabit ascii_toLowerCase ascii_trim 1700000000000 st) in
  app_habits st' = app_habits st /\
  calculateStreak india 4 1700000000000 (app_history st') (app_habits st') = Some 2%nat.
Proof.
  intros st id.
  assert (ascii_trim (app_newHabit st) <> ""%string) as Hlabel by (vm_compute; discriminate).
  assert (Forall (fun h => habit_id h <> id) (app_habits st)) as Hfresh
    by (repeat constructor; vm_compute; discriminate).
  split; [exact Hlabel |]. split; [exact Hfresh |].
  destruct (add_then_delete_habit_invisible india ascii_toLowerCase ascii_trim 1700000000000
              st Hlabel Hfresh) as (Hlist & _ & Hstreak & _).
  split; [exact Hlist |]. rewrite Hstreak. vm_compute. reflexivity.
Defined.

(** X8.  Deleting a habit never shortens the streak while a habit is left:
    with fewer than two hundred habits before and at least one after,
    every day that was at 100 percent still is, and what [calculateStreak]
    returns afterwards is at least what it returned before. *)
Theorem handleDeleteHabit_keeps_streak
    (zone : TimeZone) (gone : string) (st : AppState) (clock : Z)
    (fuel fuel' k k' : nat) :
  (length (app_habits st) < 200)%nat ->
  app_habits (handleDeleteHabit gone st) <> [] ->
  calculateStreak zone fuel clock (app_history st) (app_habits st) = Some k ->
  calculateStreak zone fuel' clock (app_history (handleDeleteHabit gone st))
                  (app_habits (handleDeleteHabit gone st)) = Some k' ->
  (forall day : DateKey,
     day_percent (app_history st) (app_habits st) day = Some 100%Z ->
     day_percent (app_history (handleDeleteHabit gone st))
                 (app_habits (handleDeleteHabit gone st)) day = Some 100%Z) /\
  (k <= k')%nat.
Proof.
  cbn [handleDeleteHabit app_habits app_history]. intros Hlen Hleft Hbefore Hafter.
  assert (forall day : DateKey,
     day_percent (app_history st) (app_habits st) day = Some 100%Z ->
     day_percent (forget gone (app_history st))
                 (List.filter (fun h => negb (String.eqb (habit_id h) gone))
                              (app_habits st)) day = Some 100%Z) as Hkeep
    by (intros day; by apply forget_keeps_perfect).
  split; [exact Hkeep |].
  unfold calculateStreak in Hbefore, Hafter.
  exact (streak_loop_mono zone (app_habits st) fuel _ fuel' _ _ clock 0%nat k k'
           Hkeep Hbefore Hafter).
Qed.

Lemma handleDeleteHabit_keeps_streak_witness :
  let st := mkApp (sample_habits 3)
                  (perfect_on [19675]%Z (take 2 (sample_habits 3))) [] "2023-11-14" "" in
  (length (app_habits st) < 200)%nat /\
  app_habits (handleDeleteHabit "h2" st) <> [] /\
  calculateStreak india 3 1700000000000 (app_history st) (app_habits st) = Some 0%nat /\
  calculateStreak india 3 1700000000000 (app_history (handleDeleteHabit "h2" st))
                  (app_habits (handleDeleteHabit "h2" st)) = Some 1%nat /\
  (0 <= 1)%nat.
Proof.
  intros st.
  assert (length (app_habits st) < 200)%nat as Hlen by (vm_compute; lia).
  assert (app_habits (handleDeleteHabit "h2" st) <> []) as Hleft
    by (vm_compute; discriminate).
  assert (calculateStreak india 3 1700000000000 (app_history st) (app_habits st) = Some 0%nat)
    as Hbefore by (vm_compute; reflexivity).
  assert (calculateStreak india 3 1700000000000 (app_history (handleDeleteHabit "h2" st))
            (app_habits (handleDeleteHabit "h2" st)) = Some 1%nat)
    as Hafter by (vm_compute; reflexivity).
  split; [exact Hlen |]. split; [exact Hleft |]. split; [exact Hbefore |].
  split; [exact Hafter |].
  exact (proj2 (handleDeleteHabit_keeps_streak india "h2" st 1700000000000 3 3 0 1
                  Hlen Hleft Hbefore Hafter)).
Defined.

(** X9.  The habit handlers keep the habit ids pairwise distinct:
    [handleAddHabit] rejects a label whose slug is taken, [handleDeleteHabit]
    only removes, [handleRenameHabit] and [handleHabitToggle] leave the ids
    alone. *)
Theorem habit_ids_stay_distinct
    (toLowerCase trim : string -> string)
    (window_prompt : string -> string -> option string) (st : AppState) :
  NoDup (habit_id <$> app_habits st) ->
  (forall now : Z,
     NoDup (habit_id <$> app_habits (handleAddHabit toLowerCase trim now st))) /\
  (forall id : string, NoDup (habit_id <$> app_habits (handleDeleteHabit id st))) /\
  (forall id : string,
     NoDup (habit_id <$> app_habits (handleRenameHabit trim window_prompt id st))) /\
  (forall (read write : Z) (id : string) (checked : bool),
     NoDup (habit_id <$> app_habits (handleHabitToggle read write id checked st))).
Proof.
  intros Hnd. split; [| split; [| split]].
  - intros now. unfold handleAddHabit.
    destruct (String.eqb (trim (app_newHabit st)) ""); [done |].
    destruct (existsb _ (app_habits st)) eqn:Hex; [done |].
    cbn [app_habits]. by apply NoDup_ids_snoc.
  - intros id. cbn [handleDeleteHabit app_habits]. by apply NoDup_fmap_filter.
  - intros id. unfold handleRenameHabit.
    destruct (find_habit (app_habits st) id); [| done].
    destruct (window_prompt _ _) as [updated |]; [| done].
    destruct (String.eqb updated ""); [done |].
    cbn [app_habits]. by rewrite rename_ids.
  - intros read write id checked. done.
Qed.

Lemma habit_ids_stay_distinct_witness :
  NoDup (habit_id <$> app_habits sample_state) /\
  NoDup (habit_id <$> app_habits
           (handleAddHabit ascii_toLowerCase ascii_trim 1700000000000
              (mkApp (app_habits sample_state) ∅ [] "" "Reading"))).
Proof.
  assert (forall st : AppState, app_habits st = DEFAULT_HABITS ->
            NoDup (habit_id <$> app_habits st)) as Hnd.
  { intros st ->. apply NoDup_ListNoDup. vm_compute.
    repeat (constructor; [cbn; intuition discriminate |]). constructor. }
  split; [by apply Hnd |].
  apply (habit_ids_stay_distinct ascii_toLowerCase ascii_trim (sample_prompt None)
           (mkApp (app_habits sample_state) ∅ [] "" "Reading")).
  by apply Hnd.
Defined.

(** X10.  [handleRenameHabit] changes labels only.  The list keeps its ids
    in order and the history is untouched, so every percentage and the
    streak are what they were.  Nothing changes at all when no habit has the
    id, when the dialog is cancelled or when the answer is empty; otherwise
    every habit with the id carries the trimmed answer as its label, the
    empty string included, and the other habits are as before. *)
Theorem handleRenameHabit_changes_labels_only
    (zone : TimeZone) (trim : string -> string) (window_prompt : string -> string -> option string)
    (id : string) (st : AppState) :
  let st' := handleRenameHabit trim window_prompt id st in
  habit_id <$> app_habits st' = habit_id <$> app_habits st /\
  app_history st' = app_history st /\
  (forall M : DayMap, percentForDay M (app_habits st') = percentForDay M (app_habits st)) /\
  (forall (fuel : nat) (clock : Z),
     calculateStreak zone fuel clock (app_history st') (app_habits st')
     = calculateStreak zone fuel clock (app_history st) (app_habits st)) /\
  (find_habit (app_habits st) id = None -> st' = st) /\
  (forall current : Habit,
     find_habit (app_habits st) id = Some current ->
     match window_prompt "Rename habit" (habit_label current) with
     | None => st' = st
     | Some updated =>
         if String.eqb updated "" then st' = st
         else app_habits st'
              = (fun h => if String.eqb (habit_id h) id
                          then mkHabit id (trim updated) else h) <$> app_habits st
     end).
Proof.
  intros st'.
  assert (habit_id <$> app_habits st' = habit_id <$> app_habits st) as Hids.
  { unfold st', handleRenameHabit.
    destruct (find_habit (app_habits st) id); [| done].
    destruct (window_prompt _ _) as [updated |]; [| done].
    destruct (String.eqb updated ""); [done |].
    cbn [app_habits]. apply rename_ids. }
  assert (app_history st' = app_history st) as Hhistory.
  { unfold st', handleRenameHabit.
    destruct (find_habit (app_habits st) id); [| done].
    destruct (window_prompt _ _) as [updated |]; [| done].
    by destruct (String.eqb updated ""). }
  assert (forall M : DayMap,
            percentForDay M (app_habits st') = percentForDay M (app_habits st)) as Hpercent.
  { intros M. apply percentForDay_agree; [done |]. by apply Forall_forall. }
  split; [exact Hids |]. split; [exact Hhistory |]. split; [exact Hpercent |].
  split; [| split].
  - intros fuel clock. unfold calculateStreak. apply streak_loop_percent.
    intros day. unfold day_percent. rewrite Hhistory.
    destruct (app_history st !! day) as [entry |]; [| done]. cbn. by rewrite Hpercent.
  - intros Hnone. unfold st', handleRenameHabit. by rewrite Hnone.
  - intros current Hfind. unfold st', handleRenameHabit. rewrite Hfind.
    destruct (window_prompt _ _) as [updated |]; [| done].
    destruct (String.eqb updated ""); [done |].
    cbn [app_habits]. apply list_fmap_ext. intros i h _.
    by destruct (String.eqb_spec (habit_id h) id) as [-> |].
Qed.

(** ** The shape of a slug *)
Section Slug_shape_facts.

Lemma dash_is_no_slug_char (a : Ascii.ascii) :
  is_slug_char a = true -> Ascii.eqb a "-" = false.
Proof.
  intros Ha. destruct (Ascii.eqb_spec a "-") as [-> | _]; [| done].
  vm_compute in Ha. discriminate Ha.
Qed.

Lemma replace_runs_first (s : string) :
  first_char is_slug_char (replace_runs true s) = true.
Proof.
  induction s as [| a s IH]; [done |]. cbn [replace_runs].
  by destruct (is_slug_char a) eqn:Ha.
Qed.

Lemma single_dashes_cons (a b : Ascii.ascii) (rest : string) :
  single_dashes (String a (String b rest))
  = negb (Ascii.eqb a "-" && Ascii.eqb b "-") && single_dashes (String b rest).
Proof. reflexivity. Qed.

Lemma replace_runs_single (s : string) :
  forall in_run : bool, single_dashes (replace_runs in_run s) = true.
Proof.
  induction s as [| a s IH]; intros in_run; [done |]. cbn [replace_runs].
  destruct (is_slug_char a) eqn:Ha.
  - specialize (IH false). destruct (replace_runs false s) as [| b rest] eqn:Hrest;
      [done |].
    by rewrite single_dashes_cons, (dash_is_no_slug_char a Ha), IH.
  - destruct in_run; [apply IH |].
    pose proof (replace_runs_first s) as Hfirst. specialize (IH true).
    destruct (replace_runs true s) as [| b rest] eqn:Hrest; [done |].
    cbn [first_char] in Hfirst.
    by rewrite single_dashes_cons, (dash_is_no_slug_char b Hfirst), andb_false_r, IH.
Qed.

Lemma strip_leading_dash_first (s : string) :
  first_char is_slug_char (strip_leading_dash (replace_runs false s)) = true.
Proof.
  destruct s as [| a s]; [done |]. cbn [replace_runs].
  destruct (is_slug_char a) eqn:Ha; cbn [strip_leading_dash].
  - by rewrite (dash_is_no_slug_char a Ha).
  - apply replace_runs_first.
Qed.

Lemma single_dashes_tail (a : Ascii.ascii) (s : string) :
  single_dashes (String a s) = true -> single_dashes s = true.
Proof. destruct s as [| b s]; [done |]. rewrite single_dashes_cons. by intros [_ ?]%andb_prop. Qed.

Lemma strip_leading_dash_single (s : string) :
  single_dashes s = true -> single_dashes (strip_leading_dash s) = true.
Proof.
  destruct s as [| a s]; [done |]. cbn [strip_leading_dash].
  destruct (Ascii.eqb a "-"); [apply single_dashes_tail | done].
Qed.

Lemma strip_trailing_dash_first (p : Ascii.ascii -> bool) (s : string) :
  first_char p s = true -> first_char p (strip_trailing_dash s) = true.
Proof.
  destruct s as [| a [| b s]]; [done | |]; cbn [strip_trailing_dash first_char].
  - by destruct (Ascii.eqb a "-").
  - done.
Qed.

Lemma strip_trailing_dash_single (s : string) :
  single_dashes s = true -> single_dashes (strip_trailing_dash s) = true.
Proof.
  induction s as [| a s IH]; [done |]. intros Hs.
  destruct s as [| b s]; cbn [strip_trailing_dash].
  - by destruct (Ascii.eqb a "-").
  - pose proof (single_dashes_tail _ _ Hs) as Htail. specialize (IH Htail).
    rewrite single_dashes_cons in Hs. apply andb_prop in Hs as [Hab _].
    destruct s as [| c s].
    + cbn [strip_trailing_dash] in *.
      destruct (Ascii.eqb b "-") eqn:Hb; [done |].
      by rewrite single_dashes_cons, Hb, Hab.
    + cbn [strip_trailing_dash] in *. by rewrite single_dashes_cons, Hab, IH.
Qed.

Lemma slice_prefix_first (p : Ascii.ascii -> bool) (n : nat) (s : string) :
  first_char p s = true -> first_char p (slice_prefix n s) = true.
Proof. by destruct n, s. Qed.

Lemma slice_prefix_single (n : nat) :
  forall s : string, single_dashes s = true -> single_dashes (slice_prefix n s) = true.
Proof.
  induction n as [| n IH]; intros [| a s] Hs; try done. cbn [slice_prefix].
  pose proof (IH s (single_dashes_tail _ _ Hs)) as Htail.
  destruct n as [| n], s as [| b s]; try done.
  rewrite single_dashes_cons in Hs. apply andb_prop in Hs as [Hab _].
  cbn [slice_prefix] in *. by rewrite single_dashes_cons, Hab, Htail.
Qed.

Lemma slice_prefix_length (n : nat) :
  forall s : string, String.length (slice_prefix n s) <= n.
Proof.
  induction n as [| n IH]; intros [| a s]; cbn [slice_prefix String.length]; try lia.
  specialize (IH s). lia.
Qed.
End Slug_shape_facts.

(** X11.  [slugify] never returns the empty string.  Its result is either
    the fallback [habit-] followed by the clock reading, or a string of at
    most thirty characters, each a lower-case letter, a digit or a dash, that
    begins with a letter or a digit and has no two dashes side by side. *)
Theorem slugify_shape (toLowerCase : string -> string) (now : Z) (text : string) :
  slugify toLowerCase now text <> ""%string /\
  (slugify toLowerCase now text = "habit-" +:+ pretty now \/
   (every_char is_slug_or_dash (slugify toLowerCase now text) = true /\
    first_char is_slug_char (slugify toLowerCase now text) = true /\
    single_dashes (slugify toLowerCase now text) = true /\
    String.length (slugify toLowerCase now text) <= 30)).
Proof.
  unfold slugify.
  set (slug := slice_prefix 30 (strip_dashes (replace_runs false (toLowerCase text)))).
  destruct (String.eqb_spec slug "") as [Hempty | Hslug].
  - split; [discriminate | by left].
  - split; [exact Hslug | right]. unfold slug, strip_dashes.
    split; [| split; [| split]].
    + apply slice_prefix_chars, strip_trailing_dash_chars, strip_leading_dash_chars,
        replace_runs_chars.
    + apply slice_prefix_first, strip_trailing_dash_first, strip_leading_dash_first.
    + apply slice_prefix_single, strip_trailing_dash_single, strip_leading_dash_single,
        replace_runs_single.
    + apply slice_prefix_length.
Qed.

(** ** Reading an object after an update *)
Section Obj_read_facts.
Context {V : Type}.
Implicit Types (o : Obj.t V) (kv : string * V).

Lemma get_set_eq (key : string) (v : V) o :
  Obj.get key (Obj.set key v o) = Some v.
Proof.
  unfold Obj.get. induction o as [| [k w] o IH]; cbn [Obj.set List.find fst].
  - by rewrite String.eqb_refl.
  - destruct (String.eqb_spec k key) as [-> | Hne]; cbn [List.find fst].
    + by rewrite String.eqb_refl.
    + destruct (String.eqb_spec k key); [done | exact IH].
Qed.

Lemma get_set_ne (key key' : string) (v : V) o :
  key' <> key -> Obj.get key' (Obj.set key v o) = Obj.get key' o.
Proof.
  intros Hne. unfold Obj.get. induction o as [| [k w] o IH]; cbn [Obj.set List.find fst].
  - by destruct (String.eqb_spec key key').
  - destruct (String.eqb_spec k key) as [-> | Hk]; cbn [List.find fst].
    + by destruct (String.eqb_spec key key').
    + destruct (String.eqb_spec k key'); [done | exact IH].
Qed.

(** With each key once, a read finds exactly the property that is there. *)
Lemma get_single o (key : string) (v : V) :
  NoDup (fst <$> o) -> (key, v) ∈ o -> Obj.get key o = Some v.
Proof.
  unfold Obj.get. induction o as [| [k w] o IH]; [by rewrite elem_of_nil |].
  rewrite fmap_cons, NoDup_cons, elem_of_cons. cbn [fst List.find].
  intros [Hk Hnd] Hin. destruct (String.eqb_spec k key) as [-> | Hne].
  - destruct Hin as [[= ->] | Hin]; [done |].
    exfalso. apply Hk. apply list_elem_of_fmap. by exists (key, v).
  - destruct Hin as [[= -> ->] | Hin]; [done | by apply IH].
Qed.

Lemma get_same_properties o o' (key : string) :
  NoDup (fst <$> o) -> NoDup (fst <$> o') ->
  (forall kv, kv ∈ o <-> kv ∈ o') ->
  Obj.get key o = Obj.get key o'.
Proof.
  intros Hnd Hnd' Hsame.
  destruct (Obj.get key o) as [v |] eqn:Hget.
  - symmetry. apply get_single; [done |]. by apply Hsame, get_elem_of.
  - destruct (Obj.get key o') as [v' |] eqn:Hget'; [| done].
    apply get_elem_of, Hsame in Hget'. by rewrite (get_single _ _ _ Hnd Hget') in Hget.
Qed.

Lemma insert_index_Permutation (i : N) kv (l : list (N * (string * V))) :
  Obj.insert_index i kv l ≡ₚ (i, kv) :: l.
Proof.
  induction l as [| [j kw] l IH]; cbn [Obj.insert_index]; [done |].
  destruct (i <? j)%N; [done |]. rewrite IH. apply Permutation_swap.
Qed.

(** [Object.entries] lists each own property once. *)
Lemma entries_Permutation o : Obj.entries o ≡ₚ o.
Proof.
  unfold Obj.entries, Obj.index_entries, Obj.string_entries.
  induction o as [| kv o IH]; [done |]. cbn [foldr List.filter].
  destruct (array_index (fst kv)) as [i |].
  - rewrite insert_index_Permutation, fmap_cons. cbn [snd app]. by rewrite IH.
  - rewrite <- Permutation_middle. by rewrite IH.
Qed.

Lemma entries_single o : NoDup (fst <$> o) -> NoDup (fst <$> Obj.entries o).
Proof. intros Hnd. by rewrite entries_Permutation. Qed.

(** The spread copies an object whose keys occur once property by
    property. *)
Lemma spread_single o :
  NoDup (fst <$> o) ->
  foldl (fun acc kv => Obj.set (fst kv) (snd kv) acc) [] (Obj.entries o) = Obj.entries o.
Proof.
  intros Hnd. rewrite rebuild_fresh; [done |]. rewrite app_nil_l. by apply entries_single.
Qed.

Lemma get_spread_set_eq o (key : string) (v : V) :
  Obj.get key (Obj.spread_set o key v) = Some v.
Proof. unfold Obj.spread_set. apply get_set_eq. Qed.

Lemma get_spread_set_ne o (key key' : string) (v : V) :
  NoDup (fst <$> o) -> key' <> key ->
  Obj.get key' (Obj.spread_set o key v) = Obj.get key' o.
Proof.
  intros Hnd Hne. unfold Obj.spread_set. rewrite get_set_ne by done.
  rewrite (spread_single o Hnd).
  apply get_same_properties; [by apply entries_single | done |].
  intros kv. apply elem_of_entries.
Qed.

Lemma spread_set_single o (key : string) (v : V) :
  NoDup (fst <$> Obj.spread_set o key v).
Proof.
  unfold Obj.spread_set. apply NoDup_keys_set.
  by destruct (rebuild_spec (Obj.entries o) [] (NoDup_nil_2)) as [Hnd _].
Qed.
End Obj_read_facts.

Section Task_facts.

Lemma tasks_at_own (tasksByDate : Obj.t (list Task)) (date : string) (tasks : list Task) :
  Obj.get date tasksByDate = Some tasks -> tasks_at tasksByDate date = Normal tasks.
Proof. intros Hget. unfold tasks_at. by rewrite Hget. Qed.

Lemma tasks_at_read (tasksByDate : Obj.t (list Task)) (date : string) (tasks : list Task) :
  tasks_at tasksByDate date = Normal tasks ->
  default [] (Obj.get date tasksByDate) = tasks.
Proof.
  unfold tasks_at. destruct (Obj.get date tasksByDate) as [l |]; cbn.
  - by intros [= ->].
  - destruct (bool_decide _); [done | by intros [= <-]].
Qed.

Lemma toggle_twice (id : string) (tasks : list Task) :
  (fun t => if String.eqb (task_id t) id
            then mkTask (task_id t) (task_text t) (negb (task_done t))
                        (task_reminderTime t)
            else t)
    <$> ((fun t => if String.eqb (task_id t) id
                   then mkTask (task_id t) (task_text t) (negb (task_done t))
                               (task_reminderTime t)
                   else t) <$> tasks)
  = tasks.
Proof.
  rewrite <- list_fmap_compose. rewrite <- (list_fmap_id tasks) at 2.
  apply list_fmap_ext. intros i [tid text done reminder] _. cbn.
  destruct (String.eqb_spec tid id) as [-> | Hne]; cbn.
  - by rewrite String.eqb_refl, negb_involutive.
  - by destruct (String.eqb_spec tid id).
Qed.

(** Negating the flag of one task moves the count of done tasks by one. *)
Lemma count_after_toggle (id : string) (tasks : list Task) (t : Task) :
  NoDup (task_id <$> tasks) -> t ∈ tasks -> task_id t = id ->
  length (List.filter task_done
            ((fun t => if String.eqb (task_id t) id
                       then mkTask (task_id t) (task_text t) (negb (task_done t))
                                   (task_reminderTime t)
                       else t) <$> tasks))
  + (if task_done t then 1 else 0)
  = length (List.filter task_done tasks) + (if task_done t then 0 else 1).
Proof.
  intros Hnd Hin Hid. subst id.
  induction tasks as [| x tasks IH]; [by apply elem_of_nil in Hin |].
  rewrite fmap_cons, NoDup_cons in Hnd. destruct Hnd as [Hx Hnd].
  rewrite fmap_cons. cbn [List.filter].
  apply elem_of_cons in Hin as [<- | Hin].
  - rewrite String.eqb_refl. cbn [task_done].
    assert ((fun x => if String.eqb (task_id x) (task_id t)
                      then mkTask (task_id x) (task_text x) (negb (task_done x))
                                  (task_reminderTime x)
                      else x) <$> tasks = tasks) as ->.
    { rewrite <- (list_fmap_id tasks) at 2. apply list_fmap_ext. intros i y Hy. cbn.
      destruct (String.eqb_spec (task_id y) (task_id t)) as [Heq | _]; [| done].
      exfalso. apply Hx. rewrite <- Heq. apply list_elem_of_fmap_2.
      by apply list_elem_of_lookup_2 in Hy. }
    destruct (task_done t); cbn [negb length]; lia.
  - specialize (IH Hnd Hin).
    destruct (String.eqb_spec (task_id x) (task_id t)) as [Heq | _].
    + exfalso. apply Hx. rewrite Heq. by apply list_elem_of_fmap_2.
    + destruct (task_done x); cbn [length]; lia.
Qed.
End Task_facts.

(** X12.  [handleAddTask] ignores a blank text: state and form stay as they
    are.  Otherwise, when the selected date reads as the task list
    [current], the new task (the id of [makeId()], the trimmed text, not
    done, the reminder of the form) goes in front of [current] under the
    selected date, the lists of the other dates read as before, the habits,
    the history and the selected date are untouched, and the form is
    cleared.  When the read of the selected date throws, so does the
    update. *)
Theorem handleAddTask_prepends
    (trim : string -> string) (id : string) (draft : TaskDraft) (st : AppState) :
  single_keys (app_tasksByDate st) ->
  (trim (draft_newTask draft) = ""%string ->
   handleAddTask trim id draft st = Normal (st, draft)) /\
  (trim (draft_newTask draft) <> ""%string ->
   (forall current : list Task,
      tasks_at (app_tasksByDate st) (app_selectedDate st) = Normal current ->
      exists st' : AppState,
        handleAddTask trim id draft st = Normal (st', mkDraft "" "") /\
        tasks_at (app_tasksByDate st') (app_selectedDate st')
          = Normal (mkTask id (trim (draft_newTask draft)) false (draft_newReminder draft)
                      :: current) /\
        (forall date : string, date <> app_selectedDate st ->
           Obj.get date (app_tasksByDate st') = Obj.get date (app_tasksByDate st)) /\
        single_keys (app_tasksByDate st') /\
        app_habits st' = app_habits st /\ app_history st' = app_history st /\
        app_selectedDate st' = app_selectedDate st) /\
   (forall e : js_error,
      tasks_at (app_tasksByDate st) (app_selectedDate st) = Throw e ->
      handleAddTask trim id draft st = Throw e)).
Proof.
  intros Hkeys. unfold handleAddTask. split.
  - intros ->. reflexivity.
  - intros Htext.
    destruct (String.eqb_spec (trim (draft_newTask draft)) "") as [Heq | _]; [done |].
    split.
    + intros current ->. cbn [and_then]. eexists. split; [reflexivity |].
      cbn [with_tasks app_tasksByDate app_selectedDate app_habits app_history].
      split; [apply tasks_at_own, get_spread_set_eq |].
      split; [intros date Hdate; by apply get_spread_set_ne |].
      split; [apply spread_set_single | done].
    + intros e ->. reflexivity.
Qed.

Lemma handleAddTask_prepends_witness :
  single_keys (app_tasksByDate sample_state) /\
  exists st' : AppState,
    handleAddTask ascii_trim "t9" (mkDraft " Water plants " "18:30") sample_state
      = Normal (st', mkDraft "" "") /\
    tasks_at (app_tasksByDate st') (app_selectedDate st')
      = Normal [ mkTask "t9" "Water plants" false "18:30";
                 mkTask "t3" "Call home" false "09:00" ].
Proof.
  assert (single_keys (app_tasksByDate sample_state)) as Hkeys.
  { apply NoDup_ListNoDup. vm_compute.
    repeat (constructor; [cbn; intuition discriminate |]). constructor. }
  split; [exact Hkeys |].
  destruct (proj2 (handleAddTask_prepends ascii_trim "t9"
                     (mkDraft " Water plants " "18:30") sample_state Hkeys))
    as [Hadd _]; [vm_compute; discriminate |].
  destruct (Hadd [mkTask "t3" "Call home" false "09:00"]) as (st' & Hrun & Hread & _);
    [vm_compute; reflexivity |].
  exists st'. split; [exact Hrun | exact Hread].
Defined.

(** X13.  When the selected date reads as the task list [current],
    [toggleTask] negates the flag of the tasks with the id and leaves ids,
    texts, reminder times, order and the other dates alone; toggling the same
    id twice gives back [current]; and when the ids of [current] are pairwise
    distinct, toggling one of its tasks moves [tasksCompleted] by exactly
    one. *)
Theorem toggleTask_flips_flag (id : string) (st : AppState) (current : list Task) :
  single_keys (app_tasksByDate st) ->
  tasks_at (app_tasksByDate st) (app_selectedDate st) = Normal current ->
  exists st1 st2 : AppState,
    toggleTask id st = Normal st1 /\
    toggleTask id st1 = Normal st2 /\
    tasks_at (app_tasksByDate st1) (app_selectedDate st1)
      = Normal ((fun t => if String.eqb (task_id t) id
                          then mkTask (task_id t) (task_text t) (negb (task_done t))
                                      (task_reminderTime t)
                          else t) <$> current) /\
    tasks_at (app_tasksByDate st2) (app_selectedDate st2) = Normal current /\
    (forall date : string, date <> app_selectedDate st ->
       Obj.get date (app_tasksByDate st1) = Obj.get date (app_tasksByDate st) /\
       Obj.get date (app_tasksByDate st2) = Obj.get date (app_tasksByDate st)) /\
    (forall t : Task,
       NoDup (task_id <$> current) -> t ∈ current -> task_id t = id ->
       exists before after : nat,
         tasksCompleted st = Normal before /\ tasksCompleted st1 = Normal after /\
         after + (if task_done t then 1 else 0)
         = before + (if task_done t then 0 else 1)).
Proof.
  intros Hkeys Hread.
  set (flip := fun t => if String.eqb (task_id t) id
                        then mkTask (task_id t) (task_text t) (negb (task_done t))
                                    (task_reminderTime t)
                        else t).
  set (st1 := with_tasks st (Obj.spread_set (app_tasksByDate st) (app_selectedDate st)
                               (flip <$> current))).
  set (st2 := with_tasks st1 (Obj.spread_set (app_tasksByDate st1) (app_selectedDate st1)
                                (flip <$> (flip <$> current)))).
  assert (tasks_at (app_tasksByDate st1) (app_selectedDate st1)
          = Normal (flip <$> current)) as Hread1
    by (apply tasks_at_own, get_spread_set_eq).
  assert (single_keys (app_tasksByDate st1)) as Hkeys1 by apply spread_set_single.
  exists st1, st2. split; [| split; [| split; [| split; [| split]]]].
  - unfold toggleTask. rewrite Hread. reflexivity.
  - unfold toggleTask. rewrite Hread1. reflexivity.
  - exact Hread1.
  - unfold st2. cbn [with_tasks app_tasksByDate app_selectedDate].
    apply tasks_at_own. rewrite get_spread_set_eq. f_equal. apply toggle_twice.
  - intros date Hdate.
    assert (Obj.get date (app_tasksByDate st1) = Obj.get date (app_tasksByDate st)) as H1
      by (by apply get_spread_set_ne).
    split; [exact H1 |]. rewrite <- H1. by apply get_spread_set_ne.
  - intros t Hnd Hin Hid. unfold tasksCompleted. rewrite Hread, Hread1. cbn [and_then].
    eexists _, _. split; [reflexivity |]. split; [reflexivity |].
    by apply count_after_toggle.
Qed.

Lemma toggleTask_flips_flag_witness :
  single_keys (app_tasksByDate sample_state) /\
  tasks_at (app_tasksByDate sample_state) (app_selectedDate sample_state)
    = Normal [mkTask "t3" "Call home" false "09:00"] /\
  exists st1 : AppState,
    toggleTask "t3" sample_state = Normal st1 /\
    tasks_at (app_tasksByDate st1) (app_selectedDate st1)
      = Normal [mkTask "t3" "Call home" true "09:00"].
Proof.
  assert (single_keys (app_tasksByDate sample_state)) as Hkeys.
  { apply NoDup_ListNoDup. vm_compute.
    repeat (constructor; [cbn; intuition discriminate |]). constructor. }
  assert (tasks_at (app_tasksByDate sample_state) (app_selectedDate sample_state)
          = Normal [mkTask "t3" "Call home" false "09:00"]) as Hread
    by (vm_compute; reflexivity).
  split; [exact Hkeys |]. split; [exact Hread |].
  destruct (toggleTask_flips_flag "t3" sample_state _ Hkeys Hread)
    as (st1 & _ & Hrun & _ & Hflip & _).
  exists st1. split; [exact Hrun | exact Hflip].
Defined.

Section Task_edit_facts.

Lemma edit_keeps (id text : string) (tasks : list Task) :
  let edit := fun t => if String.eqb (task_id t) id
                       then mkTask (task_id t) text (task_done t) (task_reminderTime t)
                       else t in
  task_id <$> (edit <$> tasks) = task_id <$> tasks /\
  task_done <$> (edit <$> tasks) = task_done <$> tasks /\
  task_reminderTime <$> (edit <$> tasks) = task_reminderTime <$> tasks /\
  Forall (fun t => if String.eqb (task_id t) id then task_text t = text else t ∈ tasks)
         (edit <$> tasks).
Proof.
  intros edit. rewrite <- !list_fmap_compose.
  split; [| split; [| split]].
  - apply list_fmap_ext. intros i t _. unfold edit. cbn.
    by destruct (String.eqb (task_id t) id).
  - apply list_fmap_ext. intros i t _. unfold edit. cbn.
    by destruct (String.eqb (task_id t) id).
  - apply list_fmap_ext. intros i t _. unfold edit. cbn.
    by destruct (String.eqb (task_id t) id).
  - apply Forall_fmap, Forall_forall. intros t Ht. unfold edit. cbn.
    destruct (String.eqb (task_id t) id) eqn:Heq; cbn [task_id task_text]; by rewrite Heq.
Qed.

Lemma filter_fresh_task (id : string) (tasks : list Task) :
  Forall (fun t => task_id t <> id) tasks ->
  List.filter (fun t => negb (String.eqb (task_id t) id)) tasks = tasks.
Proof.
  induction 1 as [| t tasks Ht _ IH]; [done |]. cbn [List.filter].
  destruct (String.eqb_spec (task_id t) id) as [Heq | _]; [done |].
  cbn [negb]. by rewrite IH.
Qed.
End Task_edit_facts.

(** X14.  [editTask] changes nothing when the selected date has no task
    with the id, when the dialog is cancelled, or when the answer is blank
    after trimming.  Otherwise the tasks with the id carry the trimmed answer
    as text; ids, done flags, reminder times and order of the list are as
    before, the tasks with another id are untouched, and so are the other
    dates. *)
Theorem editTask_changes_text_only
    (trim : string -> string) (window_prompt : string -> string -> option string)
    (id : string) (st : AppState) (current : list Task) :
  single_keys (app_tasksByDate st) ->
  tasks_at (app_tasksByDate st) (app_selectedDate st) = Normal current ->
  match List.find (fun t => String.eqb (task_id t) id) current with
  | None => editTask trim window_prompt id st = Normal st
  | Some found =>
      match window_prompt "Edit task" (task_text found) with
      | None => editTask trim window_prompt id st = Normal st
      | Some updated =>
          if String.eqb (trim updated) ""
          then editTask trim window_prompt id st = Normal st
          else
            exists (st' : AppState) (edited : list Task),
              editTask trim window_prompt id st = Normal st' /\
              tasks_at (app_tasksByDate st') (app_selectedDate st') = Normal edited /\
              task_id <$> edited = task_id <$> current /\
              task_done <$> edited = task_done <$> current /\
              task_reminderTime <$> edited = task_reminderTime <$> current /\
              Forall (fun t => if String.eqb (task_id t) id
                               then task_text t = trim updated else t ∈ current)
                     edited /\
              (forall date : string, date <> app_selectedDate st ->
                 Obj.get date (app_tasksByDate st') = Obj.get date (app_tasksByDate st))
      end
  end.
Proof.
  intros Hkeys Hread. unfold editTask. rewrite Hread. cbn [and_then].
  destruct (List.find _ current) as [found |]; [| done].
  destruct (window_prompt _ _) as [updated |]; [| done].
  destruct (String.eqb (trim updated) ""); [done |].
  destruct (edit_keeps id (trim updated) current) as (Hids & Hdone & Htimes & Htexts).
  eexists _, _. split; [reflexivity |].
  cbn [with_tasks app_tasksByDate app_selectedDate].
  split; [apply tasks_at_own, get_spread_set_eq |].
  split; [exact Hids |]. split; [exact Hdone |]. split; [exact Htimes |].
  split; [exact Htexts |]. intros date Hdate. by apply get_spread_set_ne.
Qed.

Lemma editTask_changes_text_only_witness :
  single_keys (app_tasksByDate sample_state) /\
  tasks_at (app_tasksByDate sample_state) (app_selectedDate sample_state)
    = Normal [mkTask "t3" "Call home" false "09:00"] /\
  exists (st' : AppState) (edited : list Task),
    editTask ascii_trim (sample_prompt (Some " Call mum ")) "t3" sample_state
      = Normal st' /\
    tasks_at (app_tasksByDate st') (app_selectedDate st') = Normal edited /\
    Forall (fun t => if String.eqb (task_id t) "t3"
                     then task_text t = "Call mum"%string
                     else t ∈ [mkTask "t3" "Call home" false "09:00"])
           edited.
Proof.
  assert (single_keys (app_tasksByDate sample_state)) as Hkeys.
  { apply NoDup_ListNoDup. vm_compute.
    repeat (constructor; [cbn; intuition discriminate |]). constructor. }
  assert (tasks_at (app_tasksByDate sample_state) (app_selectedDate sample_state)
          = Normal [mkTask "t3" "Call home" false "09:00"]) as Hread
    by (vm_compute; reflexivity).
  split; [exact Hkeys |]. split; [exact Hread |].
  pose proof (editTask_changes_text_only ascii_trim (sample_prompt (Some " Call mum "))
                "t3" sample_state _ Hkeys Hread) as Hedit.
  cbn in Hedit. destruct Hedit as (st' & edited & Hrun & Hlist & _ & _ & _ & Htexts & _).
  exists st', edited. split; [exact Hrun |]. split; [exact Hlist | exact Htexts].
Defined.

(** X15.  [deleteTask] removes from the selected date the tasks with the
    id, all of them and no other, and leaves the other dates as they read.
    So deleting a task right after [handleAddTask] added it, under an id that
    no task of the date had, gives back the list of before. *)
Theorem deleteTask_undoes_handleAddTask
    (trim : string -> string) (id : string) (draft : TaskDraft) (st : AppState)
    (current : list Task) :
  single_keys (app_tasksByDate st) ->
  tasks_at (app_tasksByDate st) (app_selectedDate st) = Normal current ->
  Obj.get (app_selectedDate st) (app_tasksByDate (deleteTask id st))
    = Some (List.filter (fun t => negb (String.eqb (task_id t) id)) current) /\
  (forall date : string, date <> app_selectedDate st ->
     Obj.get date (app_tasksByDate (deleteTask id st))
     = Obj.get date (app_tasksByDate st)) /\
  (trim (draft_newTask draft) <> ""%string ->
   Forall (fun t => task_id t <> id) current ->
   exists st' : AppState,
     handleAddTask trim id draft st = Normal (st', mkDraft "" "") /\
     tasks_at (app_tasksByDate (deleteTask id st')) (app_selectedDate st)
       = Normal current /\
     forall date : string, date <> app_selectedDate st ->
       Obj.get date (app_tasksByDate (deleteTask id st'))
       = Obj.get date (app_tasksByDate st)).
Proof.
  intros Hkeys Hread. split; [| split].
  - cbn [deleteTask app_tasksByDate]. rewrite get_spread_set_eq.
    by rewrite (tasks_at_read _ _ _ Hread).
  - intros date Hdate. cbn [deleteTask app_tasksByDate]. by apply get_spread_set_ne.
  - intros Htext Hfresh. unfold handleAddTask.
    destruct (String.eqb_spec (trim (draft_newTask draft)) "") as [Heq | _]; [done |].
    rewrite Hread. cbn [and_then]. eexists. split; [reflexivity |].
    cbn [deleteTask with_tasks app_tasksByDate app_selectedDate]. split.
    + apply tasks_at_own. rewrite !get_spread_set_eq. f_equal.
      cbn [from_option Datatypes.id List.filter task_id].
      rewrite String.eqb_refl. cbn [negb].
      by apply filter_fresh_task.
    + intros date Hdate.
      rewrite get_spread_set_ne; [by apply get_spread_set_ne | apply spread_set_single | done].
Qed.

Lemma deleteTask_undoes_handleAddTask_witness :
  single_keys (app_tasksByDate sample_state) /\
  tasks_at (app_tasksByDate sample_state) (app_selectedDate sample_state)
    = Normal [mkTask "t3" "Call home" false "09:00"] /\
  Obj.get (app_selectedDate sample_state)
          (app_tasksByDate (deleteTask "t3" sample_state)) = Some [].
Proof.
  assert (single_keys (app_tasksByDate sample_state)) as Hkeys.
  { apply NoDup_ListNoDup. vm_compute.
    repeat (constructor; [cbn; intuition discriminate |]). constructor. }
  assert (tasks_at (app_tasksByDate sample_state) (app_selectedDate sample_state)
          = Normal [mkTask "t3" "Call home" false "09:00"]) as Hread
    by (vm_compute; reflexivity).
  split; [exact Hkeys |]. split; [exact Hread |].
  exact (proj1 (deleteTask_undoes_handleAddTask ascii_trim "t3" (mkDraft "" "")
                  sample_state _ Hkeys Hread)).
Defined.

(** X16.  [handleDateChange] ignores an empty value.  For another value
    that reads as the task list [current] (the empty list when the date has
    none yet), the value becomes the selected date and reads as [current]
    afterwards, every other date reads as before, and habits and history
    are untouched: changing the date never drops a task.  The one value the
    model has no snapshot for is one that reads a member of
    [Object.prototype]. *)
Theorem handleDateChange_keeps_tasks (value : string) (st : AppState) :
  single_keys (app_tasksByDate st) ->
  handleDateChange "" st = Some st /\
  (value <> ""%string ->
   (forall current : list Task,
      tasks_at (app_tasksByDate st) value = Normal current ->
      exists st' : AppState,
        handleDateChange value st = Some st' /\
        app_selectedDate st' = value /\
        Obj.get value (app_tasksByDate st') = Some current /\
        (forall date : string, date <> value ->
           Obj.get date (app_tasksByDate st') = Obj.get date (app_tasksByDate st)) /\
        single_keys (app_tasksByDate st') /\
        app_habits st' = app_habits st /\ app_history st' = app_history st) /\
   (handleDateChange value st = None <->
    tasks_at (app_tasksByDate st) value = Throw TypeError)).
Proof.
  intros Hkeys. split; [reflexivity |]. intros Hvalue. unfold handleDateChange, tasks_at.
  destruct (String.eqb_spec value "") as [Heq | _]; [done |].
  destruct (Obj.get value (app_tasksByDate st)) as [list |] eqn:Hget.
  - split; [| split; discriminate].
    intros current [= <-]. eexists. split; [reflexivity |].
    cbn [app_selectedDate app_tasksByDate app_habits app_history].
    split; [done |]. split; [apply get_spread_set_eq |].
    split; [intros date Hdate; by apply get_spread_set_ne |].
    split; [apply spread_set_single | done].
  - destruct (bool_decide (value ∈ Object_prototype_names)).
    + split; [discriminate | done].
    + split; [| split; discriminate].
      intros current [= <-]. eexists. split; [reflexivity |].
      cbn [app_selectedDate app_tasksByDate app_habits app_history].
      split; [done |]. split; [apply get_spread_set_eq |].
      split; [intros date Hdate; by apply get_spread_set_ne |].
      split; [apply spread_set_single | done].
Qed.

Lemma handleDateChange_keeps_tasks_witness :
  single_keys (app_tasksByDate sample_state) /\
  exists st' : AppState,
    handleDateChange "2023-11-20" sample_state = Some st' /\
    app_selectedDate st' = "2023-11-20"%string /\
    Obj.get "2023-11-20" (app_tasksByDate st') = Some [] /\
    Obj.get "2023-11-15" (app_tasksByDate st')
      = Some [mkTask "t3" "Call home" false "09:00"].
Proof.
  assert (single_keys (app_tasksByDate sample_state)) as Hkeys.
  { apply NoDup_ListNoDup. vm_compute.
    repeat (constructor; [cbn; intuition discriminate |]). constructor. }
  split; [exact Hkeys |].
  destruct (handleDateChange_keeps_tasks "2023-11-20" sample_state Hkeys)
    as [_ Hchange].
  destruct (Hchange ltac:(discriminate)) as [Hkeep _].
  destruct (Hkeep [] ltac:(vm_compute; reflexivity))
    as (st' & Hrun & Hdate & Hnew & Hother & _).
  exists st'. split; [exact Hrun |]. split; [exact Hdate |]. split; [exact Hnew |].
  rewrite Hother by discriminate. vm_compute. reflexivity.
Defined.

(** ** Delays and delivery of reminders *)
Section Delay_facts.
Variable Date_getTime : string -> option Z.

Lemma timers_from_elim (now : Z) (l : list (string * Task)) :
  forall (id : nat) (t : Timer),
  t ∈ timers_from Date_getTime now id l ->
  exists dt : string * Task,
    dt ∈ l /\ timer_task t = snd dt /\
    timer_delay t = delay_of Date_getTime now (fst dt) (snd dt).
Proof.
  induction l as [| dt l IH]; intros id t; cbn [timers_from].
  - by rewrite elem_of_nil.
  - rewrite elem_of_cons. intros [-> | Hin].
    + exists dt. split; [apply elem_of_cons; by left | done].
    + destruct (IH _ _ Hin) as (dt' & Hdt' & Htask & Hdelay).
      exists dt'. split; [apply elem_of_cons; by right | done].
Qed.

Lemma timers_from_intro (now : Z) (l : list (string * Task)) (dt : string * Task) :
  dt ∈ l ->
  forall id : nat,
  exists id' : nat,
    mkTimer id' (snd dt) (delay_of Date_getTime now (fst dt) (snd dt))
      ∈ timers_from Date_getTime now id l.
Proof.
  induction l as [| x l IH]; [by rewrite elem_of_nil |].
  rewrite elem_of_cons. intros [-> | Hin] id; cbn [timers_from].
  - exists id. apply elem_of_cons. by left.
  - destruct (IH Hin (S id)) as (id' & Hid'). exists id'. apply elem_of_cons. by right.
Qed.

Lemma schedulable_delay (now : Z) (dt : string * Task) :
  schedulable Date_getTime now dt = true ->
  task_reminderTime (snd dt) <> ""%string /\
  match delay_of Date_getTime now (fst dt) (snd dt) with
  | Some delay => (0 < delay)%Z
  | None => True
  end.
Proof.
  unfold schedulable. intros [Htime Hdue]%andb_prop. split.
  - intros Heq. by rewrite Heq in Htime.
  - destruct (delay_of Date_getTime now (fst dt) (snd dt)) as [delay |]; [| done].
    cbn [not_due_later] in Hdue. destruct (Z.leb_spec delay 0); [done | lia].
Qed.
End Delay_facts.

(** X17.  After [scheduleReminders], from a state in which the registry
    knows every pending action, every pending action belongs to a task with a
    reminder time and has a delay above zero or the delay [NaN]; none has a
    delay at or below zero.  The delay [NaN] is not skipped: a task whose
    reminder time is set but whose date and time do not parse gets an action
    with that delay.  Whether a task gets an action does not depend on its
    [done] flag: a task that is done is scheduled like one that is not. *)
Theorem scheduleReminders_delays
    (Date_getTime : string -> option Z) (tasksByDate : Obj.t (list Task))
    (now : Z) (w : World) :
  tracked w ->
  (forall t : Timer,
     t ∈ pending (scheduleReminders Date_getTime tasksByDate now w) ->
     task_reminderTime (timer_task t) <> ""%string /\
     match timer_delay t with
     | Some delay => (0 < delay)%Z
     | None => True
     end) /\
  (forall (date : string) (task : Task),
     (date, task) ∈ visited tasksByDate ->
     task_reminderTime task <> ""%string ->
     Date_getTime (date +:+ "T" +:+ task_reminderTime task) = None ->
     exists id : nat,
       mkTimer id task None ∈ pending (scheduleReminders Date_getTime tasksByDate now w)) /\
  (forall (date id text reminderTime : string),
     schedulable Date_getTime now (date, mkTask id text true reminderTime)
     = schedulable Date_getTime now (date, mkTask id text false reminderTime)).
Proof.
  intros Htracked.
  destruct (scheduleReminders_spec Date_getTime tasksByDate now w Htracked)
    as (Hp & _). cbn zeta in Hp. rewrite Hp. split; [| split; [| reflexivity]].
  - intros t Ht. apply timers_from_elim in Ht as (dt & Hdt & -> & ->).
    apply list_elem_of_In, filter_In in Hdt as [_ Hdt]. by apply schedulable_delay.
  - intros date task Hin Htime Hnan.
    assert ((date, task) ∈ List.filter (schedulable Date_getTime now) (visited tasksByDate))
      as Hkept.
    { apply list_elem_of_In, filter_In. split; [by apply list_elem_of_In |].
      by apply schedulable_invalid_date. }
    destruct (timers_from_intro Date_getTime now _ _ Hkept (next_timer w)) as (id & Hid).
    exists id. cbn [fst snd] in Hid. unfold delay_of in Hid at 1. by rewrite Hnan in Hid.
Qed.

Lemma scheduleReminders_delays_witness :
  tracked initial_world /\
  exists id : nat,
    mkTimer id (mkTask "t7" "Stretch" false "8 o'clock") None
      ∈ pending (scheduleReminders sample_getTime
                   [("2023-11-15"%string, [mkTask "t7" "Stretch" false "8 o'clock"])]
                   1700000000000 initial_world).
Proof.
  assert (tracked initial_world) as Htracked by constructor.
  split; [exact Htracked |].
  apply (proj1 (proj2 (scheduleReminders_delays sample_getTime
                         [("2023-11-15"%string, [mkTask "t7" "Stretch" false "8 o'clock"])]
                         1700000000000 initial_world Htracked)) "2023-11-15"%string).
  - vm_compute. apply elem_of_cons. by left.
  - discriminate.
  - reflexivity.
Defined.

(** X18.  [triggerReminder] delivers at most once, and what it delivers
    carries the text of the task.  It shows a notification only when the
    host has the interface and the permission is granted, at the call or by
    the answer to the request it makes when the permission is undecided;
    in every other case the user gets the alert, except when that request
    never settles: then nothing is delivered. *)
Theorem triggerReminder_delivers_once (window : Host) (task : Task) :
  length (triggerReminder window task) <= 1 /\
  (forall d : Delivery, d ∈ triggerReminder window task ->
     d = Notified "Task reminder" (task_text task) \/
     d = Alerted ("Reminder: " +:+ task_text task)) /\
  (Notified "Task reminder" (task_text task) ∈ triggerReminder window task <->
   has_Notification window = true /\
   (Notification_permission window = granted \/
    (Notification_permission window = undecided /\
     requestPermission window = Some granted))) /\
  (triggerReminder window task = [] <->
   has_Notification window = true /\ Notification_permission window = undecided /\
   requestPermission window = None).
Proof.
  destruct window as [[|] [| |] [[| |] |]]; cbn;
    (split; [lia |]); (split; [intros d Hd; apply list_elem_of_In in Hd; cbn in Hd;
                                intuition auto |]);
    rewrite ?list_elem_of_singleton, ?elem_of_nil;
    (split; split; intros; intuition (discriminate || auto)).
Qed.

(** ** The account and read endpoints *)
Section Server_facts.
Variable ObjectId : nat -> string.

Lemma create_seed (mobile today today' : string) (store : gmap string UserData) :
  store !! mobile = None ->
  create ObjectId (seed mobile today today') store
  = Done (<[mobile := seed_document ObjectId mobile today today']> store,
          seed_document ObjectId mobile today today').
Proof.
  intros Hnone. unfold create, cast_document, seed.
  cbn [update_habits update_mobile update_history update_tasksByDate DEFAULT_HABITS_json].
  by rewrite cast_DEFAULT_HABITS, Hnone.
Qed.

Lemma signup_text (today today' mobile : string) (body : option json)
    (store : gmap string UserData) :
  property (body_or_empty body) "mobile" = Some (JStr mobile) -> mobile <> ""%string ->
  post_auth_signup ObjectId today today' body store
  = match store !! mobile with
    | Some existing => Some (store, mkAuth 200 (AuthMobile mobile))
    | None => Some (<[mobile := seed_document ObjectId mobile today today']> store,
                    mkAuth 201 (AuthMobile mobile))
    end.
Proof.
  intros Hbody Hmobile. unfold post_auth_signup. rewrite Hbody. cbn [truthy].
  destruct (String.eqb_spec mobile "") as [Heq | _]; [done |]. cbn [negb].
  destruct (store !! mobile) as [existing |] eqn:Hstore; [done |].
  by rewrite create_seed.
Qed.

Lemma login_text (mobile : string) (body : option json) (store : gmap string UserData) :
  property (body_or_empty body) "mobile" = Some (JStr mobile) -> mobile <> ""%string ->
  post_auth_login body store
  = match store !! mobile with
    | Some doc => Some (store, mkAuth 200 (AuthMobile mobile))
    | None => Some (store, mkAuth 404 (AuthError "User not found"))
    end.
Proof.
  intros Hbody Hmobile. unfold post_auth_login. rewrite Hbody. cbn [truthy].
  by destruct (String.eqb_spec mobile "") as [Heq | _].
Qed.

Lemma get_known (today today' mobile : string) (doc : UserData)
    (store : gmap string UserData) :
  mobile <> ""%string -> store !! mobile = Some doc ->
  get_api_data ObjectId today today' (Some mobile) store
  = Some (store,
          mkResponse 200 (Data (doc_habits doc) (doc_history doc) (doc_tasksByDate doc))).
Proof.
  intros Hmobile Hdoc. unfold get_api_data. rewrite Hdoc.
  by destruct (String.eqb_spec mobile "").
Qed.

Lemma get_unknown (today today' mobile : string) (store : gmap string UserData) :
  mobile <> ""%string -> store !! mobile = None ->
  get_api_data ObjectId today today' (Some mobile) store
  = Some (<[mobile := seed_document ObjectId mobile today today']> store,
          mkResponse 200 (Data (default_docs ObjectId)
                               (JObj [(today, JObj [("habits"%string, JObj [])])])
                               (JObj [(today', JArr [])]))).
Proof.
  intros Hmobile Hnone. unfold get_api_data. rewrite Hnone.
  destruct (String.eqb_spec mobile "") as [Heq | _]; [done |].
  by rewrite create_seed.
Qed.

Lemma truthy_or_empty (v : option json) : truthy (or_empty v) = true.
Proof. destruct v as [v |]; [| done]. cbn. by destruct (truthy v) eqn:Hv. Qed.

Lemma or_empty_truthy (v : json) : truthy v = true -> or_empty (Some v) = v.
Proof. intros Hv. cbn. by rewrite Hv. Qed.

(** What the cast stores has, under each [_id], the text of an
    [ObjectId], when the fresh ids are such texts. *)
Lemma cast_habits_ids (items : list json) :
  (forall i : nat, is_ObjectId (ObjectId i) = true) ->
  forall (index : nat) (docs : list HabitDoc),
  cast_habits ObjectId index items = Done docs ->
  Forall (fun doc => is_ObjectId (stored__id doc) = true) docs /\
  length docs = length items.
Proof.
  intros Hfresh. induction items as [| v items IH]; intros index docs; cbn [cast_habits].
  - by intros [= <-].
  - destruct (cast_habit (ObjectId index) v) as [doc | |] eqn:Hdoc; try done.
    destruct (cast_habits ObjectId (S index) items) as [rest | |] eqn:Hrest; try done.
    intros [= <-]. destruct (IH _ _ Hrest) as [Hids Hlen].
    split; [| cbn [length]; by rewrite Hlen].
    apply Forall_cons. split; [| exact Hids].
    unfold cast_habit in Hdoc.
    destruct v as [| b | q | s | elements | fields]; try done;
      [by destruct (String.eqb s "") |].
    destruct (cast_String (property (JObj fields) "id")) as [id |]; [| done].
    destruct (cast_String (property (JObj fields) "label")) as [label |]; [| done].
    destruct (cast_ObjectId (ObjectId index) (property (JObj fields) "_id"))
      as [oid |] eqn:Hoid; [| done].
    injection Hdoc as <-. cbn [stored__id]. unfold cast_ObjectId in Hoid.
    destruct (property (JObj fields) "_id") as [[| | | given | |] |]; try done.
    + destruct (is_ObjectId given) eqn:Hgiven; [| done]. by injection Hoid as <-.
    + injection Hoid as <-. apply Hfresh.
Qed.
End Server_facts.

Section Resave_facts.

(** A stored habit that is sent back is cast to itself. *)
Lemma cast_habit_stored (fresh : string) (doc : HabitDoc) :
  is_ObjectId (stored__id doc) = true ->
  cast_habit fresh (json_of_habit_doc doc) = Done doc.
Proof.
  destruct doc as [[id |] [label |] oid]; cbn [stored__id]; intros Hoid;
    unfold cast_habit, json_of_habit_doc; cbn; by rewrite Hoid.
Qed.

Lemma cast_habits_stored (ObjectId : nat -> string) (docs : list HabitDoc) :
  Forall (fun doc => is_ObjectId (stored__id doc) = true) docs ->
  forall index : nat,
  cast_habits ObjectId index (json_of_habit_doc <$> docs) = Done docs.
Proof.
  induction 1 as [| doc docs Hdoc _ IH]; intros index; [done |].
  rewrite fmap_cons. cbn [cast_habits]. by rewrite (cast_habit_stored _ _ Hdoc), IH.
Qed.

(** What the client reads of a habit it made, once stored. *)
Lemma habit_of_stored (ObjectId : nat -> string) (index : nat) (h : Habit) :
  habit_of_json (json_of_habit_doc (stored_as ObjectId index (habit_json h))) = Some h.
Proof. by destruct h as [id label]. Qed.

Lemma habit_json_object (h : Habit) : habit_object (habit_json h) = true.
Proof. reflexivity. Qed.

Lemma sample_ObjectId_text (i : nat) : is_ObjectId (sample_ObjectId i) = true.
Proof.
  unfold sample_ObjectId. pose proof (Nat.mod_upper_bound i 16 ltac:(lia)) as Hlt.
  generalize dependent (i mod 16)%nat. intros d Hlt.
  do 16 (destruct d as [| d]; [reflexivity |]). lia.
Qed.
End Resave_facts.

(** X19.  [POST /api/auth/signup] with a nonempty string as [mobile]
    creates the account once.  For an identity without a document it stores
    the seed document (the seven default habits, an empty entry for today, an
    empty task list for today) and answers 201; for an identity that has a
    document it answers 200 and stores nothing, so the data of an existing
    user is never overwritten.  The documents of other identities are
    untouched, a second signup answers 200 and changes nothing, and a login
    with the same body then answers 200. *)
Theorem post_auth_signup_creates_once
    (ObjectId ObjectId' : nat -> string) (today today' later later' mobile : string)
    (body : option json) (store : gmap string UserData) :
  property (body_or_empty body) "mobile" = Some (JStr mobile) ->
  mobile <> ""%string ->
  exists (store' : gmap string UserData) (status : nat),
    post_auth_signup ObjectId today today' body store
      = Some (store', mkAuth status (AuthMobile mobile)) /\
    (store !! mobile = None ->
     status = 201 /\
     store' !! mobile = Some (seed_document ObjectId mobile today today')) /\
    (forall doc : UserData, store !! mobile = Some doc -> status = 200 /\ store' = store) /\
    (forall other : string, other <> mobile -> store' !! other = store !! other) /\
    post_auth_signup ObjectId' later later' body store'
      = Some (store', mkAuth 200 (AuthMobile mobile)) /\
    post_auth_login body store' = Some (store', mkAuth 200 (AuthMobile mobile)).
Proof.
  intros Hbody Hmobile.
  rewrite (signup_text ObjectId today today' mobile body store Hbody Hmobile).
  destruct (store !! mobile) as [existing |] eqn:Hstore.
  - exists store, 200. split; [reflexivity |]. split; [done |].
    split; [by intros doc _ |]. split; [done |].
    rewrite (signup_text ObjectId' later later' mobile body store Hbody Hmobile), Hstore.
    rewrite (login_text mobile body store Hbody Hmobile), Hstore. done.
  - exists (<[mobile := seed_document ObjectId mobile today today']> store), 201.
    split; [reflexivity |]. split; [intros _; by rewrite lookup_insert_eq |].
    split; [done |]. split; [intros other Hother; by rewrite lookup_insert_ne |].
    rewrite (signup_text ObjectId' later later' mobile body _ Hbody Hmobile),
      lookup_insert_eq.
    rewrite (login_text mobile body _ Hbody Hmobile), lookup_insert_eq. done.
Qed.

Lemma post_auth_signup_creates_once_witness :
  let body := Some (JObj [("mobile"%string, JStr "9876543210")]) in
  property (body_or_empty body) "mobile" = Some (JStr "9876543210") /\
  "9876543210"%string <> ""%string /\
  exists store' : gmap string UserData,
    post_auth_signup sample_ObjectId "2023-11-14" "2023-11-14" body ∅
      = Some (store', mkAuth 201 (AuthMobile "9876543210")) /\
    post_auth_login body store' = Some (store', mkAuth 200 (AuthMobile "9876543210")).
Proof.
  intros body.
  assert (property (body_or_empty body) "mobile" = Some (JStr "9876543210")) as Hbody
    by reflexivity.
  assert ("9876543210"%string <> ""%string) as Hmobile by discriminate.
  split; [exact Hbody |]. split; [exact Hmobile |].
  destruct (post_auth_signup_creates_once
              sample_ObjectId sample_ObjectId
              "2023-11-14" "2023-11-14" "2023-11-15" "2023-11-15" "9876543210" body ∅
              Hbody Hmobile)
    as (store' & status & Hrun & Hnew & _ & _ & _ & Hlogin).
  destruct (Hnew ltac:(apply lookup_empty)) as [-> _].
  exists store'. split; [exact Hrun | exact Hlogin].
Defined.

(** X20.  [POST /api/auth/login] never changes the store.  With a nonempty
    string as [mobile] it answers 200 when the identity has a document and
    404 when it has none.  Both account endpoints answer 400, and store
    nothing, when [mobile] is missing or falsy (the empty string, [null],
    [false], zero), the body itself missing included. *)
Theorem post_auth_login_reads_only (body : option json) (store : gmap string UserData) :
  (forall (store' : gmap string UserData) (response : AuthResponse),
     post_auth_login body store = Some (store', response) -> store' = store) /\
  (forall mobile : string,
     property (body_or_empty body) "mobile" = Some (JStr mobile) ->
     mobile <> ""%string ->
     post_auth_login body store
     = Some (store,
             if bool_decide (is_Some (store !! mobile))
             then mkAuth 200 (AuthMobile mobile)
             else mkAuth 404 (AuthError "User not found"))) /\
  (forall (ObjectId : nat -> string) (today today' : string),
     match property (body_or_empty body) "mobile" with
     | Some v => truthy v = false
     | None => True
     end ->
     post_auth_login body store
       = Some (store, mkAuth 400 (AuthError "Mobile is required")) /\
     post_auth_signup ObjectId today today' body store
       = Some (store, mkAuth 400 (AuthError "Mobile is required"))).
Proof.
  split; [| split].
  - intros store' response. unfold post_auth_login.
    destruct (property (body_or_empty body) "mobile") as [v |]; [| by intros [= <- _]].
    destruct (truthy v); cbn [negb]; [| by intros [= <- _]].
    destruct v as [| b | q | mobile | items | fields]; try done.
    destruct (store !! mobile); by intros [= <- _].
  - intros mobile Hbody Hmobile. rewrite (login_text mobile body store Hbody Hmobile).
    destruct (store !! mobile) as [doc |] eqn:Hdoc.
    + by rewrite bool_decide_eq_true_2.
    + rewrite bool_decide_eq_false_2; [done |]. by intros [doc Hdoc'].
  - intros ObjectId today today'. unfold post_auth_login, post_auth_signup.
    destruct (property (body_or_empty body) "mobile") as [v |]; [| done].
    by intros ->.
Qed.

(** X21.  [GET /api/data] with an identity answers 200 with the document
    of the identity.  A document that exists is returned as it is and the
    store is left alone.  For an identity without a document the handler
    stores the seed document and returns it as the collection holds it, the
    seven default habits each with its [_id]: the read creates the account,
    and a login that follows answers 200 although nobody signed up.  The
    documents of other identities are untouched, and a second read returns
    the same answer and stores nothing.  Without the identity header, or
    with an empty one, the answer is 401 and nothing is stored. *)
Theorem get_api_data_seeds_unknown
    (ObjectId ObjectId' : nat -> string) (today today' later later' mobile : string)
    (store : gmap string UserData) :
  mobile <> ""%string ->
  exists (store' : gmap string UserData) (doc : UserData),
    get_api_data ObjectId today today' (Some mobile) store
      = Some (store', mkResponse 200
                        (Data (doc_habits doc) (doc_history doc) (doc_tasksByDate doc))) /\
    store' !! mobile = Some doc /\
    (forall known : UserData, store !! mobile = Some known -> doc = known /\ store' = store) /\
    (store !! mobile = None ->
     doc = mkUserData mobile
             (imap (fun i h => mkHabitDoc (Some (habit_id h)) (Some (habit_label h))
                                          (ObjectId i))
                   DEFAULT_HABITS)
             (JObj [(today, JObj [("habits"%string, JObj [])])])
             (JObj [(today', JArr [])])) /\
    (forall other : string, other <> mobile -> store' !! other = store !! other) /\
    post_auth_login (Some (JObj [("mobile"%string, JStr mobile)])) store'
      = Some (store', mkAuth 200 (AuthMobile mobile)) /\
    get_api_data ObjectId' later later' (Some mobile) store'
      = Some (store', mkResponse 200
                        (Data (doc_habits doc) (doc_history doc) (doc_tasksByDate doc))) /\
    get_api_data ObjectId today today' None store
      = Some (store, mkResponse 401 (Error "Missing mobile header")) /\
    get_api_data ObjectId today today' (Some ""%string) store
      = Some (store, mkResponse 401 (Error "Missing mobile header")).
Proof.
  intros Hmobile.
  assert (forall store' : gmap string UserData,
            post_auth_login (Some (JObj [("mobile"%string, JStr mobile)])) store'
            = match store' !! mobile with
              | Some doc => Some (store', mkAuth 200 (AuthMobile mobile))
              | None => Some (store', mkAuth 404 (AuthError "User not found"))
              end) as Hlogin
    by (intros store'; by apply login_text).
  destruct (store !! mobile) as [known |] eqn:Hstore.
  - exists store, known.
    rewrite (get_known ObjectId today today' mobile known store Hmobile Hstore).
    split; [reflexivity |]. split; [exact Hstore |].
    split; [by intros ? [= <-] |]. split; [done |]. split; [done |].
    rewrite Hlogin, Hstore. split; [reflexivity |].
    split; [by apply get_known | done].
  - exists (<[mobile := seed_document ObjectId mobile today today']> store),
           (seed_document ObjectId mobile today today').
    rewrite (get_unknown ObjectId today today' mobile store Hmobile Hstore).
    split; [reflexivity |]. split; [apply lookup_insert_eq |].
    split; [done |]. split; [done |].
    split; [intros other Hother; by rewrite lookup_insert_ne |].
    rewrite Hlogin, lookup_insert_eq. split; [reflexivity |].
    split; [apply get_known; [done | apply lookup_insert_eq] | done].
Qed.

Lemma get_api_data_seeds_unknown_witness :
  "9876543210"%string <> ""%string /\
  exists store' : gmap string UserData,
    get_api_data sample_ObjectId "2023-11-14" "2023-11-14" (Some "9876543210"%string) ∅
      = Some (store',
              mkResponse 200
                (Data [ mkHabitDoc (Some "wake"%string) (Some "Wake up early"%string)
                                   "65a1f0c2b3d4e5f6a7b8c9d0";
                        mkHabitDoc (Some "exercise"%string) (Some "Exercise"%string)
                                   "65a1f0c2b3d4e5f6a7b8c9d1";
                        mkHabitDoc (Some "study"%string)
                                   (Some "Study / Learn new skill"%string)
                                   "65a1f0c2b3d4e5f6a7b8c9d2";
                        mkHabitDoc (Some "problems"%string) (Some "2 problems a day"%string)
                                   "65a1f0c2b3d4e5f6a7b8c9d3";
                        mkHabitDoc (Some "water"%string) (Some "Drink enough water"%string)
                                   "65a1f0c2b3d4e5f6a7b8c9d4";
                        mkHabitDoc (Some "meditate"%string) (Some "Meditation"%string)
                                   "65a1f0c2b3d4e5f6a7b8c9d5";
                        mkHabitDoc (Some "read"%string) (Some "Reading"%string)
                                   "65a1f0c2b3d4e5f6a7b8c9d6" ]
                      (JObj [("2023-11-14"%string, JObj [("habits"%string, JObj [])])])
                      (JObj [("2023-11-14"%string, JArr [])]))) /\
    post_auth_login (Some (JObj [("mobile"%string, JStr "9876543210")])) store'
      = Some (store', mkAuth 200 (AuthMobile "9876543210")).
Proof.
  assert ("9876543210"%string <> ""%string) as Hmobile by discriminate.
  split; [exact Hmobile |].
  destruct (get_api_data_seeds_unknown
              sample_ObjectId sample_ObjectId
              "2023-11-14" "2023-11-14" "2023-11-15" "2023-11-15" "9876543210" ∅ Hmobile)
    as (store' & doc & Hrun & _ & _ & Hseed & _ & Hlogin & _).
  rewrite (Hseed ltac:(apply lookup_empty)) in Hrun.
  exists store'. split; [exact Hrun | exact Hlogin].
Defined.

(** X22.  When [POST /api/data] answers for an identity, it answers 200
    or 500.  After 200, [GET /api/data] for the same identity answers the
    same and stores nothing; and when the fresh ids are texts of
    [ObjectId]s, sending the three fields of the answer back in a second
    [POST] stores the same document again: the habits keep their [_id]s and
    the defaults that the first request filled in are kept, not filled in
    twice.  After 500 the store is as it was. *)
Theorem post_then_get_api_data
    (ObjectId ObjectId' ObjectId'' : nat -> string) (today today' mobile : string)
    (body : option json) (store store' : gmap string UserData) (response : Response) :
  mobile <> ""%string ->
  post_api_data ObjectId (Some mobile) body store = Some (store', response) ->
  (res_status response = 200 /\
   get_api_data ObjectId' today today' (Some mobile) store' = Some (store', response) /\
   ((forall i : nat, is_ObjectId (ObjectId i) = true) ->
    post_api_data ObjectId'' (Some mobile) (body_of (res_payload response)) store'
    = Some (store', response))) \/
  (response = mkResponse 500 (Error "Failed to save data") /\ store' = store).
Proof.
  intros Hmobile.
  assert (exists items : list json,
            update_habits (update_of mobile body) = JArr items /\ items <> [])
    as (items & Hitems & Hne).
  { rewrite update_of_habits.
    destruct (field body "habits") as [[| | | | [| first rest] |] |]; by eexists. }
  rewrite (post_api_data_cast ObjectId mobile body store _ Hmobile Hitems).
  destruct (cast_habits ObjectId 0 items) as [docs | |] eqn:Hdocs; [| | done].
  - intros [= <- <-]. left. split; [reflexivity |]. split.
    + by rewrite (get_known ObjectId' today today' mobile _ _ Hmobile
                    (lookup_insert_eq _ _ _)).
    + intros Hfresh.
      destruct (cast_habits_ids ObjectId items Hfresh 0 docs Hdocs) as [Hids Hlen].
      assert (docs <> []) as Hdocs_ne.
      { intros ->. destruct items; [done | discriminate]. }
      set (history := or_empty (field body "history")) in *.
      set (tasksByDate := or_empty (field body "tasksByDate")) in *.
      assert (update_habits
                (update_of mobile (body_of (Data docs history tasksByDate)))
              = JArr (json_of_habit_doc <$> docs)) as Hsame.
      { rewrite update_of_habits. cbn. by destruct docs. }
      rewrite (post_api_data_cast ObjectId'' mobile _ _ _ Hmobile Hsame).
      rewrite (cast_habits_stored ObjectId'' docs Hids 0).
      assert (or_empty (field (body_of (Data docs history tasksByDate)) "history")
              = history) as ->
        by (apply or_empty_truthy, truthy_or_empty).
      assert (or_empty (field (body_of (Data docs history tasksByDate)) "tasksByDate")
              = tasksByDate) as ->
        by (apply or_empty_truthy, truthy_or_empty).
      by rewrite insert_insert_eq.
  - intros [= <- <-]. by right.
Qed.

Lemma post_then_get_api_data_witness :
  let body :=
    Some (JObj [("habits"%string,
                 JArr [JObj [("id"%string, JStr "run"); ("label"%string, JStr "Run")]]);
                ("tasksByDate"%string, JNull)]) in
  let saved :=
    (<["9876543210"%string :=
        mkUserData "9876543210"
          [mkHabitDoc (Some "run"%string) (Some "Run"%string) "65a1f0c2b3d4e5f6a7b8c9d0"]
          (JObj []) (JObj [])]> (∅ : gmap string UserData),
     mkResponse 200
       (Data [mkHabitDoc (Some "run"%string) (Some "Run"%string)
                         "65a1f0c2b3d4e5f6a7b8c9d0"]
             (JObj []) (JObj []))) in
  "9876543210"%string <> ""%string /\
  post_api_data sample_ObjectId (Some "9876543210"%string) body ∅ = Some saved /\
  get_api_data sample_ObjectId "2023-11-14" "2023-11-14" (Some "9876543210"%string)
               (fst saved) = Some saved /\
  post_api_data sample_ObjectId (Some "9876543210"%string)
                (body_of (res_payload (snd saved))) (fst saved) = Some saved.
Proof.
  intros body saved.
  assert ("9876543210"%string <> ""%string) as Hmobile by discriminate.
  assert (post_api_data sample_ObjectId (Some "9876543210"%string) body ∅ = Some saved)
    as Hrun by reflexivity.
  split; [exact Hmobile |]. split; [exact Hrun |].
  destruct (post_then_get_api_data sample_ObjectId sample_ObjectId sample_ObjectId
              "2023-11-14" "2023-11-14" "9876543210" body ∅ (fst saved) (snd saved)
              Hmobile Hrun) as [(_ & Hget & Hagain) | [Hfailed _]].
  - split; [exact Hget |]. apply Hagain, sample_ObjectId_text.
  - discriminate Hfailed.
Defined.

(** ** The save effect *)
Section Save_facts.

Lemma save_effect_enabled (mobile : string) (payload : Snapshot) (w : SaveWorld) :
  mobile <> ""%string -> debounced w ->
  save_effect true mobile payload w
  = mkSaveWorld (S (save_next w)) [mkSavePending (save_next w) mobile payload]
                (Some (save_next w)) (save_sent w).
Proof.
  intros Hmobile Hdeb. unfold save_effect.
  destruct (String.eqb_spec mobile "") as [Heq | _]; [done |]. cbn [negb orb].
  unfold debounced in Hdeb.
  destruct (save_pending w) as [| s [| s' rest]] eqn:Hpending; [| | done].
  - by destruct (saveTimer w) as [[| id] |].
  - destruct Hdeb as [-> Hid]. destruct (Nat.eqb_spec (save_id s) 0) as [Hz | _]; [lia |].
    cbn [List.filter]. by rewrite Nat.eqb_refl.
Qed.

Lemma save_effect_debounced (isLoaded : bool) (mobile : string) (payload : Snapshot)
    (w : SaveWorld) :
  debounced w -> debounced (save_effect isLoaded mobile payload w).
Proof.
  intros Hdeb. destruct isLoaded; [| done].
  destruct (String.eqb_spec mobile "") as [-> | Hmobile]; [done |].
  rewrite save_effect_enabled by done. unfold debounced in *.
  cbn [save_pending saveTimer save_id save_next]. split; [done |].
  destruct (save_pending w) as [| s [| s' rest]]; [lia | lia | done].
Qed.

Lemma save_fires_debounced (w w' : SaveWorld) :
  debounced w -> save_fires w w' ->
  debounced w' /\ save_pending w' = [] /\
  exists s : Save, save_pending w = [s] /\
                   save_sent w' = save_sent w ++ [(save_mobile s, save_payload s)].
Proof.
  intros Hdeb Hfires. inversion Hfires as [w0 before after s Hpending Hw Hw'].
  subst w0. clear Hfires Hw'. unfold debounced in *.
  rewrite Hpending in Hdeb. cbn [save_pending save_next save_sent].
  destruct before as [| b before]; cbn [app] in *.
  - destruct after as [| a after]; [| done]. rewrite Hpending.
    split; [lia |]. split; [done |]. by exists s.
  - by destruct before, after.
Qed.

Lemma save_steps_debounced (w w' : SaveWorld) :
  debounced w -> save_steps w w' -> debounced w'.
Proof.
  intros Hdeb Hrun. induction Hrun as [w | w1 w2 w3 _ IH Hstep]; [done |].
  specialize (IH Hdeb). destruct Hstep as [isLoaded mobile payload w2 | w2 w3 Hfires].
  - by apply save_effect_debounced.
  - by apply (save_fires_debounced w2 w3).
Qed.
End Save_facts.

(** X23.  The save effect debounces.  However the effect and the timers
    interleave from the start of the component, at most one save is pending,
    and it is the one [saveTimer.current] names.  When the effect runs with
    the data loaded and an identity set, the save that was pending is
    cancelled and exactly one is pending afterwards, with the identity and
    the payload of this run; so a burst of changes sends the last state once.
    When the data is not loaded or no identity is set the effect does
    nothing, and a save that comes due is the only pending one and is sent
    as it was scheduled. *)
Theorem save_effect_debounces (w : SaveWorld) :
  save_steps initial_save_world w ->
  debounced w /\
  length (save_pending w) <= 1 /\
  (forall (mobile : string) (payload : Snapshot),
     mobile <> ""%string ->
     save_pending (save_effect true mobile payload w)
     = [mkSavePending (save_next w) mobile payload]) /\
  (forall (isLoaded : bool) (mobile : string) (payload : Snapshot),
     isLoaded = false \/ mobile = ""%string ->
     save_effect isLoaded mobile payload w = w) /\
  (forall w' : SaveWorld,
     save_fires w w' ->
     save_pending w' = [] /\
     exists s : Save, save_pending w = [s] /\
                      save_sent w' = save_sent w ++ [(save_mobile s, save_payload s)]).
Proof.
  intros Hrun.
  assert (debounced w) as Hdeb.
  { apply (save_steps_debounced initial_save_world); [| done]. cbn. lia. }
  split; [exact Hdeb |]. split; [| split; [| split]].
  - unfold debounced in Hdeb.
    destruct (save_pending w) as [| s [| s' rest]]; cbn; [lia | lia | done].
  - intros mobile payload Hmobile. by rewrite save_effect_enabled.
  - intros isLoaded mobile payload [-> | ->]; [done |]. unfold save_effect.
    by rewrite orb_true_r.
  - intros w' Hfires. by destruct (save_fires_debounced w w' Hdeb Hfires) as (_ & ? & ?).
Qed.

Lemma save_effect_debounces_witness :
  let first := mkSnapshot DEFAULT_HABITS ∅ [] in
  let second := mkSnapshot DEFAULT_HABITS ∅ sample_tasks in
  let w := save_effect true "9876543210" second
             (save_effect true "9876543210" first initial_save_world) in
  save_steps initial_save_world w /\
  save_pending w = [mkSavePending 2 "9876543210" second] /\
  length (save_pending w) <= 1.
Proof.
  intros first second w.
  assert (save_steps initial_save_world w) as Hrun.
  { eapply save_steps_step; [eapply save_steps_step; [apply save_steps_refl |] |];
      apply step_effect. }
  split; [exact Hrun |]. split; [reflexivity |].
  exact (proj1 (proj2 (save_effect_debounces w Hrun))).
Defined.

(** ** The insight before anything is logged *)
Section Tie_facts.
Local Open Scope Z_scope.

Lemma monthly_tally_empty (zone : TimeZone) (now : Z) (id : string) :
  monthly_tally zone now ∅ id = 0.
Proof.
  unfold monthly_tally.
  assert (forall days : list DateKey, List.filter (done_on ∅ id) days = []) as ->; [| done].
  induction days as [| day days IH]; [done |]. cbn [List.filter].
  unfold done_on at 1. by rewrite lookup_empty.
Qed.

(** When all tallies are equal, the first habit of the list is best and
    worst at once. *)
Lemma monthlyInsight_tie (zone : TimeZone) (now : Z) (history : History)
    (first : Habit) (rest : list Habit) :
  NoDup (habit_id <$> first :: rest) -> Forall named_id (first :: rest) ->
  Forall (fun h => monthly_tally zone now history (habit_id h)
                   = monthly_tally zone now history (habit_id first)) rest ->
  monthlyInsight zone now history (first :: rest) = mkInsight (Some first) (Some first).
Proof.
  intros Hnd Hnamed Hequal.
  destruct (monthlyInsight_first_wins zone now history first rest Hnd Hnamed)
    as [(before & best & after & Hlist & Hbest & Hbefore & _)
        (before' & worst & after' & Hlist' & Hworst & Hbefore' & _)].
  assert (best = first) as ->.
  { destruct before as [| b before]; cbn [app] in Hlist; [by injection Hlist |].
    injection Hlist as <- Hrest. apply Forall_cons in Hbefore as [Hlt _].
    rewrite Forall_forall in Hequal.
    rewrite (Hequal best) in Hlt; [lia |].
    rewrite Hrest, elem_of_app, elem_of_cons. auto. }
  assert (worst = first) as ->.
  { destruct before' as [| b before']; cbn [app] in Hlist'; [by injection Hlist' |].
    injection Hlist' as <- Hrest. apply Forall_cons in Hbefore' as [Hlt _].
    rewrite Forall_forall in Hequal.
    rewrite (Hequal worst) in Hlt; [lia |].
    rewrite Hrest, elem_of_app, elem_of_cons. auto. }
  destruct (monthlyInsight zone now history (first :: rest)) as [b w].
  cbn [bestHabit worstHabit] in *. by subst.
Qed.
End Tie_facts.

(** X24.  For a nonempty habit list with pairwise distinct ids, none of
    them an array index, [monthlyInsight] names the first habit of the list
    as [bestHabit] and as [worstHabit] whenever all habits have the same
    tally over the thirty days; in particular with an empty history, where
    nothing has been logged yet.  Both are [null] only for the empty habit
    list. *)
Theorem monthlyInsight_before_any_log
    (zone : TimeZone) (now : Z) (history : History) (first : Habit) (rest : list Habit) :
  NoDup (habit_id <$> first :: rest) ->
  Forall named_id (first :: rest) ->
  (Forall (fun h => monthly_tally zone now history (habit_id h)
                    = monthly_tally zone now history (habit_id first)) rest ->
   monthlyInsight zone now history (first :: rest) = mkInsight (Some first) (Some first)) /\
  monthlyInsight zone now ∅ (first :: rest) = mkInsight (Some first) (Some first) /\
  monthlyInsight zone now history [] = mkInsight None None.
Proof.
  intros Hnd Hnamed. split; [by apply monthlyInsight_tie |]. split.
  - apply monthlyInsight_tie; [done | done |].
    apply Forall_forall. intros h _. by rewrite !monthly_tally_empty.
  - apply monthlyInsight_no_habits.
Qed.

Lemma monthlyInsight_before_any_log_witness :
  NoDup (habit_id <$> DEFAULT_HABITS) /\
  Forall named_id DEFAULT_HABITS /\
  monthlyInsight india 1700000000000 ∅ DEFAULT_HABITS
    = mkInsight (Some (mkHabit "wake" "Wake up early"))
                (Some (mkHabit "wake" "Wake up early")).
Proof.
  assert (NoDup (habit_id <$> DEFAULT_HABITS)) as Hnd.
  { apply NoDup_ListNoDup. vm_compute.
    repeat (constructor; [cbn; intuition discriminate |]). constructor. }
  assert (Forall named_id DEFAULT_HABITS) as Hnamed
    by (repeat constructor).
  split; [exact Hnd |]. split; [exact Hnamed |].
  exact (proj1 (proj2 (monthlyInsight_before_any_log
                         india 1700000000000 ∅ (mkHabit "wake" "Wake up early")
                         (tail DEFAULT_HABITS) Hnd Hnamed))).
Defined.

(** ** Edges of the habit list *)
Section Edge_facts.
Local Open Scope Z_scope.
Variable toLowerCase : string -> string.
Variable trim : string -> string.

Lemma slugify_own (now : Z) (text : string) :
  own_slug toLowerCase text <> ""%string ->
  slugify toLowerCase now text = own_slug toLowerCase text.
Proof.
  intros Hown. unfold slugify. fold (own_slug toLowerCase text).
  by destruct (String.eqb_spec (own_slug toLowerCase text) "").
Qed.

Lemma existsb_snoc (id label : string) (habits : list Habit) :
  existsb (fun h => String.eqb (habit_id h) id) (habits ++ [mkHabit id label]) = true.
Proof.
  rewrite existsb_app. cbn [existsb habit_id]. rewrite String.eqb_refl.
  by rewrite orb_true_l, orb_true_r.
Qed.

Lemma weeklyPercentages_no_habits (zone : TimeZone) (now : Z) (history : History) :
  weeklyPercentages zone now history [] = replicate 7 0.
Proof.
  unfold weeklyPercentages.
  assert (forall days : list Z, length days = 7%nat ->
            (fun day => percentForDay (default ∅ (history !! day ≫= record_habits)) [])
              <$> days = replicate 7 0) as Hzero.
  { intros days Hlen. do 8 (destruct days as [| ? days]; try done). }
  apply Hzero, lastNDates_length.
Qed.
End Edge_facts.

(** X25.  With an empty habit list every derived number is zero or absent:
    [percentForDay] is 0 for every day map, so [calculateStreak] returns 0
    whatever the history holds, the weekly series is seven zeros with no
    full day and the average 0, [completedCount] is 0 and [monthlyInsight]
    has no habit to name. *)
Theorem derivations_without_habits
    (zone : TimeZone) (now : Z) (history : History) (st : AppState) :
  app_habits st = [] ->
  (forall M : DayMap, percentForDay M (app_habits st) = 0%Z) /\
  (forall fuel : nat,
     calculateStreak zone (S fuel) now history (app_habits st) = Some 0%nat) /\
  weeklyPercentages zone now history (app_habits st) = replicate 7 0%Z /\
  weeklyAverage (weeklyPercentages zone now history (app_habits st)) = 0%Z /\
  weeklyFullDays (weeklyPercentages zone now history (app_habits st)) = 0%nat /\
  completedCount now st = 0%nat /\
  monthlyInsight zone now history (app_habits st) = mkInsight None None.
Proof.
  intros Hnone. unfold completedCount. rewrite Hnone.
  split; [done |]. split.
  - intros fuel. unfold calculateStreak. apply streak_loop_stop.
    unfold day_percent. by destruct (history !! dateKey now).
  - rewrite weeklyPercentages_no_habits. split; [done |].
    split; [vm_compute; reflexivity |]. split; [done |]. split; [done |].
    apply monthlyInsight_no_habits.
Qed.

Lemma derivations_without_habits_witness :
  let st := mkApp [] (perfect_on [19675]%Z (sample_habits 2)) [] "2023-11-14" "" in
  app_habits st = [] /\
  calculateStreak india 3 1700000000000 (app_history st) (app_habits st) = Some 0%nat.
Proof.
  intros st. assert (app_habits st = []) as Hnone by reflexivity.
  split; [exact Hnone |].
  exact (proj1 (proj2 (derivations_without_habits india 1700000000000 (app_history st)
                         st Hnone))
           2%nat).
Defined.

(** X26.  A label is added once.  When the label has a slug of its own
    (it holds a letter or a digit after lower-casing), typing the same label
    again after [handleAddHabit] and submitting it changes nothing, whether
    the first submit added the habit or found the id taken, and whatever the
    clock reads.  The slug then does not depend on the clock. *)
Theorem handleAddHabit_same_label_once
    (toLowerCase trim : string -> string) (now now' : Z) (st : AppState) :
  own_slug toLowerCase (trim (app_newHabit st)) <> ""%string ->
  slugify toLowerCase now (trim (app_newHabit st))
    = slugify toLowerCase now' (trim (app_newHabit st)) /\
  handleAddHabit toLowerCase trim now'
    (typing (app_newHabit st) (handleAddHabit toLowerCase trim now st))
  = typing (app_newHabit st) (handleAddHabit toLowerCase trim now st).
Proof.
  intros Hown.
  pose proof (slugify_own toLowerCase now _ Hown) as Hslug.
  pose proof (slugify_own toLowerCase now' _ Hown) as Hslug'.
  split; [by rewrite Hslug, Hslug' |].
  destruct st as [habits history tasks selected newHabit]. cbn [app_newHabit] in *.
  remember (handleAddHabit toLowerCase trim now
              (mkApp habits history tasks selected newHabit)) as st1 eqn:Hst1.
  unfold handleAddHabit in Hst1.
  cbn [app_newHabit app_habits app_history app_tasksByDate app_selectedDate] in Hst1.
  destruct (String.eqb (trim newHabit) "") eqn:Hblank.
  - subst st1. unfold typing, handleAddHabit. cbn [app_newHabit]. by rewrite Hblank.
  - cbv zeta in Hst1. destruct (existsb _ habits) eqn:Htaken; subst st1.
    + unfold typing, handleAddHabit. cbn [app_newHabit app_habits]. cbv zeta.
      by rewrite Hblank, Hslug', <- Hslug, Htaken.
    + unfold typing, handleAddHabit. cbn [app_newHabit app_habits]. cbv zeta.
      by rewrite Hblank, Hslug', <- Hslug, existsb_snoc.
Qed.

Lemma handleAddHabit_same_label_once_witness :
  let st := mkApp DEFAULT_HABITS ∅ [] "2023-11-14" " Stretch! " in
  own_slug ascii_toLowerCase (ascii_trim (app_newHabit st)) <> ""%string /\
  app_habits (handleAddHabit ascii_toLowerCase ascii_trim 1700000000000 st)
    = DEFAULT_HABITS ++ [mkHabit "stretch" "Stretch!"] /\
  handleAddHabit ascii_toLowerCase ascii_trim 1700000005000
    (typing (app_newHabit st) (handleAddHabit ascii_toLowerCase ascii_trim 1700000000000 st))
  = typing (app_newHabit st) (handleAddHabit ascii_toLowerCase ascii_trim 1700000000000 st).
Proof.
  intros st.
  assert (own_slug ascii_toLowerCase (ascii_trim (app_newHabit st)) <> ""%string) as Hown
    by (vm_compute; discriminate).
  split; [exact Hown |]. split; [vm_compute; reflexivity |].
  exact (proj2 (handleAddHabit_same_label_once ascii_toLowerCase ascii_trim
                  1700000000000 1700000005000 st Hown)).
Defined.

(** X27.  In every zone [lastNDates(n)] has [n] keys, none for [n = 0],
    and the seven days of the weekly series are the last seven of the thirty
    days of the monthly insight.  In a zone whose offset never changes it is
    the run of [n] consecutive days that ends today, without gap or
    repetition: its element at index [i] is the day [n - 1 - i] days before
    today. *)
Theorem lastNDates_consecutive (zone : TimeZone) (now : Z) (n : nat) :
  length (lastNDates zone now n) = n /\
  lastNDates zone now 0 = [] /\
  lastNDates zone now 7 = drop 23 (lastNDates zone now 30) /\
  (constant_offset zone ->
   (forall i : nat, (i < n)%nat ->
      lastNDates zone now n !! i = Some (todayKey now - Z.of_nat (n - 1 - i))%Z) /\
   NoDup (lastNDates zone now n)).
Proof.
  split; [apply lastNDates_length |]. split; [reflexivity |]. split.
  - rewrite !lastNDates_keys.
    change (rev (seq 0 30)) with (rev (seq 7 23) ++ rev (seq 0 7)).
    rewrite fmap_app, drop_app_length'; [done |].
    by rewrite length_fmap, length_rev, length_seq.
  - intros Hconstant. rewrite (lastNDates_seqZ zone Hconstant). split.
    + intros i Hi. rewrite lookup_seqZ_lt by lia. f_equal. lia.
    + apply NoDup_seqZ.
Qed.

Lemma lastNDates_consecutive_witness :
  constant_offset india /\
  lastNDates india 1700000000000 3 = [19673; 19674; 19675]%Z /\
  NoDup (lastNDates india 1700000000000 3).
Proof.
  assert (constant_offset india) as Hconstant by (exists 19800000%Z; reflexivity).
  split; [exact Hconstant |]. split; [vm_compute; reflexivity |].
  exact (proj2 (proj2 (proj2 (proj2 (lastNDates_consecutive india 1700000000000 3)))
                  Hconstant)).
Defined.

(** ** Saving, loading and signing in *)
Section Client_server_facts.

Lemma load_of_data (today today' : string) (habits : list HabitDoc)
    (history tasksByDate : json) :
  load_effect today today' (Some (mkResponse 200 (Data habits history tasksByDate)))
  = mkLoaded (match habits with
              | [] => JArr (habit_json <$> App_DEFAULT_HABITS)
              | _ :: _ => JArr (json_of_habit_doc <$> habits)
              end)
             (if truthy history && has_keys history then history
              else JObj [(today, JObj [("habits"%string, JObj [])])])
             (if truthy tasksByDate then tasksByDate else JObj [(today', JArr [])]).
Proof. by destruct habits. Qed.

Lemma handleAuth_sends_text (trim : string -> string) (mobileInput : string) :
  trim mobileInput <> ""%string ->
  property (body_or_empty (Some (JObj [("mobile"%string, JStr (trim mobileInput))])))
           "mobile"
  = Some (JStr (trim mobileInput)).
Proof. reflexivity. Qed.

(** The three fields of the body that the save effect sends. *)
Lemma field_of_saved (items : list json) (history tasksByDate : json) :
  let body := Some (JObj [("habits"%string, JArr items); ("history"%string, history);
                          ("tasksByDate"%string, tasksByDate)]) in
  field body "habits" = Some (JArr items) /\
  field body "history" = Some history /\
  field body "tasksByDate" = Some tasksByDate.
Proof. repeat split. Qed.

Lemma habits_of_stored (ObjectId : nat -> string) (habits : list Habit) :
  forall index : nat,
  habit_of_json
    <$> (json_of_habit_doc
           <$> imap (fun i => stored_as ObjectId (index + i)) (habit_json <$> habits))
  = Some <$> habits.
Proof.
  induction habits as [| h habits IH]; intros index; [done |].
  rewrite fmap_cons. cbn [imap]. rewrite !fmap_cons, habit_of_stored. f_equal.
  rewrite <- (IH (S index)). do 2 f_equal. apply imap_ext. intros i x _. cbn.
  f_equal. lia.
Qed.
End Client_server_facts.

(** X28.  What the client saves it loads again.  After [POST /api/data]
    with the three fields of the client state, whose habits are habit
    objects, [GET /api/data] answers 200 and the load effect fed with that
    answer sets: the saved habits, each with the two paths of the schema and
    its [_id], in the saved order, so that habits the client made read with
    the same ids and labels as before; for an empty habit list, the seven
    default habits of the server; a history that is an object with a key, as
    it was saved; for a history that is falsy or the empty object, an empty
    entry for today; the saved tasks when they are truthy and the empty
    object otherwise. *)
Theorem reload_after_save
    (ObjectId ObjectId' : nat -> string) (today today' clock clock' mobile : string)
    (items : list json) (history tasksByDate : json) (store : gmap string UserData) :
  mobile <> ""%string ->
  Forall (fun v => habit_object v = true) items ->
  let body := Some (JObj [("habits"%string, JArr items); ("history"%string, history);
                          ("tasksByDate"%string, tasksByDate)]) in
  let docs := match items with
              | [] => default_docs ObjectId
              | _ :: _ => imap (stored_as ObjectId) items
              end in
  exists (store' : gmap string UserData) (answer : Response),
    post_api_data ObjectId (Some mobile) body store = Some (store', answer) /\
    get_api_data ObjectId' today today' (Some mobile) store' = Some (store', answer) /\
    res_status answer = 200 /\
    loaded_habits (load_effect clock clock' (Some answer))
    = JArr (json_of_habit_doc <$> docs) /\
    (forall habits : list Habit, habits <> [] -> items = habit_json <$> habits ->
       habit_of_json <$> (json_of_habit_doc <$> docs) = Some <$> habits) /\
    (forall (kv : string * json) (fields : list (string * json)),
       history = JObj (kv :: fields) ->
       loaded_history (load_effect clock clock' (Some answer)) = history) /\
    (truthy history = false \/ history = JObj [] ->
     loaded_history (load_effect clock clock' (Some answer))
     = JObj [(clock, JObj [("habits"%string, JObj [])])]) /\
    loaded_tasksByDate (load_effect clock clock' (Some answer))
    = (if truthy tasksByDate then tasksByDate else JObj []).
Proof.
  intros Hmobile Hitems body docs.
  destruct (field_of_saved items history tasksByDate) as (Hhabits & Hhistory & Htasks).
  fold body in Hhabits, Hhistory, Htasks.
  assert (post_api_data ObjectId (Some mobile) body store
          = Some (<[mobile := mkUserData mobile docs (or_empty (Some history))
                                         (or_empty (Some tasksByDate))]> store,
                  mkResponse 200 (Data docs (or_empty (Some history))
                                       (or_empty (Some tasksByDate))))) as Hpost.
  { assert (update_habits (update_of mobile body)
            = JArr (match items with
                    | [] => habit_json <$> DEFAULT_HABITS
                    | _ :: _ => items
                    end)) as Hupdate.
    { rewrite update_of_habits, Hhabits. by destruct items. }
    rewrite (post_api_data_cast ObjectId mobile body store _ Hmobile Hupdate).
    rewrite Hhistory, Htasks. unfold docs. destruct items as [| first rest].
    - by rewrite cast_DEFAULT_HABITS.
    - by rewrite (cast_habits_objects ObjectId _ 0 Hitems). }
  eexists _, _. split; [exact Hpost |]. split.
  { apply (get_known ObjectId' today today' mobile
             (mkUserData mobile docs (or_empty (Some history))
                         (or_empty (Some tasksByDate))));
      [done | apply lookup_insert_eq]. }
  split; [reflexivity |]. rewrite load_of_data.
  cbn [loaded_habits loaded_history loaded_tasksByDate].
  assert (docs <> []) as Hdocs.
  { unfold docs. destruct items; [| done]. discriminate. }
  split; [by destruct docs |]. split.
  { intros habits Hne ->. unfold docs. destruct habits as [| h habits]; [done |].
    apply (habits_of_stored ObjectId (h :: habits) 0). }
  split.
  { by intros kv fields ->. }
  split.
  { intros [Hfalsy | ->]; [| done]. cbn [or_empty]. by rewrite Hfalsy. }
  cbn [or_empty]. by destruct (truthy tasksByDate) eqn:Htruthy; rewrite ?Htruthy.
Qed.

Lemma reload_after_save_witness :
  let history :=
    JObj [("2023-11-14"%string,
           JObj [("habits"%string, JObj [("run"%string, JBool true)])])] in
  let tasksByDate := JObj [("2023-11-14"%string, JArr [])] in
  let body :=
    Some (JObj [("habits"%string, JArr [habit_json (mkHabit "run" "Run")]);
                ("history"%string, history); ("tasksByDate"%string, tasksByDate)]) in
  "9876543210"%string <> ""%string /\
  Forall (fun v => habit_object v = true) [habit_json (mkHabit "run" "Run")] /\
  exists (store' : gmap string UserData) (answer : Response),
    post_api_data sample_ObjectId (Some "9876543210"%string) body ∅
      = Some (store', answer) /\
    get_api_data sample_ObjectId "2023-11-15" "2023-11-15" (Some "9876543210"%string)
                 store' = Some (store', answer) /\
    load_effect "2023-11-15" "2023-11-15" (Some answer)
    = mkLoaded
        (JArr [JObj [("id"%string, JStr "run"); ("label"%string, JStr "Run");
                     ("_id"%string, JStr "65a1f0c2b3d4e5f6a7b8c9d0")]])
        history tasksByDate.
Proof.
  intros history tasksByDate body.
  assert ("9876543210"%string <> ""%string) as Hmobile by discriminate.
  assert (Forall (fun v => habit_object v = true) [habit_json (mkHabit "run" "Run")])
    as Hitems by (repeat constructor).
  split; [exact Hmobile |]. split; [exact Hitems |].
  destruct (reload_after_save sample_ObjectId sample_ObjectId
              "2023-11-15" "2023-11-15" "2023-11-15" "2023-11-15" "9876543210"
              [habit_json (mkHabit "run" "Run")] history tasksByDate ∅ Hmobile Hitems)
    as (store' & answer & Hpost & Hget & _).
  exists store', answer. split; [exact Hpost |]. split; [exact Hget |].
  fold body in Hpost. injection Hpost as _ <-. reflexivity.
Defined.

(** X29.  [handleAuth] sends nothing for an input that is blank after
    trimming and shows [Enter mobile number].  Otherwise it sends the trimmed
    input as a string, so the server always has an answer for it: a signup
    ends signed in under the trimmed number, which then has a document; a
    login ends signed in when the number has a document and shows
    [User not found] when it has none, the store unchanged; and a login after
    a signup with the same input ends signed in. *)
Theorem handleAuth_outcomes
    (trim : string -> string) (ObjectId : nat -> string) (today today' : string)
    (mobileInput : string) (store : gmap string UserData) :
  (trim mobileInput = ""%string ->
   forall mode : AuthMode,
     handleAuth trim ObjectId mode today today' mobileInput store
     = Some (store, AuthFailed "Enter mobile number")) /\
  (trim mobileInput <> ""%string ->
   (exists store' : gmap string UserData,
      handleAuth trim ObjectId signup today today' mobileInput store
        = Some (store', SignedIn (trim mobileInput)) /\
      is_Some (store' !! trim mobileInput) /\
      (forall other : string, other <> trim mobileInput ->
         store' !! other = store !! other) /\
      forall (ObjectId' : nat -> string) (later later' : string),
        handleAuth trim ObjectId' login later later' mobileInput store'
        = Some (store', SignedIn (trim mobileInput))) /\
   handleAuth trim ObjectId login today today' mobileInput store
   = Some (store,
           if bool_decide (is_Some (store !! trim mobileInput))
           then SignedIn (trim mobileInput)
           else AuthFailed "User not found")).
Proof.
  split.
  - intros Hblank mode. unfold handleAuth. by rewrite Hblank.
  - intros Hmobile.
    pose proof (handleAuth_sends_text trim mobileInput Hmobile) as Hbody.
    assert (forall (ObjectId' : nat -> string) (later later' : string)
                   (store0 : gmap string UserData),
              handleAuth trim ObjectId' login later later' mobileInput store0
              = Some (store0,
                      if bool_decide (is_Some (store0 !! trim mobileInput))
                      then SignedIn (trim mobileInput)
                      else AuthFailed "User not found")) as Hlogin.
    { intros ObjectId' later later' store0. unfold handleAuth.
      destruct (String.eqb_spec (trim mobileInput) "") as [Heq | _]; [done |].
      cbv zeta. rewrite (login_text _ _ store0 Hbody Hmobile).
      destruct (store0 !! trim mobileInput) as [doc |] eqn:Hdoc.
      - by rewrite bool_decide_eq_true_2.
      - rewrite bool_decide_eq_false_2; [done |]. by intros [doc Hdoc']. }
    split; [| apply Hlogin].
    unfold handleAuth at 1.
    destruct (String.eqb_spec (trim mobileInput) "") as [Heq | _]; [done |].
    cbv zeta. rewrite (signup_text ObjectId today today' _ _ store Hbody Hmobile).
    destruct (store !! trim mobileInput) as [doc |] eqn:Hdoc.
    + exists store. split; [reflexivity |]. split; [by exists doc |].
      split; [done |]. intros ObjectId' later later'. rewrite Hlogin.
      by rewrite bool_decide_eq_true_2.
    + eexists. split; [reflexivity |]. rewrite lookup_insert_eq.
      split; [by eexists |]. split; [intros other Hother; by rewrite lookup_insert_ne |].
      intros ObjectId' later later'. rewrite Hlogin, lookup_insert_eq.
      by rewrite bool_decide_eq_true_2.
Qed.

(** ** The extremes of the monthly insight *)
Section Extreme_facts.
Local Open Scope Z_scope.

Lemma monthly_tally_range (zone : TimeZone) (now : Z) (history : History)
    (id : string) :
  0 <= monthly_tally zone now history id <= 30.
Proof.
  unfold monthly_tally.
  pose proof (filter_length_bound (done_on history id) (lastNDates zone now 30)) as Hle.
  rewrite lastNDates_length in Hle. lia.
Qed.
End Extreme_facts.

(** X30.  For a nonempty habit list with pairwise distinct ids, none of
    them an array index, [monthlyInsight] names two habits of the list:
    [bestHabit] has the highest tally of done days over the thirty days and
    [worstHabit] the lowest, every tally lying between 0 and 30. *)
Theorem monthlyInsight_extremes
    (zone : TimeZone) (now : Z) (history : History) (first : Habit) (rest : list Habit) :
  NoDup (habit_id <$> first :: rest) ->
  Forall named_id (first :: rest) ->
  exists best worst : Habit,
    monthlyInsight zone now history (first :: rest) = mkInsight (Some best) (Some worst) /\
    best ∈ first :: rest /\ worst ∈ first :: rest /\
    forall h : Habit, h ∈ first :: rest ->
      (0 <= monthly_tally zone now history (habit_id worst)
         <= monthly_tally zone now history (habit_id h))%Z /\
      (monthly_tally zone now history (habit_id h)
         <= monthly_tally zone now history (habit_id best) <= 30)%Z.
Proof.
  intros Hnd Hnamed.
  destruct (monthlyInsight_first_wins zone now history first rest Hnd Hnamed)
    as [(before & best & after & Hlist & Hbest & Hbefore & Hafter)
        (before' & worst & after' & Hlist' & Hworst & Hbefore' & Hafter')].
  exists best, worst. split; [| split; [| split]].
  - destruct (monthlyInsight zone now history (first :: rest)) as [b w].
    cbn [bestHabit worstHabit] in *. by subst.
  - rewrite Hlist, elem_of_app, elem_of_cons. auto.
  - rewrite Hlist', elem_of_app, elem_of_cons. auto.
  - intros h Hh.
    pose proof (monthly_tally_range zone now history (habit_id worst)) as Hw.
    pose proof (monthly_tally_range zone now history (habit_id best)) as Hb.
    rewrite Forall_forall in Hbefore, Hafter, Hbefore', Hafter'. split.
    + split; [lia |]. rewrite Hlist', elem_of_app, elem_of_cons in Hh.
      destruct Hh as [Hh | [-> | Hh]]; [specialize (Hbefore' h Hh) | | specialize (Hafter' h Hh)];
        cbv beta in *; lia.
    + split; [| lia]. rewrite Hlist, elem_of_app, elem_of_cons in Hh.
      destruct Hh as [Hh | [-> | Hh]]; [specialize (Hbefore h Hh) | | specialize (Hafter h Hh)];
        cbv beta in *; lia.
Qed.

Lemma monthlyInsight_extremes_witness :
  let habits := [mkHabit "wake" "Wake up early"; mkHabit "read" "Reading"] in
  let history := perfect_on [19675]%Z [mkHabit "read" "Reading"] in
  NoDup (habit_id <$> habits) /\
  Forall named_id habits /\
  exists best worst : Habit,
    monthlyInsight india 1700000000000 history habits = mkInsight (Some best) (Some worst) /\
    best ∈ habits /\ worst ∈ habits.
Proof.
  intros habits history.
  assert (NoDup (habit_id <$> habits)) as Hnd.
  { apply NoDup_ListNoDup. vm_compute.
    repeat (constructor; [cbn; intuition discriminate |]). constructor. }
  assert (Forall named_id habits) as Hnamed by (repeat constructor).
  split; [exact Hnd |]. split; [exact Hnamed |].
  destruct (monthlyInsight_extremes india 1700000000000 history (mkHabit "wake" "Wake up early")
              [mkHabit "read" "Reading"] Hnd Hnamed)
    as (best & worst & Hrun & Hbest & Hworst & _).
  exists best, worst. split; [exact Hrun |]. split; [exact Hbest | exact Hworst].
Defined.
